(** * Legal document demystifier: a shallow embedding of the interpretation layer

    The development embeds the part of the repository that interprets the text
    returned by the generative model:

    - [src/src/qa_system.py]          the confidence estimator,
    - [src/src/clause_extractor.py]   the clause parser, its line-oriented
                                      fallback and the span highlighter,
    - [src/src/entity_extractor.py]   the entity parser and its fallback,
    - [src/src/enhanced_processor.py] the per-document pipeline,
    - [src/src/document_processor.py] the basic pipeline and the batch driver.

    Python values are modelled as follows.  A [str] is a [string]; its
    characters are the 8-bit code points U+0000 to U+00FF.  A [float] is an IEEE
    754 binary64 number ([spec_float] at precision 53, emax 1024).  An [int] is
    a [Z].  A raised exception is the [Raise] outcome of the [exc] monad, so
    that [try]/[except] blocks are pattern matches on outcomes.  What lives
    outside the repository is a parameter: [json.loads], the order in which
    a [set] is iterated and [str()] of an arbitrary object are [Variable]s of
    the sections that need them; the file system, the text extractor and the
    generative model are the fields of the [world] a run takes place in. *)

From Stdlib Require Import ZArith String Ascii List Lia Bool DecimalString.
From Stdlib Require Import Floats.SpecFloat.
From stdpp Require Import base option list gmap strings.

Open Scope Z_scope.

(* ===================================================================== *)
(** * Part I: definitions                                                 *)
(* ===================================================================== *)

(** ** Exceptions and outcomes *)

(** The exception classes the embedded code can meet.  All of them derive
    from [Exception]; [JSONDecodeError] is the only one a handler singles out. *)
Inductive exn : Type :=
| JSONDecodeError
| AttributeError
| TypeError
| KeyError
| UnboundLocalError (name : string)
| ValueError (msg : string)
| OtherError (msg : string).

Inductive exc (A : Type) : Type :=
| Val (a : A)
| Raise (e : exn).

Arguments Val {A} a.
Arguments Raise {A} e.

Definition bind {A B : Type} (m : exc A) (k : A -> exc B) : exc B :=
  match m with
  | Val a => k a
  | Raise e => Raise e
  end.

#[global] Instance exc_bind : MBind exc := fun A B k m => bind m k.
#[global] Instance exc_ret : MRet exc := fun A a => Val a.

(** ** Strings *)

Module Str.

Definition newline : ascii := "010"%char.
Definition dquote : ascii := "034"%char.
Definition colon : string := ":"%string.

Definition code (c : ascii) : nat := nat_of_ascii c.

Definition between (lo hi n : nat) : bool := (lo <=? n)%nat && (n <=? hi)%nat.

(** [str.isspace] on U+0000..U+00FF: TAB..CR, FS..US, SPACE, NEL, NBSP. *)
Definition isspace (c : ascii) : bool :=
  let n := code c in
  between 9 13 n || between 28 32 n || (n =? 133)%nat || (n =? 160)%nat.

(** [str.lower]: A-Z and the Latin-1 capitals (all of U+00C0..U+00DE but the
    multiplication sign) move up by 32. *)
Definition lower_char (c : ascii) : ascii :=
  let n := code c in
  if between 65 90 n || (between 192 222 n && negb (n =? 215)%nat)
  then ascii_of_nat (n + 32) else c.

Fixpoint lower (s : string) : string :=
  match s with
  | EmptyString => EmptyString
  | String c s' => String (lower_char c) (lower s')
  end.

(** [str.upper].  The sharp s becomes "SS".  The micro sign and y-diaeresis
    have capitals above U+00FF; they are left in place, which no containment
    test against an ASCII keyword (the only use of [upper] here) can tell
    apart. *)
Definition upper_char (c : ascii) : string :=
  let n := code c in
  if between 97 122 n || (between 224 254 n && negb (n =? 247)%nat)
  then String (ascii_of_nat (n - 32)) EmptyString
  else if (n =? 223)%nat then "SS"%string
  else String c EmptyString.

Fixpoint upper (s : string) : string :=
  match s with
  | EmptyString => EmptyString
  | String c s' => (upper_char c +:+ upper s')%string
  end.

Definition is_empty (s : string) : bool :=
  match s with EmptyString => true | _ => false end.

Fixpoint lstrip (s : string) : string :=
  match s with
  | EmptyString => EmptyString
  | String c s' => if isspace c then lstrip s' else s
  end.

Fixpoint rstrip (s : string) : string :=
  match s with
  | EmptyString => EmptyString
  | String c s' =>
      let r := rstrip s' in
      if isspace c && is_empty r then EmptyString else String c r
  end.

(** [s.strip()] *)
Definition strip (s : string) : string := rstrip (lstrip s).

Fixpoint mem_char (c : ascii) (chars : string) : bool :=
  match chars with
  | EmptyString => false
  | String d chars' => Ascii.eqb c d || mem_char c chars'
  end.

(** [s.lstrip(chars)] *)
Fixpoint lstrip_chars (chars s : string) : string :=
  match s with
  | EmptyString => EmptyString
  | String c s' => if mem_char c chars then lstrip_chars chars s' else s
  end.

(** [s.startswith(p)] *)
Definition startswith (s p : string) : bool := String.prefix p s.

(** [sub in s] *)
Fixpoint contains (sub s : string) : bool :=
  String.prefix sub s ||
  match s with
  | EmptyString => false
  | String _ s' => contains sub s'
  end.

(** [s.find(sub)], counted from offset [i]; -1 when absent. *)
Fixpoint find_from (sub s : string) (i : Z) : Z :=
  if String.prefix sub s then i
  else match s with
       | EmptyString => -1
       | String _ s' => find_from sub s' (i + 1)
       end.

Definition find (s sub : string) : Z := find_from sub s 0.

(** [s.rfind(sub)]: the last occurrence; -1 when absent. *)
Fixpoint rfind_from (sub s : string) (i : Z) : Z :=
  match s with
  | EmptyString => if String.prefix sub s then i else -1
  | String _ s' =>
      let r := rfind_from sub s' (i + 1) in
      if r =? -1 then (if String.prefix sub s then i else -1) else r
  end.

Definition rfind (s sub : string) : Z := rfind_from sub s 0.

(** Slice bounds as Python normalises them: a negative index counts from
    the end, and everything is clamped to [0, len]. *)
Definition clamp_index (n i : Z) : Z :=
  if i <? 0 then Z.max 0 (i + n) else Z.min i n.

(** [s[a:b]] *)
Definition slice (s : string) (a b : Z) : string :=
  let n := Z.of_nat (String.length s) in
  let a' := clamp_index n a in
  let b' := clamp_index n b in
  substring (Z.to_nat a') (Z.to_nat (b' - a')) s.

(** [s.split(sep)] for a one-character separator. *)
Fixpoint split (sep : ascii) (s : string) : list string :=
  match s with
  | EmptyString => [EmptyString]
  | String c s' =>
      if Ascii.eqb c sep then EmptyString :: split sep s'
      else match split sep s' with
           | x :: r => String c x :: r
           | [] => [String c EmptyString]
           end
  end.

Fixpoint drop (n : nat) (s : string) : string :=
  match n, s with
  | O, _ => s
  | S n', String _ s' => drop n' s'
  | S _, EmptyString => EmptyString
  end.

(** [s.replace(old, new, 1)]: the leftmost occurrence only. *)
Fixpoint replace_first (old new s : string) : string :=
  if String.prefix old s then (new +:+ drop (String.length old) s)%string
  else match s with
       | EmptyString => EmptyString
       | String c s' => String c (replace_first old new s')
       end.

(** [s.endswith(p)] *)
Fixpoint endswith (s p : string) : bool :=
  String.eqb s p ||
  match s with
  | EmptyString => false
  | String _ s' => endswith s' p
  end.

(** [s.split(sep, 1)[-1]]: what follows the first [sep], or all of [s]
    when [sep] does not occur. *)
Fixpoint after_first (sep : ascii) (s : string) : string :=
  match s with
  | EmptyString => EmptyString
  | String c s' =>
      if Ascii.eqb c sep then s'
      else if contains (String sep EmptyString) s' then after_first sep s'
      else s
  end.

(** [c.isdigit()] on U+0000..U+00FF: 0-9 and the superscripts 2, 3 and 1. *)
Definition isdigit (c : ascii) : bool :=
  let n := code c in
  between 48 57 n || (n =? 178)%nat || (n =? 179)%nat || (n =? 185)%nat.

(** [s.split()]: the words between runs of white space. *)
Fixpoint words (s : string) : list string :=
  match s with
  | EmptyString => []
  | String c s' =>
      if isspace c then words s'
      else
        match s' with
        | EmptyString => [String c EmptyString]
        | String d _ =>
            if isspace d then String c EmptyString :: words s'
            else match words s' with
                 | w :: ws => String c w :: ws
                 | [] => [String c EmptyString]
                 end
        end
  end.

(** [s.split(sep)] for a separator of several characters, scanning from the
    left; [skip] counts the characters of a separator still to pass over. *)
Fixpoint split_on (sep s : string) (skip : nat) : list string :=
  match s with
  | EmptyString => [EmptyString]
  | String c s' =>
      match skip with
      | S k => split_on sep s' k
      | O =>
          if String.prefix sep s
          then EmptyString :: split_on sep s' (String.length sep - 1)
          else match split_on sep s' 0 with
               | x :: r => String c x :: r
               | [] => [String c EmptyString]
               end
      end
  end.

(** [s.replace(old, new)] for a non-empty [old]: every occurrence, scanning
    from the left without overlap. *)
Fixpoint replace_all (old new s : string) (skip : nat) : string :=
  match s with
  | EmptyString => EmptyString
  | String c s' =>
      match skip with
      | S k => replace_all old new s' k
      | O =>
          if String.prefix old s
          then (new +:+ replace_all old new s' (String.length old - 1))%string
          else String c (replace_all old new s' 0)
      end
  end.

(** [s.rfind(sub, a, b)]: the last occurrence inside [s[a:b]], as an index
    of [s]; -1 when there is none. *)
Definition rfind_in (s sub : string) (a b : Z) : Z :=
  let n := Z.of_nat (String.length s) in
  let a' := clamp_index n a in
  let r := rfind (slice s a b) sub in
  if r =? -1 then -1 else r + a'.

(** The decimal numeral of a natural number, as an f-string prints it. *)
Definition of_nat (n : nat) : string := NilEmpty.string_of_uint (Nat.to_uint n).

End Str.

(** ** Floats *)

Module F64.

Definition float64 : Type := spec_float.

Definition prec : Z := 53.
Definition emax : Z := 1024.

Definition add : float64 -> float64 -> float64 := SFadd prec emax.
Definition sub : float64 -> float64 -> float64 := SFsub prec emax.
Definition ltb : float64 -> float64 -> bool := SFltb.
Definition leb : float64 -> float64 -> bool := SFleb.
Definition eqb : float64 -> float64 -> bool := SFeqb.

Definition zero : float64 := S754_zero false.

(** The binary64 number nearest to [m * 10^e] (ties to even): the value of
    the decimal literal with digits [m] and exponent [e]. *)
Definition decimal (m e : Z) : float64 :=
  match m with
  | Z0 => zero
  | _ =>
      if 0 <=? e then binary_normalize prec emax (m * 10 ^ e) 0 false
      else
        let '(q, e', l) :=
          SFdiv_core_binary prec emax (Z.abs m) 0 (10 ^ (- e)) 0 in
        binary_round_aux prec emax (m <? 0) q e' l
  end.

(** [a / b] on non-negative integers with [b] positive: the binary64 number
    nearest to the quotient. *)
Definition truediv (a b : Z) : float64 :=
  match a with
  | Z0 => zero
  | _ =>
      let '(q, e', l) := SFdiv_core_binary prec emax a 0 b 0 in
      binary_round_aux prec emax false q e' l
  end.

(** [min(a, b)] and [max(a, b)] of the builtins: the first argument is kept
    unless the second is strictly better. *)
Definition py_min (a b : float64) : float64 := if ltb b a then b else a.
Definition py_max (a b : float64) : float64 := if ltb a b then b else a.

(** [lo <= v <= hi] *)
Definition within (lo hi v : float64) : Prop :=
  leb lo v = true /\ leb v hi = true.

End F64.

Abbreviation float64 := F64.float64.

(** ** Python values *)

(** The values [json.loads] can return, which are also the values the
    dictionaries built by the pipeline hold. *)
#[warnings="-register-all"]
Inductive pyval : Type :=
| PNone
| PBool (b : bool)
| PInt (n : Z)
| PFloat (f : float64)
| PStr (s : string)
| PList (items : list pyval)
| PDict (entries : list (string * pyval)).

Module Py.

(** Truth value of an object, as [if v:] and [not v] test it. *)
Definition truthy (v : pyval) : bool :=
  match v with
  | PNone => false
  | PBool b => b
  | PInt n => negb (n =? 0)
  | PFloat f => negb (F64.eqb f F64.zero)
  | PStr s => negb (Str.is_empty s)
  | PList l => match l with [] => false | _ => true end
  | PDict d => match d with [] => false | _ => true end
  end.

(** [hash(v)] raises [TypeError] on lists and dictionaries. *)
Definition hashable (v : pyval) : bool :=
  match v with
  | PList _ | PDict _ => false
  | _ => true
  end.

(** Dictionaries with string keys, in insertion order. *)
Fixpoint dict_get {V : Type} (k : string) (d : list (string * V)) : option V :=
  match d with
  | [] => None
  | (k', v) :: d' => if String.eqb k k' then Some v else dict_get k d'
  end.

Definition dict_has {V : Type} (k : string) (d : list (string * V)) : bool :=
  match dict_get k d with Some _ => true | None => false end.

(** [d.get(k, dflt)] *)
Definition get_or {V : Type} (k : string) (dflt : V) (d : list (string * V)) : V :=
  match dict_get k d with Some v => v | None => dflt end.

(** [d[k] = v]: an existing key keeps its place. *)
Fixpoint dict_set {V : Type} (k : string) (v : V) (d : list (string * V))
  : list (string * V) :=
  match d with
  | [] => [(k, v)]
  | (k', v') :: d' =>
      if String.eqb k k' then (k, v) :: d' else (k', v') :: dict_set k v d'
  end.

(** [d[k].append(x)] for a key that is present (a missing key changes nothing
    here; the callers only append under a key they have set). *)
Fixpoint dict_append {V : Type} (k : string) (x : V) (d : list (string * list V))
  : list (string * list V) :=
  match d with
  | [] => []
  | (k', l) :: d' =>
      if String.eqb k k' then (k', l ++ [x]) :: d' else (k', l) :: dict_append k x d'
  end.

(** The integer a float equals, when it equals one. *)
Definition float_as_Z (f : float64) : option Z :=
  match f with
  | S754_zero _ => Some 0
  | S754_finite s m e =>
      let v :=
        if 0 <=? e then Some (Z.pos m * 2 ^ e)
        else if Z.pos m mod 2 ^ (- e) =? 0 then Some (Z.pos m / 2 ^ (- e))
        else None in
      if s then Z.opp <$> v else v
  | _ => None
  end.

(** [a == b] between hashable values, as a dictionary compares its keys:
    [bool], [int] and [float] compare by numeric value. *)
Definition key_eq (a b : pyval) : bool :=
  let as_Z v :=
    match v with
    | PBool b => Some (if b then 1 else 0)
    | PInt n => Some n
    | PFloat f => float_as_Z f
    | _ => None
    end in
  match a, b with
  | PNone, PNone => true
  | PStr x, PStr y => String.eqb x y
  | PFloat x, PFloat y => F64.eqb x y
  | (PBool _ | PInt _), (PBool _ | PInt _ | PFloat _)
  | PFloat _, (PBool _ | PInt _) =>
      match as_Z a, as_Z b with
      | Some x, Some y => x =? y
      | _, _ => false
      end
  | _, _ => false
  end.

(** A dictionary of counts with arbitrary hashable keys. *)
Definition counter : Type := list (pyval * Z).

(** [d.get(k, 0)] *)
Fixpoint counter_get (k : pyval) (d : counter) : Z :=
  match d with
  | [] => 0
  | (k', n) :: d' => if key_eq k k' then n else counter_get k d'
  end.

(** [k in d] *)
Definition counter_has (k : pyval) (d : counter) : bool :=
  existsb (fun kn => key_eq k (fst kn)) d.

(** [d[k] = n]: an existing key keeps its place and its first spelling. *)
Fixpoint counter_set (k : pyval) (n : Z) (d : counter) : counter :=
  match d with
  | [] => [(k, n)]
  | (k', n') :: d' =>
      if key_eq k k' then (k', n) :: d' else (k', n') :: counter_set k n d'
  end.

(** [d[k] = d.get(k, 0) + 1]; an unhashable key raises. *)
Definition counter_incr (k : pyval) (d : counter) : exc counter :=
  if hashable k then Val (counter_set k (counter_get k d + 1) d)
  else Raise TypeError.

(** The elements a [for] loop draws from an object. *)
Definition iterate (v : pyval) : exc (list pyval) :=
  match v with
  | PList l => Val l
  | PDict d => Val (map (fun kv => PStr (fst kv)) d)
  | PStr s => Val (map (fun c => PStr (String c EmptyString)) (list_ascii_of_string s))
  | _ => Raise TypeError
  end.

(** [v.strip()]: only a [str] has the method. *)
Definition strip_method (v : pyval) : exc string :=
  match v with
  | PStr s => Val (Str.strip s)
  | _ => Raise AttributeError
  end.

(** [v.items()]: only a [dict] has the method. *)
Definition items_method (v : pyval) : exc (list (string * pyval)) :=
  match v with
  | PDict d => Val d
  | _ => Raise AttributeError
  end.

End Py.

(** A cleaned clause: the dictionary with the five keys [clause_type],
    [clause_text], [context], [importance] and [section] that both parsers
    build.  Only [clause_text] is known to be a [str]; the other values are
    whatever the response carried. *)
Record clause : Type := {
  clause_type : pyval;
  clause_text : string;
  clause_context : pyval;
  clause_importance : pyval;
  clause_section : pyval
}.

(** ** qa_system.py *)

Module GeminiQASystem.

Definition uncertain_phrases : list string :=
  ["might"; "could"; "possibly"; "unclear"; "not specified"; "not mentioned"]%string.

(** The float literals of [_estimate_confidence]. *)
Definition lit_0_8 : float64 := F64.decimal 8 (-1).
Definition lit_0_2 : float64 := F64.decimal 2 (-1).
Definition lit_0_1 : float64 := F64.decimal 1 (-1).
Definition lit_1_0 : float64 := F64.decimal 1 0.
Definition lit_0_0 : float64 := F64.decimal 0 0.

(** The loop over [uncertain_phrases]: 0.2 off for each phrase found. *)
Definition lower_confidence (answer_text : string) (confidence : float64)
  : float64 :=
  fold_left
    (fun confidence phrase =>
       if Str.contains phrase (Str.lower answer_text)
       then F64.sub confidence lit_0_2 else confidence)
    uncertain_phrases confidence.

Definition has_reference (answer_text : string) : bool :=
  Str.contains (String Str.dquote EmptyString) answer_text
  || Str.contains "section" (Str.lower answer_text).

Definition _estimate_confidence (answer_text : string) : float64 :=
  if Str.is_empty answer_text then lit_0_0
  else
    let confidence := lit_0_8 in
    let confidence := lower_confidence answer_text confidence in
    let confidence :=
      if has_reference answer_text then F64.add confidence lit_0_1
      else confidence in
    F64.py_max lit_0_1 (F64.py_min lit_1_0 confidence).

(** [self.question_categories], in the order of the dictionary literal. *)
Definition question_categories : list (string * list string) :=
  [ ("parties",
     [ "Who are the parties to this agreement?";
       "What are the roles of each party?";
       "Who is the primary contractor/client?" ]);
    ("terms",
     [ "What is the duration of this agreement?";
       "When does this contract expire?";
       "What are the key dates and deadlines?" ]);
    ("payment",
     [ "What are the payment terms?";
       "How much will be paid and when?";
       "Are there any penalty fees mentioned?" ]);
    ("termination",
     [ "How can this agreement be terminated?";
       "What notice period is required for termination?";
       "What happens upon termination?" ]);
    ("obligations",
     [ "What are the main obligations of each party?";
       "What deliverables are expected?";
       "What are the performance requirements?" ]);
    ("legal",
     [ "What law governs this agreement?";
       "How are disputes resolved?";
       "Are there any liability limitations?" ]) ]%string.

(** The questions returned when the stage fails. *)
Definition default_questions : list string :=
  [ "Who are the parties to this agreement?";
    "What are the main terms and conditions?";
    "What are the payment obligations?";
    "How can this agreement be terminated?";
    "What are the key dates and deadlines?";
    "What law governs this agreement?" ]%string.

(** The question a response line holds, if any.  The source also accepts a
    line that starts with the bullet U+2022 and strips that bullet; no string
    of the 8-bit repertoire contains it. *)
Definition question_of_line (raw_line : string) : option string :=
  let line := Str.strip raw_line in
  match line with
  | EmptyString => None
  | String c _ =>
      if Str.isdigit c || Str.startswith line "-" then
        let question :=
          if Str.contains "." line then Str.strip (Str.after_first "." line)
          else Str.strip line in
        let question := Str.strip (Str.lstrip_chars "- " question) in
        if negb (Str.is_empty question)
           && (10 <? String.length question)%nat
           && Str.endswith question "?"
        then Some question else None
      else None
  end.

Definition string_in (x : string) (l : list string) : bool :=
  existsb (String.eqb x) l.

(** The second loop: category questions fill the list up to eight. *)
Definition fill_questions (suggested_questions : list string) : list string :=
  if (List.length suggested_questions <? 6)%nat then
    let category_questions :=
      flat_map (fun cq => firstn 2 (snd cq)) question_categories in
    fold_left
      (fun suggested q =>
         if (List.length suggested <? 8)%nat && negb (string_in q suggested)
         then suggested ++ [q] else suggested)
      category_questions suggested_questions
  else suggested_questions.

(** [get_suggested_questions]; [response] is the outcome of
    [self.flash_model.generate_content(prompt).text]. *)
Definition get_suggested_questions (response : exc string) : list string :=
  match response with
  | Val text =>
      let suggested_questions :=
        omap question_of_line (Str.split Str.newline text) in
      firstn 10 (fill_questions suggested_questions)
  | Raise _ => default_questions
  end.

(** *** Supporting sections of an answer *)

(** The distinct elements of a list of words, as a [set] holds them. *)
Definition distinct (ws : list string) : list string := nodup string_dec ws.

(** [len(answer_words.intersection(sentence_words))] *)
Definition overlap (answer_words sentence_words : list string) : nat :=
  List.length
    (distinct (List.filter (fun w => string_in w answer_words) sentence_words)).

(** The sentences of the document: the pieces between full stops, trimmed,
    that are longer than 20 characters. *)
Definition doc_sentences (document_text : string) : list string :=
  map Str.strip
    (List.filter (fun s => (20 <? String.length (Str.strip s))%nat)
       (Str.split "." document_text)).

(** What is appended for a sentence: its first 200 characters and an
    ellipsis when it is longer than 200, the sentence otherwise. *)
Definition section_of (sentence : string) : string :=
  if (200 <? String.length sentence)%nat
  then (Str.slice (Str.strip sentence) 0 200 +:+ "...")%string
  else Str.strip sentence.

(** The loop over the sentences, left at the third section. *)
Fixpoint collect_sections (answer_words : list string) (sentences sections : list string)
  : list string :=
  match sentences with
  | [] => sections
  | sentence :: rest =>
      let sentence_words := Str.words (Str.lower sentence) in
      let sections :=
        if (3 <=? overlap answer_words sentence_words)%nat
        then sections ++ [section_of sentence] else sections in
      if (3 <=? List.length sections)%nat then sections
      else collect_sections answer_words rest sections
  end.

Definition _extract_relevant_sections (document_text question answer : string)
  : list string :=
  collect_sections (Str.words (Str.lower answer)) (doc_sentences document_text) [].

(** *** Answering a question *)

(** The text stored under ['answer']: the trimmed answer of the model, or the
    apology that quotes the exception. *)
Inductive answer_text : Type :=
| Answered (s : string)
| Sorry (e : exn).

(** The dictionary [answer_question] returns. *)
Record answer_data : Type := {
  question : string;
  answer : answer_text;
  confidence : float64;
  relevant_sections : list string;
  context_clauses_used : Z
}.

(** [len(context_clauses) if context_clauses else 0] *)
Definition clauses_used (context_clauses : option (list clause)) : Z :=
  match context_clauses with
  | Some cs => Z.of_nat (List.length cs)
  | None => 0
  end.

(** [answer_question]; [response] is the outcome of
    [self.model.generate_content(prompt).text].  The prompt, of which the
    first three context clauses are a part, goes to the model. *)
Definition answer_question (response : exc string) (document_text q : string)
    (context_clauses : option (list clause)) : answer_data :=
  match response with
  | Val response_text =>
      {| question := q;
         answer := Answered (Str.strip response_text);
         confidence := _estimate_confidence response_text;
         relevant_sections := _extract_relevant_sections document_text q response_text;
         context_clauses_used := clauses_used context_clauses |}
  | Raise e =>
      {| question := q;
         answer := Sorry e;
         confidence := lit_0_0;
         relevant_sections := [];
         context_clauses_used := 0 |}
  end.

(** [batch_answer_questions]; [responses i] is the outcome of the model call
    made for the question at index [i]. *)
Fixpoint batch_answers (responses : nat -> exc string) (document_text : string)
    (i : nat) (questions : list string) : list answer_data :=
  match questions with
  | [] => []
  | q :: rest =>
      answer_question (responses i) document_text q None
      :: batch_answers responses document_text (S i) rest
  end.

Definition batch_answer_questions (responses : nat -> exc string)
    (document_text : string) (questions : list string) : list answer_data :=
  batch_answers responses document_text 0 questions.

(** *** Searching *)

(** One search result: the dictionary with the keys ['text'], ['relevance'],
    ['context'] and ['query']. *)
Record search_hit : Type := {
  hit_text : string;
  hit_relevance : string;
  hit_context : string;
  hit_query : string
}.

Inductive hit_field : Type := TextField | RelevanceField | ContextField.

(** [result_data[field] = value] *)
Definition set_field (f : hit_field) (value : string) (h : search_hit) : search_hit :=
  match f with
  | TextField =>
      {| hit_text := value; hit_relevance := hit_relevance h;
         hit_context := hit_context h; hit_query := hit_query h |}
  | RelevanceField =>
      {| hit_text := hit_text h; hit_relevance := value;
         hit_context := hit_context h; hit_query := hit_query h |}
  | ContextField =>
      {| hit_text := hit_text h; hit_relevance := hit_relevance h;
         hit_context := value; hit_query := hit_query h |}
  end.

Definition get_field (f : hit_field) (h : search_hit) : string :=
  match f with
  | TextField => hit_text h
  | RelevanceField => hit_relevance h
  | ContextField => hit_context h
  end.

(** [line.replace(label, '').strip()] *)
Definition field_value (label line : string) : string :=
  Str.strip (Str.replace_all label EmptyString line 0).

(** One line of a result section. *)
Definition search_line (st : search_hit * option hit_field) (raw_line : string)
  : search_hit * option hit_field :=
  let '(result_data, current_field) := st in
  let line := Str.strip raw_line in
  if Str.startswith line "Text:"
  then (set_field TextField (field_value "Text:" line) result_data, Some TextField)
  else if Str.startswith line "Relevance:"
  then (set_field RelevanceField (field_value "Relevance:" line) result_data,
        Some RelevanceField)
  else if Str.startswith line "Context:"
  then (set_field ContextField (field_value "Context:" line) result_data,
        Some ContextField)
  else
    match current_field with
    | Some f =>
        if negb (Str.is_empty line)
        then (set_field f (get_field f result_data +:+ " " +:+ line)%string result_data,
              current_field)
        else st
    | None => st
    end.

(** The result a section holds. *)
Definition parse_section (query section : string) : search_hit :=
  fst (fold_left search_line (Str.split Str.newline (Str.strip section))
         ({| hit_text := EmptyString; hit_relevance := EmptyString;
             hit_context := EmptyString; hit_query := query |}, None)).

(** A result is kept when its text is longer than 10 characters. *)
Definition meaningful (h : search_hit) : bool :=
  negb (Str.is_empty (hit_text h)) && (10 <? String.length (hit_text h))%nat.

Definition _parse_search_results (response_text query : string) : list search_hit :=
  firstn 5
    (List.filter meaningful
       (map (parse_section query) (tl (Str.split_on "**Result" response_text 0)))).

(** The dictionary [search_document] returns; ['error'] is present on
    failure only. *)
Record search_data : Type := {
  search_query : string;
  search_results : list search_hit;
  total_results : Z;
  search_error : option exn;
  searched_length : Z
}.

(** [search_document]; [response] is the outcome of
    [self.flash_model.generate_content(prompt).text].  The parameter
    [max_results] enters the prompt only. *)
Definition search_document (response : exc string) (document_text query : string)
  : search_data :=
  match response with
  | Val response_text =>
      let results := _parse_search_results response_text query in
      {| search_query := query;
         search_results := results;
         total_results := Z.of_nat (List.length results);
         search_error := None;
         searched_length := Z.of_nat (String.length document_text) |}
  | Raise e =>
      {| search_query := query;
         search_results := [];
         total_results := 0;
         search_error := Some e;
         searched_length := Z.of_nat (String.length document_text) |}
  end.

End GeminiQASystem.

(** ** clause_extractor.py *)

Module GeminiClauseExtractor.

(** [self.clause_types], in the order the dictionary literal lists it. *)
Definition clause_types : list (string * string) :=
  [ ("TERMINATION", "Clauses related to contract termination, expiry, or cancellation");
    ("PAYMENT", "Payment terms, fees, invoicing, and financial obligations");
    ("INDEMNIFICATION", "Indemnity, liability, and hold harmless provisions");
    ("CONFIDENTIALITY", "Non-disclosure and confidentiality requirements");
    ("INTELLECTUAL_PROPERTY", "IP rights, ownership, and licensing terms");
    ("FORCE_MAJEURE", "Force majeure and unforeseeable circumstances");
    ("GOVERNING_LAW", "Jurisdiction, governing law, and dispute resolution");
    ("WARRANTIES", "Warranties, representations, and guarantees");
    ("LIMITATION_LIABILITY", "Liability limitations and damage caps");
    ("ASSIGNMENT", "Assignment and transfer of rights provisions");
    ("AMENDMENT", "Contract modification and amendment procedures");
    ("DELIVERY", "Delivery terms, timelines, and performance obligations") ]%string.

(** [self.clause_types.keys()] *)
Definition clause_type_names : list string := map fst clause_types.

(** The closed category set: a string among the keys of [clause_types]. *)
Definition known_type (v : pyval) : Prop :=
  exists name, v = PStr name /\ In name clause_type_names.

(** *** The line-oriented fallback *)

(** The fresh dictionary a keyword line opens. *)
Definition new_clause (name : string) : clause :=
  {| clause_type := PStr name;
     clause_text := EmptyString;
     clause_context := PStr EmptyString;
     clause_importance := PStr "MEDIUM";
     clause_section := PStr "Unknown" |}.

(** [current_clause['clause_text'] = line] *)
Definition set_clause_text (c : clause) (line : string) : clause :=
  {| clause_type := clause_type c;
     clause_text := line;
     clause_context := clause_context c;
     clause_importance := clause_importance c;
     clause_section := clause_section c |}.

(** The inner [for ... break]: the first clause type whose lower-cased name
    occurs in the lower-cased line, provided the line has a colon. *)
Definition clause_indicator (line : string) : option string :=
  List.find
    (fun name =>
       Str.contains (Str.lower name) (Str.lower line)
       && Str.contains Str.colon line)
    clause_type_names.

Definition field_keywords : list string := ["type:"; "context:"; "importance:"]%string.

(** The loop state: the list built so far and [current_clause], which is the
    empty dictionary ([None] here) until a keyword line opens a record. *)
Definition fallback_state : Type := (list clause * option clause)%type.

Definition fallback_line (st : fallback_state) (raw_line : string)
  : fallback_state :=
  let '(clauses, current_clause) := st in
  let line := Str.strip raw_line in
  let '(clauses, current_clause) :=
    match clause_indicator line with
    | Some name =>
        (match current_clause with
         | Some c => clauses ++ [c]
         | None => clauses
         end, Some (new_clause name))
    | None => (clauses, current_clause)
    end in
  match current_clause with
  | Some c =>
      if negb (Str.is_empty line)
         && negb (existsb (fun keyword => Str.contains keyword (Str.lower line))
                    field_keywords)
      then
        if (20 <? String.length line)%nat
        then (clauses, Some (set_clause_text c line))
        else (clauses, current_clause)
      else (clauses, current_clause)
  | None => (clauses, current_clause)
  end.

Definition _fallback_clause_parsing (response_text : string) : list clause :=
  let lines := Str.split Str.newline response_text in
  let '(clauses, current_clause) := fold_left fallback_line lines ([], None) in
  match current_clause with
  | Some c => clauses ++ [c]
  | None => clauses
  end.

(** *** The strict path *)

(** One turn of the validation loop: [Some] is the cleaned clause that is
    appended, [None] an element that is skipped. *)
Definition clean_clause (item : pyval) : exc (option clause) :=
  match item with
  | PDict d =>
      if Py.dict_has "clause_type" d && Py.dict_has "clause_text" d then
        text ← Py.strip_method (Py.get_or "clause_text" (PStr EmptyString) d);
        let cleaned_clause :=
          {| clause_type := Py.get_or "clause_type" (PStr EmptyString) d;
             clause_text := text;
             clause_context := Py.get_or "context" (PStr EmptyString) d;
             clause_importance := Py.get_or "importance" (PStr "MEDIUM") d;
             clause_section := Py.get_or "section" (PStr "Unknown") d |} in
        Val (if (20 <? String.length text)%nat then Some cleaned_clause else None)
      else Val None
  | _ => Val None
  end.

Fixpoint clean_clauses (items : list pyval) (cleaned_clauses : list clause)
  : exc (list clause) :=
  match items with
  | [] => Val cleaned_clauses
  | item :: rest =>
      r ← clean_clause item;
      clean_clauses rest
        (match r with
         | Some c => cleaned_clauses ++ [c]
         | None => cleaned_clauses
         end)
  end.

Section Parsing.

(** [json.loads], from the standard library. *)
Variable json_loads : string -> exc pyval.

(** The text handed to [json.loads]: the span from the first '[' to the last
    ']' when there is one, the whole response otherwise. *)
Definition json_candidate (response_text : string) : string :=
  let start_idx := Str.find response_text "[" in
  let end_idx := Str.rfind response_text "]" + 1 in
  if negb (start_idx =? -1) && (end_idx >? start_idx)
  then Str.slice response_text start_idx end_idx
  else response_text.

(** The body of the [try] block. *)
Definition parse_clauses_strict (response_text : string) : exc (list clause) :=
  clauses ← json_loads (json_candidate response_text);
  items ← Py.iterate clauses;
  clean_clauses items [].

(** The function with its two handlers: [JSONDecodeError] engages the
    fallback, any other exception gives the empty list. *)
Definition _parse_clause_response (response_text : string) : exc (list clause) :=
  match parse_clauses_strict response_text with
  | Val cleaned_clauses => Val cleaned_clauses
  | Raise JSONDecodeError => Val (_fallback_clause_parsing response_text)
  | Raise _ => Val []
  end.

(** Whether [_build_clause_extraction_prompt] runs through: it iterates
    [clause_types] and looks every element up in [self.clause_types].  The
    prompt text itself goes to the generative model and is not modelled. *)
Definition _build_clause_extraction_prompt (clause_types : pyval) : exc unit :=
  items ← Py.iterate clause_types;
  if forallb Py.hashable items then Val tt else Raise TypeError.

(** [clause_types] after [if clause_types is None: ...]. *)
Definition searched_types (clause_types : pyval) : pyval :=
  match clause_types with
  | PNone => PList (map PStr clause_type_names)
  | _ => clause_types
  end.

(** The dictionary [extract_clauses] returns. *)
Record clause_data : Type := {
  clauses : list clause;
  total_clauses_found : Z;
  clause_types_searched : pyval;
  document_length : Z
}.

(** The payload of the [except] branch.  [clause_types] has already been
    replaced by the full list when the caller passed [None]. *)
Definition no_clauses (text : string) (clause_types : pyval) : clause_data :=
  let clause_types := searched_types clause_types in
  {| clauses := [];
     total_clauses_found := 0;
     clause_types_searched :=
       if Py.truthy clause_types then clause_types else PList [];
     document_length := Z.of_nat (String.length text) |}.

(** The body of the [try] block; [response] is the outcome of
    [self.model.generate_content(prompt).text]. *)
Definition extract_clauses_body (response : exc string) (text : string)
    (clause_types : pyval) : exc clause_data :=
  let clause_types := searched_types clause_types in
  _ ← _build_clause_extraction_prompt clause_types;
  response_text ← response;
  extracted_clauses ← _parse_clause_response response_text;
  Val {| clauses := extracted_clauses;
         total_clauses_found := Z.of_nat (List.length extracted_clauses);
         clause_types_searched := clause_types;
         document_length := Z.of_nat (String.length text) |}.

Definition extract_clauses (response : exc string) (text : string)
    (clause_types : pyval) : clause_data :=
  match extract_clauses_body response text clause_types with
  | Val clause_data => clause_data
  | Raise _ => no_clauses text clause_types
  end.

End Parsing.

(** *** Highlighting *)

Definition color_map : list (string * string) :=
  [ ("TERMINATION", "#ffcccc");
    ("PAYMENT", "#ccffcc");
    ("INDEMNIFICATION", "#ffcc99");
    ("CONFIDENTIALITY", "#ccccff");
    ("INTELLECTUAL_PROPERTY", "#ffccff");
    ("FORCE_MAJEURE", "#ffffcc");
    ("GOVERNING_LAW", "#ccffff");
    ("WARRANTIES", "#f0ccff");
    ("LIMITATION_LIABILITY", "#ffccdd");
    ("ASSIGNMENT", "#ccffdd");
    ("AMENDMENT", "#ddccff");
    ("DELIVERY", "#ddffcc") ]%string.

(** [color_map.get(clause_type, '#f0f0f0')]: the lookup hashes its key. *)
Definition color_of (t : pyval) : exc string :=
  match t with
  | PStr name => Val (Py.get_or name "#f0f0f0"%string color_map)
  | _ => if Py.hashable t then Val "#f0f0f0"%string else Raise TypeError
  end.

(** [sorted(clauses, key=lambda x: len(x.get('clause_text', '')),
    reverse=True)]: longest first, clauses of equal length in their
    original order. *)
Fixpoint insert_by_length (c : clause) (sorted : list clause) : list clause :=
  match sorted with
  | [] => [c]
  | d :: rest =>
      if (String.length (clause_text c) <? String.length (clause_text d))%nat
      then d :: insert_by_length c rest
      else c :: sorted
  end.

Definition sorted_clauses (clauses : list clause) : list clause :=
  fold_right insert_by_length [] clauses.

Section Highlighting.

(** [str(v)], as an f-string field formats a value. *)
Variable py_str : pyval -> string.

Definition dq : string := String Str.dquote EmptyString.

(** The f-string that builds the [<span>] wrapper. *)
Definition highlight_span (color : string) (c : clause) (text : string) : string :=
  ("<span style=" +:+ dq +:+ "background-color: " +:+ color
   +:+ "; padding: 2px; border-left: 3px solid #333; margin: 2px;" +:+ dq
   +:+ " title=" +:+ dq +:+ py_str (clause_type c) +:+ ": "
   +:+ py_str (clause_context c) +:+ dq +:+ ">" +:+ text +:+ "</span>")%string.

(** One turn of the loop over [sorted_clauses]. *)
Definition highlight_clause (highlighted_text : string) (c : clause) : exc string :=
  let text := Str.strip (clause_text c) in
  if negb (Str.is_empty text) && Str.contains text highlighted_text then
    color ← color_of (clause_type c);
    Val (Str.replace_first text (highlight_span color c text) highlighted_text)
  else Val highlighted_text.

Fixpoint highlight_loop (highlighted_text : string) (clauses : list clause)
  : exc string :=
  match clauses with
  | [] => Val highlighted_text
  | c :: rest =>
      highlighted_text ← highlight_clause highlighted_text c;
      highlight_loop highlighted_text rest
  end.

(** The function: on any exception the original text is returned. *)
Definition highlight_clauses_in_text (text : string) (clauses : list clause) : string :=
  match highlight_loop text (sorted_clauses clauses) with
  | Val highlighted_text => highlighted_text
  | Raise _ => text
  end.

End Highlighting.

(** *** The clause summary *)

(** What [generate_clause_summary] returns: the report (without
    [importance_distribution] when there are no clauses), or the payload of
    its [except] branch. *)
Inductive clause_summary : Type :=
| ClauseSummary (total_clauses high_importance : Z)
    (clause_distribution : Py.counter)
    (importance_distribution : option Py.counter)
    (key_findings recommendations : list string)
| ClauseSummaryError (total_clauses : Z) (error : exn).

Definition initial_importance_counts : Py.counter :=
  [ (PStr "HIGH", 0); (PStr "MEDIUM", 0); (PStr "LOW", 0) ].

(** The loop that counts clause types and importance levels. *)
Fixpoint count_clauses (clauses : list clause)
    (clause_distribution importance_counts : Py.counter)
  : exc (Py.counter * Py.counter) :=
  match clauses with
  | [] => Val (clause_distribution, importance_counts)
  | c :: rest =>
      clause_distribution ← Py.counter_incr (clause_type c) clause_distribution;
      importance_counts ← Py.counter_incr (clause_importance c) importance_counts;
      count_clauses rest clause_distribution importance_counts
  end.

Definition is_high (c : clause) : bool :=
  Py.key_eq (clause_importance c) (PStr "HIGH").

Definition generate_clause_summary (clauses : list clause) : clause_summary :=
  match clauses with
  | [] => ClauseSummary 0 0 [] None [] []
  | _ =>
      match count_clauses clauses [] initial_importance_counts with
      | Val (clause_distribution, importance_counts) =>
          let high_importance_clauses := List.filter is_high clauses in
          let key_findings :=
            (match high_importance_clauses with
             | [] => []
             | _ => [ ("Found " +:+ Str.of_nat (List.length high_importance_clauses)
                       +:+ " high-importance clauses requiring attention")%string ]
             end)
            ++ (if Py.counter_has (PStr "TERMINATION") clause_distribution
                then ["Document contains termination provisions"%string] else [])
            ++ (if Py.counter_has (PStr "PAYMENT") clause_distribution
                then ["Payment terms are specified in the document"%string] else []) in
          let recommendations :=
            (if Py.counter_get (PStr "HIGH") importance_counts >? 0
             then ["Review all high-importance clauses carefully"%string] else [])
            ++ (if Py.counter_has (PStr "LIMITATION_LIABILITY") clause_distribution
                then [] else ["Consider adding liability limitation clauses"%string])
            ++ (if Py.counter_has (PStr "GOVERNING_LAW") clause_distribution
                then [] else ["Ensure governing law and jurisdiction are specified"%string]) in
          ClauseSummary (Z.of_nat (List.length clauses))
            (Py.counter_get (PStr "HIGH") importance_counts)
            clause_distribution (Some importance_counts)
            key_findings recommendations
      | Raise e => ClauseSummaryError (Z.of_nat (List.length clauses)) e
      end
  end.

End GeminiClauseExtractor.

(** ** entity_extractor.py *)

(** An entity map: category name to list of entity strings. *)
Abbreviation entity_map := (list (string * list string)).

Module GeminiEntityExtractor.

(** [self.entity_categories], in the order the dictionary literal lists it. *)
Definition entity_categories : list (string * string) :=
  [ ("PERSONS", "Names of individuals, lawyers, judges, witnesses");
    ("ORGANIZATIONS", "Company names, law firms, courts, government bodies");
    ("LOCATIONS", "Addresses, cities, states, countries, jurisdictions");
    ("DATES", "Important dates, deadlines, effective dates");
    ("MONETARY_VALUES", "Financial amounts, fees, damages, penalties");
    ("LEGAL_REFERENCES", "Statutes, regulations, case law, legal codes");
    ("AGREEMENTS", "Contract types, agreement names, legal instruments");
    ("LEGAL_CONCEPTS", "Legal terms, causes of action, legal principles") ]%string.

Definition entity_category_names : list string := map fst entity_categories.

(** *** The line-oriented fallback *)

(** The inner [for ... break]: the first category whose name occurs in the
    upper-cased line, provided the line has a colon. *)
Definition category_indicator (line : string) : option string :=
  List.find
    (fun category =>
       Str.contains category (Str.upper line) && Str.contains Str.colon line)
    entity_category_names.

(** [any(line.startswith(f"{i}.") for i in range(1, 20))] *)
Definition starts_with_number (line : string) : bool :=
  existsb (fun i => Str.startswith line (Str.of_nat i +:+ ".")%string) (seq 1 19).

Definition is_entity_line (line : string) : bool :=
  Str.startswith line "-" || Str.startswith line "*" || starts_with_number line.

Definition fallback_state : Type := (entity_map * option string)%type.

Definition fallback_line (st : fallback_state) (raw_line : string)
  : fallback_state :=
  let '(entities, current_category) := st in
  let line := Str.strip raw_line in
  let '(entities, current_category) :=
    match category_indicator line with
    | Some category => (Py.dict_set category [] entities, Some category)
    | None => (entities, current_category)
    end in
  match current_category with
  | Some category =>
      if is_entity_line line then
        let entity := Str.strip (Str.lstrip_chars "-*0123456789. " line) in
        if negb (Str.is_empty entity) && (1 <? String.length entity)%nat
        then (Py.dict_append category entity entities, current_category)
        else (entities, current_category)
      else (entities, current_category)
  | None => (entities, current_category)
  end.

Definition _fallback_entity_parsing (response_text : string) : entity_map :=
  let lines := Str.split Str.newline response_text in
  fst (fold_left fallback_line lines ([], None)).

(** *** The strict path *)

(** The list comprehension
    [[entity.strip() for entity in entity_list
      if entity and len(entity.strip()) > 1]]. *)
Fixpoint stripped_entities (entity_list : list pyval) : exc (list string) :=
  match entity_list with
  | [] => Val []
  | entity :: rest =>
      if Py.truthy entity then
        s ← Py.strip_method entity;
        r ← stripped_entities rest;
        Val (if (1 <? String.length s)%nat then s :: r else r)
      else stripped_entities rest
  end.

Section Parsing.

(** [json.loads], from the standard library. *)
Variable json_loads : string -> exc pyval.

(** [list(set(xs))]: the elements of [xs] once each, in the order the
    interpreter's hash table yields them. *)
Variable list_of_set : list string -> list string.

Definition json_candidate (response_text : string) : string :=
  let start_idx := Str.find response_text "{" in
  let end_idx := Str.rfind response_text "}" + 1 in
  if negb (start_idx =? -1) && negb (end_idx =? -1)
  then Str.slice response_text start_idx end_idx
  else response_text.

(** The loop over [entities.items()]. *)
Fixpoint clean_entities (items : list (string * pyval)) (cleaned_entities : entity_map)
  : exc entity_map :=
  match items with
  | [] => Val cleaned_entities
  | (category, entity_list) :: rest =>
      match entity_list with
      | PList l =>
          xs ← stripped_entities l;
          let clean_list := firstn 20 (list_of_set xs) in
          clean_entities rest
            (match clean_list with
             | [] => cleaned_entities
             | _ => Py.dict_set category clean_list cleaned_entities
             end)
      | _ => clean_entities rest cleaned_entities
      end
  end.

(** The body of the [try] block. *)
Definition parse_entities_strict (response_text : string) : exc entity_map :=
  entities ← json_loads (json_candidate response_text);
  items ← Py.items_method entities;
  clean_entities items [].

Definition _parse_entity_response (response_text : string) : exc entity_map :=
  match parse_entities_strict response_text with
  | Val cleaned_entities => Val cleaned_entities
  | Raise JSONDecodeError => Val (_fallback_entity_parsing response_text)
  | Raise _ => Val []
  end.

(** The dictionary [extract_entities] returns. *)
Record entity_data : Type := {
  entities : entity_map;
  extraction_type : pyval;
  total_entities : Z;
  categories_found : list string;
  text_length : Z
}.

(** [sum(len(v) for v in entities.values())] *)
Definition count_entities (entities : entity_map) : Z :=
  fold_left (fun n kv => n + Z.of_nat (List.length (snd kv))) entities 0.

(** The payload of the [except] branch. *)
Definition no_entities (text : string) (extraction_type : pyval) : entity_data :=
  {| entities := [];
     extraction_type := extraction_type;
     total_entities := 0;
     categories_found := [];
     text_length := Z.of_nat (String.length text) |}.

(** [extract_entities]; [response] is the outcome of
    [model.generate_content(prompt).text]. *)
Definition extract_entities (response : exc string) (text : string)
    (extraction_type : pyval) : entity_data :=
  match (response_text ← response; _parse_entity_response response_text) with
  | Val entities =>
      {| entities := entities;
         extraction_type := extraction_type;
         total_entities := count_entities entities;
         categories_found := map fst entities;
         text_length := Z.of_nat (String.length text) |}
  | Raise _ => no_entities text extraction_type
  end.

(** The dictionary [extract_legal_relationships] returns;
    [analysis_type] is always ['legal_relationships']. *)
Record relationship_data : Type := {
  relationships : entity_map;
  analysis_type : string;
  total_relationships : Z
}.

Definition no_relationships : relationship_data :=
  {| relationships := [];
     analysis_type := "legal_relationships";
     total_relationships := 0 |}.

Definition extract_legal_relationships (response : exc string) : relationship_data :=
  match (response_text ← response; _parse_entity_response response_text) with
  | Val relationships =>
      {| relationships := relationships;
         analysis_type := "legal_relationships";
         total_relationships := count_entities relationships |}
  | Raise _ => no_relationships
  end.

End Parsing.

End GeminiEntityExtractor.

(** ** A reference decoder for [json.loads]

    The parsers above take [json.loads] as a parameter, and what is proved
    of them for every response holds whatever the decoder returns.  To run
    them on a concrete response the decoder below follows the grammar of
    CPython's [json] module: surrounding white space, [null], [true], [false],
    [NaN] and the infinities, numbers ([int] without fraction and exponent,
    [float] otherwise), strings with their escapes, arrays, and objects whose
    repeated keys keep the last value.  Two things are outside the model: an
    escape that denotes a character above U+00FF, reported as [OtherError],
    and the interpreter's recursion limit. *)

Module Json.

Definition is_ws (c : ascii) : bool :=
  let n := Str.code c in
  (n =? 32)%nat || (n =? 9)%nat || (n =? 10)%nat || (n =? 13)%nat.

Fixpoint skip_ws (s : string) : string :=
  match s with
  | String c s' => if is_ws c then skip_ws s' else s
  | EmptyString => EmptyString
  end.

Definition digit_val (c : ascii) : option Z :=
  let n := Str.code c in
  if Str.between 48 57 n then Some (Z.of_nat (n - 48)) else None.

Definition hex_val (c : ascii) : option Z :=
  let n := Str.code c in
  if Str.between 48 57 n then Some (Z.of_nat (n - 48))
  else if Str.between 97 102 n then Some (Z.of_nat (n - 87))
  else if Str.between 65 70 n then Some (Z.of_nat (n - 55))
  else None.

(** The text that follows the prefix [p], when [s] starts with it. *)
Definition after_prefix (p s : string) : option string :=
  if String.prefix p s then Some (Str.drop (String.length p) s) else None.

(** A run of digits: the value with the digits appended to [v], how many
    digits were read, and the rest. *)
Fixpoint scan_digits (s : string) (v n : Z) : Z * Z * string :=
  match s with
  | String c s' =>
      match digit_val c with
      | Some d => scan_digits s' (10 * v + d) (n + 1)
      | None => (v, n, s)
      end
  | EmptyString => (v, n, s)
  end.

(** The integer part, an optional minus sign and then either a lone 0 or a
    digit run that does not start with 0: its sign, its value and the rest. *)
Definition scan_integer (s : string) : option (bool * Z * string) :=
  let '(neg, s1) :=
    match s with
    | String "-"%char r => (true, r)
    | _ => (false, s)
    end in
  match s1 with
  | String c r =>
      match digit_val c with
      | Some 0 => Some (neg, 0, r)
      | Some d => let '(v, _, rest) := scan_digits r d 1 in Some (neg, v, rest)
      | None => None
      end
  | EmptyString => None
  end.

(** The fraction [(\.[0-9]+)?]: the digits appended to [v], their number. *)
Definition scan_fraction (s : string) (v : Z) : option (Z * Z * string) :=
  match s with
  | String "."%char r =>
      let '(v', n, rest) := scan_digits r v 0 in
      if 0 <? n then Some (v', n, rest) else None
  | _ => None
  end.

(** The exponent [([eE][-+]?[0-9]+)?] *)
Definition scan_exponent (s : string) : option (Z * string) :=
  match s with
  | String c r =>
      if Ascii.eqb c "e" || Ascii.eqb c "E" then
        let '(neg, r1) :=
          match r with
          | String "-"%char r' => (true, r')
          | String "+"%char r' => (false, r')
          | _ => (false, r)
          end in
        let '(v, n, rest) := scan_digits r1 0 0 in
        if 0 <? n then Some ((if neg then - v else v), rest) else None
      else None
  | EmptyString => None
  end.

(** [float(text)] of a literal with digits [m], sign [neg], exponent [e]. *)
Definition float_of_literal (neg : bool) (m e : Z) : float64 :=
  if m =? 0 then S754_zero neg
  else F64.decimal (if neg then - m else m) e.

Definition scan_number (s : string) : option (pyval * string) :=
  match scan_integer s with
  | None => None
  | Some (neg, i, r) =>
      let '(m, k, r1, has_frac) :=
        match scan_fraction r i with
        | Some (m, k, r1) => (m, k, r1, true)
        | None => (i, 0, r, false)
        end in
      match scan_exponent r1 with
      | Some (e, r2) => Some (PFloat (float_of_literal neg m (e - k)), r2)
      | None =>
          if has_frac then Some (PFloat (float_of_literal neg m (- k)), r1)
          else Some (PInt (if neg then - i else i), r1)
      end
  end.

(** The character an escape letter stands for. *)
Definition simple_escape (c : ascii) : option ascii :=
  let n := Str.code c in
  if (n =? 34)%nat then Some c            (* quotation mark *)
  else if (n =? 92)%nat then Some c       (* reverse solidus *)
  else if (n =? 47)%nat then Some c       (* solidus *)
  else if (n =? 98)%nat then Some (ascii_of_nat 8)
  else if (n =? 102)%nat then Some (ascii_of_nat 12)
  else if (n =? 110)%nat then Some (ascii_of_nat 10)
  else if (n =? 114)%nat then Some (ascii_of_nat 13)
  else if (n =? 116)%nat then Some (ascii_of_nat 9)
  else None.

Definition hex4 (a b c d : ascii) : option Z :=
  match hex_val a, hex_val b, hex_val c, hex_val d with
  | Some x, Some y, Some z, Some w => Some (((x * 16 + y) * 16 + z) * 16 + w)
  | _, _, _, _ => None
  end.

(** The body of a string literal, after its opening quotation mark. *)
Fixpoint scan_string (s : string) : exc (string * string) :=
  match s with
  | EmptyString => Raise JSONDecodeError
  | String c r =>
      let n := Str.code c in
      if (n =? 34)%nat then Val (EmptyString, r)
      else if (n <? 32)%nat then Raise JSONDecodeError
      else if (n =? 92)%nat then
        match r with
        | String "u"%char (String h1 (String h2 (String h3 (String h4 r')))) =>
            match hex4 h1 h2 h3 h4 with
            | Some v =>
                if v <? 256 then
                  match scan_string r' with
                  | Val (body, rest) =>
                      Val (String (ascii_of_nat (Z.to_nat v)) body, rest)
                  | Raise e => Raise e
                  end
                else Raise (OtherError "character above U+00FF")
            | None => Raise JSONDecodeError
            end
        | String e r' =>
            match simple_escape e with
            | Some x =>
                match scan_string r' with
                | Val (body, rest) => Val (String x body, rest)
                | Raise e => Raise e
                end
            | None => Raise JSONDecodeError
            end
        | EmptyString => Raise JSONDecodeError
        end
      else
        match scan_string r with
        | Val (body, rest) => Val (String c body, rest)
        | Raise e => Raise e
        end
  end.

Definition out_of_fuel {A : Type} : exc A := Raise (OtherError "out of fuel").

(** One value at the head of [s]; arrays and objects recurse. *)
Fixpoint scan_value (fuel : nat) (s : string) {struct fuel} : exc (pyval * string) :=
  match fuel with
  | O => out_of_fuel
  | S fuel =>
      let scan_elements :=
        fix scan_elements (n : nat) (s : string) (acc : list pyval) {struct n}
          : exc (pyval * string) :=
          match n with
          | O => out_of_fuel
          | S n =>
              '(v, r) ← scan_value fuel s;
              match skip_ws r with
              | String ","%char r' => scan_elements n (skip_ws r') (acc ++ [v])
              | String "]"%char r' => Val (PList (acc ++ [v]), r')
              | _ => Raise JSONDecodeError
              end
          end in
      let scan_members :=
        fix scan_members (n : nat) (s : string) (acc : list (string * pyval))
          {struct n} : exc (pyval * string) :=
          match n with
          | O => out_of_fuel
          | S n =>
              match s with
              | String c r =>
                  if (Str.code c =? 34)%nat then
                    '(key, r1) ← scan_string r;
                    match skip_ws r1 with
                    | String ":"%char r2 =>
                        '(v, r3) ← scan_value fuel (skip_ws r2);
                        let acc := Py.dict_set key v acc in
                        match skip_ws r3 with
                        | String ","%char r4 => scan_members n (skip_ws r4) acc
                        | String "}"%char r4 => Val (PDict acc, r4)
                        | _ => Raise JSONDecodeError
                        end
                    | _ => Raise JSONDecodeError
                    end
                  else Raise JSONDecodeError
              | EmptyString => Raise JSONDecodeError
              end
          end in
      match s with
      | EmptyString => Raise JSONDecodeError
      | String c r =>
          let n := Str.code c in
          if (n =? 34)%nat then
            '(body, rest) ← scan_string r; Val (PStr body, rest)
          else if (n =? 123)%nat then
            match skip_ws r with
            | String "}"%char r' => Val (PDict [], r')
            | s' => scan_members (String.length s) s' []
            end
          else if (n =? 91)%nat then
            match skip_ws r with
            | String "]"%char r' => Val (PList [], r')
            | s' => scan_elements (String.length s) s' []
            end
          else
            match after_prefix "null" s, after_prefix "true" s, after_prefix "false" s with
            | Some rest, _, _ => Val (PNone, rest)
            | None, Some rest, _ => Val (PBool true, rest)
            | None, None, Some rest => Val (PBool false, rest)
            | None, None, None =>
                match scan_number s with
                | Some (v, rest) => Val (v, rest)
                | None =>
                    match after_prefix "NaN" s, after_prefix "Infinity" s,
                          after_prefix "-Infinity" s with
                    | Some rest, _, _ => Val (PFloat S754_nan, rest)
                    | None, Some rest, _ => Val (PFloat (S754_infinity false), rest)
                    | None, None, Some rest => Val (PFloat (S754_infinity true), rest)
                    | None, None, None => Raise JSONDecodeError
                    end
                end
            end
      end
  end.

(** [json.loads(s)]: one value, white space around it, nothing else.  The
    nesting depth of a text is below its length, which bounds the fuel. *)
Definition loads (s : string) : exc pyval :=
  '(v, rest) ← scan_value (S (String.length s)) (skip_ws s);
  if Str.is_empty (skip_ws rest) then Val v else Raise JSONDecodeError.

End Json.

(** ** summarizer.py *)

Module GeminiSummarizer.

(** The dictionary [summarize_document] returns. *)
Record summary_data : Type := {
  summary : string;
  summary_type : pyval;
  original_length : Z;
  summary_length : Z;
  compression_ratio : pyval;
  key_points : list string
}.

(** The prefixes [_extract_key_points] looks for.  The source also lists the
    bullet U+2022, which no string of the 8-bit repertoire starts with. *)
Definition key_point_prefixes : list string :=
  ["1."; "2."; "3."; "4."; "5."; "-"; "*"]%string.

Definition is_key_point (line : string) : bool :=
  existsb (Str.startswith line) key_point_prefixes
  || Str.contains "key" (Str.lower line)
  || Str.contains "important" (Str.lower line)
  || Str.contains "critical" (Str.lower line).

Definition _extract_key_points (summary_text : string) : list string :=
  firstn 10
    (List.filter
       (fun line => is_key_point line && (10 <? String.length line)%nat)
       (map Str.strip (Str.split Str.newline summary_text))).

(** The payload of the [except] branch. *)
Definition no_summary (text : string) (summary_type : pyval) : summary_data :=
  {| summary := "Error generating summary";
     summary_type := summary_type;
     original_length := Z.of_nat (String.length text);
     summary_length := 0;
     compression_ratio := PInt 0;
     key_points := [] |}.

(** [summarize_document]; [response] is the outcome of
    [model.generate_content(prompt).text]. *)
Definition summarize_document (response : exc string) (text : string)
    (summary_type : pyval) : summary_data :=
  match response with
  | Val response_text =>
      let n := Z.of_nat (String.length text) in
      let m := Z.of_nat (String.length response_text) in
      {| summary := response_text;
         summary_type := summary_type;
         original_length := n;
         summary_length := m;
         compression_ratio := if n >? 0 then PFloat (F64.truediv m n) else PInt 0;
         key_points := _extract_key_points response_text |}
  | Raise _ => no_summary text summary_type
  end.

(** [any(line.startswith(f"{i}.") for i in range(1, 100))] *)
Definition starts_with_number (line : string) : bool :=
  existsb (fun i => Str.startswith line (Str.of_nat i +:+ ".")%string) (seq 1 99).

(** The lines [generate_bullet_points] keeps (the bullet U+2022 apart). *)
Definition is_bullet (line : string) : bool :=
  negb (Str.is_empty line)
  && (Str.startswith line "-" || Str.startswith line "*" || starts_with_number line).

(** [generate_bullet_points]; [response] is the outcome of
    [self.flash_model.generate_content(prompt).text]. *)
Definition generate_bullet_points (response : exc string) : list string :=
  match response with
  | Val response_text =>
      List.filter is_bullet (map Str.strip (Str.split Str.newline response_text))
  | Raise _ => []
  end.

(** The dictionary [analyze_legal_risks] returns. *)
Record risk_analysis : Type := {
  high_risks : list string;
  medium_risks : list string;
  recommendations : list string;
  compliance_notes : list string
}.

Definition no_risks : risk_analysis :=
  {| high_risks := []; medium_risks := []; recommendations := [];
     compliance_notes := [] |}.

Inductive risk_section : Type :=
| HighRisks | MediumRisks | Recommendations | ComplianceNotes.

(** [analysis[current_section].append(item)] *)
Definition add_risk (sec : risk_section) (item : string) (a : risk_analysis)
  : risk_analysis :=
  match sec with
  | HighRisks =>
      {| high_risks := high_risks a ++ [item]; medium_risks := medium_risks a;
         recommendations := recommendations a; compliance_notes := compliance_notes a |}
  | MediumRisks =>
      {| high_risks := high_risks a; medium_risks := medium_risks a ++ [item];
         recommendations := recommendations a; compliance_notes := compliance_notes a |}
  | Recommendations =>
      {| high_risks := high_risks a; medium_risks := medium_risks a;
         recommendations := recommendations a ++ [item];
         compliance_notes := compliance_notes a |}
  | ComplianceNotes =>
      {| high_risks := high_risks a; medium_risks := medium_risks a;
         recommendations := recommendations a;
         compliance_notes := compliance_notes a ++ [item] |}
  end.

Definition risk_line (st : risk_analysis * option risk_section) (raw_line : string)
  : risk_analysis * option risk_section :=
  let '(analysis, current_section) := st in
  let line := Str.strip raw_line in
  if Str.contains "HIGH RISK" (Str.upper line) then (analysis, Some HighRisks)
  else if Str.contains "MEDIUM RISK" (Str.upper line) then (analysis, Some MediumRisks)
  else if Str.contains "RECOMMENDATIONS" (Str.upper line) then (analysis, Some Recommendations)
  else if Str.contains "COMPLIANCE" (Str.upper line) then (analysis, Some ComplianceNotes)
  else
    match current_section with
    | Some sec =>
        if Str.startswith line "-"
        then (add_risk sec (Str.strip (Str.drop 1 line)) analysis, current_section)
        else st
    | None => st
    end.

Definition _parse_risk_analysis (analysis_text : string) : risk_analysis :=
  fst (fold_left risk_line (Str.split Str.newline analysis_text) (no_risks, None)).

(** [analyze_legal_risks]; [response] is the outcome of
    [self.model.generate_content(prompt).text]. *)
Definition analyze_legal_risks (response : exc string) : risk_analysis :=
  match response with
  | Val response_text => _parse_risk_analysis response_text
  | Raise _ => no_risks
  end.

(** The dictionary [compare_documents] returns. *)
Record comparison : Type := {
  comparison_text : string;
  doc1_name : string;
  doc2_name : string;
  analysis_date : string
}.

(** [compare_documents]; [now] is what [_get_current_timestamp] reads off
    the clock. *)
Definition compare_documents (response : exc string) (now : string)
    (name1 name2 : string) : comparison :=
  {| comparison_text :=
       match response with
       | Val response_text => response_text
       | Raise _ => "Error comparing documents"%string
       end;
     doc1_name := name1;
     doc2_name := name2;
     analysis_date := now |}.

End GeminiSummarizer.

(** ** The collaborators of one document run *)

(** The dictionary the text extractors return: the [text] and the other
    keys ([pages], [entities], [tables], [confidence]). *)
Record text_data : Type := {
  text : string;
  other_keys : list (string * pyval)
}.

(** ** text_extractor.py *)

Module GeminiTextExtractor.

(** The dictionary returned around the text the model read. *)
Definition extracted (response_text : string) : text_data :=
  {| text := response_text;
     other_keys :=
       [ ("pages", PInt 1); ("entities", PList []); ("tables", PList []);
         ("confidence", PFloat (F64.decimal 9 (-1))) ]%string |}.

(** The dictionary of the [except] branch. *)
Definition nothing_extracted : text_data :=
  {| text := EmptyString;
     other_keys :=
       [ ("pages", PInt 0); ("entities", PList []); ("tables", PList []);
         ("confidence", PFloat F64.zero) ]%string |}.

(** The body of the [try] block.  [upload] is the outcome of
    [genai.upload_file(path=file_path)] read through [.state.name];
    [generate] is the outcome of [self.model.generate_content(...).text].
    The waiting loop calls [time.sleep], and the module never imports
    [time]: the first turn of the loop raises [NameError]. *)
Definition extract_body (upload generate : exc string) : exc text_data :=
  state ← upload;
  if String.eqb state "PROCESSING"
  then Raise (OtherError "name 'time' is not defined")
  else if String.eqb state "FAILED"
  then Raise (OtherError "File processing failed")
  else
    response_text ← generate;
    Val (extracted response_text).

(** [extract_text_from_file]; the [finally] clause deletes the uploaded file
    inside a [try] of its own and changes nothing of what is returned. *)
Definition extract_text_from_file (upload generate : exc string) : text_data :=
  match extract_body upload generate with
  | Val extracted_data => extracted_data
  | Raise _ => nothing_extracted
  end.

End GeminiTextExtractor.

(** What the world outside the pipeline does during the run on one file:
    the file system, the text extractor, and the answer of the generative
    model to the request of each stage (its text, or the exception raised by
    the call or by reading [response.text]). *)
Record world : Type := {
  path_exists : bool;                       (* os.path.exists(file_path) *)
  file_size : exc Z;                        (* os.path.getsize(file_path) *)
  base_name : string;                       (* os.path.basename(file_path) *)
  extraction : exc text_data;               (* self._extract_document_text(file_path) *)
  summary_response : exc string;
  entities_response : exc string;
  clauses_response : exc string;
  questions_response : exc string;
  bullets_response : exc string;
  risks_response : exc string;
  relationships_response : exc string
}.

(** [analysis_options]: a dictionary from option names to values. *)
Abbreviation options := (gmap string pyval).

(** The message stored under ['error']: a literal, or [str(e)]. *)
Inductive error_note : Type :=
| Message (msg : string)
| StrOf (e : exn).

Module Pipeline.

(** [Config.MAX_FILE_SIZE_MB] *)
Definition MAX_FILE_SIZE_MB : Z := 20.

(** [_validate_file], which both processors define alike. *)
Definition _validate_file (w : world) : exc bool :=
  if negb (path_exists w) then Val false
  else
    file_size ← file_size w;
    let max_size := MAX_FILE_SIZE_MB * 1024 * 1024 in
    if file_size >? max_size then Val false else Val true.

(** [analysis_options.get(key, dflt)] read as a condition. *)
Definition enabled (analysis_options : options) (key : string) (dflt : bool) : bool :=
  Py.truthy (default (PBool dflt) (analysis_options !! key)).

(** [analysis_options.get(key, dflt)] *)
Definition option_value (analysis_options : options) (key : string) (dflt : pyval)
  : pyval :=
  default dflt (analysis_options !! key).

(** Reading the local variable [text_data], which is bound only when the
    extract-text branch ran. *)
Definition read_text_data (bound : option text_data) : exc text_data :=
  match bound with
  | Some td => Val td
  | None => Raise (UnboundLocalError "text_data")
  end.

End Pipeline.

(** ** enhanced_processor.py *)

Module EnhancedLegalDocumentProcessor.

Import Pipeline.

(** The dictionary [process_document] returns; a key that is absent is
    [None]. *)
Record results : Type := {
  file_path : string;
  file_name : option string;
  analysis_options : options;
  status : string;
  error : option error_note;
  text_extraction : option text_data;
  summary : option GeminiSummarizer.summary_data;
  entities : option GeminiEntityExtractor.entity_data;
  clauses : option GeminiClauseExtractor.clause_data;
  highlighted_text : option string;
  clause_summary : option GeminiClauseExtractor.clause_summary;
  suggested_questions : option (list string);
  qa_ready_text : option string;
  bullet_points : option (list string);
  risk_analysis : option GeminiSummarizer.risk_analysis
}.

(** The options used when the caller passes [None]. *)
Definition default_options : options :=
  list_to_map
    [ ("extract_text", PBool true);
      ("generate_summary", PBool true);
      ("extract_entities", PBool true);
      ("extract_clauses", PBool true);
      ("generate_qa_suggestions", PBool true);
      ("summary_type", PStr "comprehensive");
      ("entity_extraction_type", PStr "comprehensive");
      ("analyze_risks", PBool true);
      ("generate_bullet_points", PBool true) ]%string.

(** [results] as the function first builds it. *)
Definition initial_results (w : world) (path : string) (opts : options) : results :=
  {| file_path := path;
     file_name := Some (base_name w);
     analysis_options := opts;
     status := "processing";
     error := None;
     text_extraction := None;
     summary := None; entities := None; clauses := None;
     highlighted_text := None; clause_summary := None;
     suggested_questions := None; qa_ready_text := None;
     bullet_points := None; risk_analysis := None |}.

(** The early return of step 1: [results] with the extraction recorded,
    ['status'] set to ['failed'] and the error message. *)
Definition no_text_results (w : world) (path : string) (opts : options)
    (td : text_data) : results :=
  {| file_path := path;
     file_name := Some (base_name w);
     analysis_options := opts;
     status := "failed";
     error := Some (Message "No text could be extracted from document");
     text_extraction := Some td;
     summary := None; entities := None; clauses := None;
     highlighted_text := None; clause_summary := None;
     suggested_questions := None; qa_ready_text := None;
     bullet_points := None; risk_analysis := None |}.

(** The dictionary of the top-level [except] branch. *)
Definition failed_results (path : string) (opts : options) (e : exn) : results :=
  {| file_path := path;
     file_name := None;
     analysis_options := opts;
     status := "failed";
     error := Some (StrOf e);
     text_extraction := None;
     summary := None; entities := None; clauses := None;
     highlighted_text := None; clause_summary := None;
     suggested_questions := None; qa_ready_text := None;
     bullet_points := None; risk_analysis := None |}.

(** *** Clauses that bear on a question *)

(** [keyword_mapping], in the order the dictionary is written. *)
Definition keyword_mapping : list (string * list string) :=
  [ ("payment", ["PAYMENT"]);
    ("terminate", ["TERMINATION"]);
    ("end", ["TERMINATION"]);
    ("liability", ["LIMITATION_LIABILITY"; "INDEMNIFICATION"]);
    ("confidential", ["CONFIDENTIALITY"]);
    ("intellectual property", ["INTELLECTUAL_PROPERTY"]);
    ("ip", ["INTELLECTUAL_PROPERTY"]);
    ("law", ["GOVERNING_LAW"]);
    ("jurisdiction", ["GOVERNING_LAW"]);
    ("force majeure", ["FORCE_MAJEURE"]);
    ("assignment", ["ASSIGNMENT"]);
    ("warranty", ["WARRANTIES"]);
    ("deliver", ["DELIVERY"]) ]%string.

(** [clause.get('clause_type') in clause_types] *)
Definition has_type (clause_types : list string) (c : clause) : bool :=
  existsb (fun t => Py.key_eq (clause_type c) (PStr t)) clause_types.

(** The clauses one entry of [keyword_mapping] appends. *)
Definition matches_of (question_lower : string) (clauses : list clause)
    (entry : string * list string) : list clause :=
  let '(keyword, clause_types) := entry in
  if Str.contains keyword question_lower
  then List.filter (has_type clause_types) clauses
  else [].

Definition get_clause_context_for_question (clauses : list clause) (q : string)
  : list clause :=
  let question_lower := Str.lower q in
  let relevant_clauses :=
    fold_left (fun acc entry => acc ++ matches_of question_lower clauses entry)
      keyword_mapping [] in
  let relevant_clauses :=
    match relevant_clauses with
    | [] => firstn 3 (List.filter GeminiClauseExtractor.is_high clauses)
    | _ => relevant_clauses
    end in
  firstn 3 relevant_clauses.

Section Processor.

Variable json_loads : string -> exc pyval.
Variable list_of_set : list string -> list string.
Variable py_str : pyval -> string.

(** Steps 2 to 7 on the extracted [document_text]; each binding is one
    [if analysis_options.get(...)] block of the source, in its order. *)
Definition run_stages (w : world) (path : string) (opts : options)
    (bound : option text_data) (document_text : string) : results :=
  let summary :=
    if enabled opts "generate_summary" true then
      Some (GeminiSummarizer.summarize_document (summary_response w) document_text
              (option_value opts "summary_type" (PStr "comprehensive")))
    else None in
  let entities :=
    if enabled opts "extract_entities" true then
      Some (GeminiEntityExtractor.extract_entities json_loads list_of_set
              (entities_response w) document_text
              (option_value opts "entity_extraction_type" (PStr "comprehensive")))
    else None in
  let clause_data :=
    if enabled opts "extract_clauses" true then
      Some (GeminiClauseExtractor.extract_clauses json_loads
              (clauses_response w) document_text
              (option_value opts "clause_types" PNone))
    else None in
  let found :=
    match clause_data with
    | Some d =>
        match GeminiClauseExtractor.clauses d with
        | [] => None
        | cs => Some cs
        end
    | None => None
    end in
  let qa := enabled opts "generate_qa_suggestions" true in
  {| file_path := path;
     file_name := Some (base_name w);
     analysis_options := opts;
     status := "completed";
     error := None;
     text_extraction := bound;
     summary := summary;
     entities := entities;
     clauses := clause_data;
     highlighted_text :=
       GeminiClauseExtractor.highlight_clauses_in_text py_str document_text <$> found;
     clause_summary := GeminiClauseExtractor.generate_clause_summary <$> found;
     suggested_questions :=
       if qa then Some (GeminiQASystem.get_suggested_questions (questions_response w))
       else None;
     qa_ready_text := if qa then Some (Str.slice document_text 0 10000) else None;
     bullet_points :=
       if enabled opts "generate_bullet_points" true
       then Some (GeminiSummarizer.generate_bullet_points (bullets_response w))
       else None;
     risk_analysis :=
       if enabled opts "analyze_risks" true
       then Some (GeminiSummarizer.analyze_legal_risks (risks_response w))
       else None |}.

(** The statements from [document_text = text_data['text']] on. *)
Definition after_extraction (w : world) (path : string) (opts : options)
    (bound : option text_data) : exc results :=
  td ← read_text_data bound;
  Val (run_stages w path opts bound (text td)).

(** The body of the [try] block. *)
Definition process_body (w : world) (path : string) (opts : options) : exc results :=
  valid ← _validate_file w;
  if negb valid then Raise (ValueError ("Invalid file: " +:+ path)%string)
  else if enabled opts "extract_text" true then
    td ← extraction w;
    if negb (Py.truthy (PStr (text td))) then Val (no_text_results w path opts td)
    else after_extraction w path opts (Some td)
  else after_extraction w path opts None.

Definition process_document (w : world) (path : string)
    (analysis_options : option options) : results :=
  let opts := default default_options analysis_options in
  match process_body w path opts with
  | Val results => results
  | Raise e => failed_results path opts e
  end.

End Processor.

End EnhancedLegalDocumentProcessor.

(** ** document_processor.py *)

Module LegalDocumentProcessor.

Import Pipeline.

(** The dictionary [process_document] returns; a key that is absent is
    [None]. *)
Record results : Type := {
  file_path : string;
  file_name : option string;
  analysis_options : options;
  status : string;
  error : option error_note;
  text_extraction : option text_data;
  summary : option GeminiSummarizer.summary_data;
  entities : option GeminiEntityExtractor.entity_data;
  bullet_points : option (list string);
  risk_analysis : option GeminiSummarizer.risk_analysis;
  relationships : option GeminiEntityExtractor.relationship_data
}.

(** The options used when the caller passes [None]. *)
Definition default_options : options :=
  list_to_map
    [ ("extract_text", PBool true);
      ("generate_summary", PBool true);
      ("extract_entities", PBool true);
      ("summary_type", PStr "comprehensive");
      ("entity_extraction_type", PStr "comprehensive");
      ("analyze_risks", PBool true);
      ("generate_bullet_points", PBool true) ]%string.

(** The early return of step 1. *)
Definition no_text_results (w : world) (path : string) (opts : options)
    (td : text_data) : results :=
  {| file_path := path;
     file_name := Some (base_name w);
     analysis_options := opts;
     status := "failed";
     error := Some (Message "No text could be extracted from document");
     text_extraction := Some td;
     summary := None; entities := None; bullet_points := None;
     risk_analysis := None; relationships := None |}.

(** The dictionary of the top-level [except] branch. *)
Definition failed_results (path : string) (opts : options) (e : exn) : results :=
  {| file_path := path;
     file_name := None;
     analysis_options := opts;
     status := "failed";
     error := Some (StrOf e);
     text_extraction := None;
     summary := None; entities := None; bullet_points := None;
     risk_analysis := None; relationships := None |}.

Section Processor.

Variable json_loads : string -> exc pyval.
Variable list_of_set : list string -> list string.

(** Steps 2 to 6 on the extracted [document_text]; each binding is one
    [if analysis_options.get(...)] block of the source, in its order. *)
Definition run_stages (w : world) (path : string) (opts : options)
    (bound : option text_data) (document_text : string) : results :=
  {| file_path := path;
     file_name := Some (base_name w);
     analysis_options := opts;
     status := "completed";
     error := None;
     text_extraction := bound;
     summary :=
       if enabled opts "generate_summary" true then
         Some (GeminiSummarizer.summarize_document (summary_response w) document_text
                 (option_value opts "summary_type" (PStr "comprehensive")))
       else None;
     entities :=
       if enabled opts "extract_entities" true then
         Some (GeminiEntityExtractor.extract_entities json_loads list_of_set
                 (entities_response w) document_text
                 (option_value opts "entity_extraction_type" (PStr "comprehensive")))
       else None;
     bullet_points :=
       if enabled opts "generate_bullet_points" true
       then Some (GeminiSummarizer.generate_bullet_points (bullets_response w))
       else None;
     risk_analysis :=
       if enabled opts "analyze_risks" true
       then Some (GeminiSummarizer.analyze_legal_risks (risks_response w))
       else None;
     relationships :=
       if enabled opts "extract_relationships" false
       then Some (GeminiEntityExtractor.extract_legal_relationships json_loads
                    list_of_set (relationships_response w))
       else None |}.

(** The statements from [document_text = text_data['text']] on. *)
Definition after_extraction (w : world) (path : string) (opts : options)
    (bound : option text_data) : exc results :=
  td ← read_text_data bound;
  Val (run_stages w path opts bound (text td)).

(** The body of the [try] block. *)
Definition process_body (w : world) (path : string) (opts : options) : exc results :=
  valid ← _validate_file w;
  if negb valid then Raise (ValueError ("Invalid file: " +:+ path)%string)
  else if enabled opts "extract_text" true then
    td ← extraction w;
    if negb (Py.truthy (PStr (text td))) then Val (no_text_results w path opts td)
    else after_extraction w path opts (Some td)
  else after_extraction w path opts None.

Definition process_document (w : world) (path : string)
    (analysis_options : option options) : results :=
  let opts := default default_options analysis_options in
  match process_body w path opts with
  | Val results => results
  | Raise e => failed_results path opts e
  end.

(** *** The batch driver *)

(** What [_compare_multiple_documents] returns. *)
Inductive comparison_result : Type :=
| Compared (c : GeminiSummarizer.comparison)
| TooFewDocuments                    (* 'Need at least 2 documents for comparison' *)
| ComparisonFailed (e : exn).        (* f'Comparison failed: {str(e)}' *)

(** The dictionary [process_multiple_documents] returns. *)
Record batch : Type := {
  total_documents : Z;
  processed_successfully : Z;
  failed : Z;
  individual_results : gmap string results;
  summary_comparison : option comparison_result
}.

(** The world of a batch run: what happens on each path (a path listed twice
    meets the same world twice), the answer to the comparison request, and
    the clock. *)
Record batch_world : Type := {
  documents : string -> world;
  comparison_response : exc string;
  now : string
}.

(** [d[key]] on an optional entry of a result. *)
Definition item {A : Type} (o : option A) : exc A :=
  match o with
  | Some a => Val a
  | None => Raise KeyError
  end.

Definition _compare_multiple_documents (bw : batch_world) (rs : list results)
  : comparison_result :=
  match rs with
  | doc1_result :: doc2_result :: _ =>
      match (td1 ← item (text_extraction doc1_result);
             td2 ← item (text_extraction doc2_result);
             name1 ← item (file_name doc1_result);
             name2 ← item (file_name doc2_result);
             Val (GeminiSummarizer.compare_documents (comparison_response bw)
                    (now bw) name1 name2)) with
      | Val c => Compared c
      | Raise e => ComparisonFailed e
      end
  | _ => TooFewDocuments
  end.

(** The loop state: [results] and the local list [individual_results]. *)
Definition batch_state : Type := (batch * list results)%type.

(** One turn of the loop over [file_paths]. *)
Definition batch_step (bw : batch_world) (analysis_options : option options)
    (st : batch_state) (path : string) : batch_state :=
  let '(b, completed) := st in
  let result := process_document (documents bw path) path analysis_options in
  let individual := <[path := result]> (individual_results b) in
  if String.eqb (status result) "completed" then
    ({| total_documents := total_documents b;
        processed_successfully := processed_successfully b + 1;
        failed := failed b;
        individual_results := individual;
        summary_comparison := summary_comparison b |},
     completed ++ [result])
  else
    ({| total_documents := total_documents b;
        processed_successfully := processed_successfully b;
        failed := failed b + 1;
        individual_results := individual;
        summary_comparison := summary_comparison b |},
     completed).

Definition initial_batch (file_paths : list string) : batch :=
  {| total_documents := Z.of_nat (List.length file_paths);
     processed_successfully := 0;
     failed := 0;
     individual_results := ∅;
     summary_comparison := None |}.

(** [analysis_options and analysis_options.get('compare_documents', False)] *)
Definition wants_comparison (analysis_options : option options) : bool :=
  match analysis_options with
  | Some opts => negb (bool_decide (opts = ∅)) && enabled opts "compare_documents" false
  | None => false
  end.

Definition process_multiple_documents (bw : batch_world) (file_paths : list string)
    (analysis_options : option options) : batch :=
  let '(b, completed) :=
    fold_left (batch_step bw analysis_options) file_paths
      (initial_batch file_paths, []) in
  if (2 <=? List.length completed)%nat && wants_comparison analysis_options then
    {| total_documents := total_documents b;
       processed_successfully := processed_successfully b;
       failed := failed b;
       individual_results := individual_results b;
       summary_comparison := Some (_compare_multiple_documents bw completed) |}
  else b.

End Processor.

End LegalDocumentProcessor.

(* ===================================================================== *)
(** * Part II: the vocabulary of the properties                           *)
(* ===================================================================== *)

(** Predicates, auxiliary functions and sample inputs that the statements
    of Part III are written with. *)

(** ** The confidence estimator *)

Module ConfidenceSpec.

Import GeminiQASystem.

(** [k] subtractions of 0.2, one after the other. *)
Fixpoint lowered (k : nat) (confidence : float64) : float64 :=
  match k with
  | O => confidence
  | S k => lowered k (F64.sub confidence lit_0_2)
  end.

(** The value before clamping, given how many phrases matched and whether
    the answer quotes or cites a section. *)
Definition unclamped (k : nat) (bonus : bool) : float64 :=
  let confidence := lowered k lit_0_8 in
  if bonus then F64.add confidence lit_0_1 else confidence.

Definition clamped (k : nat) (bonus : bool) : float64 :=
  F64.py_max lit_0_1 (F64.py_min lit_1_0 (unclamped k bonus)).

(** The binary64 number next above 0.4. *)
Definition above_0_4 : float64 := SFsucc F64.prec F64.emax (F64.decimal 4 (-1)).

Definition example_answer : string := "This might possibly be the case".

End ConfidenceSpec.

(** ** The clause parser *)

Module ClauseSpec.

Import GeminiClauseExtractor.

(** A record as the strict path admits it. *)
Definition long_text (c : clause) : Prop :=
  (20 < String.length (clause_text c))%nat.


Definition known_clause (c : clause) : Prop := known_type (clause_type c).

(** The invariant of the fallback loop. *)
Definition fallback_inv (st : fallback_state) : Prop :=
  Forall known_clause (fst st) /\
  match snd st with
  | Some c => known_clause c
  | None => True
  end.

(** The quotation mark, to spell responses. *)
Definition q : string := String Str.dquote EmptyString.

(** A well-formed response whose only clause has a type outside the set. *)
Definition unknown_type_response : string :=
  ("[{" +:+ q +:+ "clause_type" +:+ q +:+ ": " +:+ q +:+ "FOO" +:+ q +:+ ", "
   +:+ q +:+ "clause_text" +:+ q +:+ ": " +:+ q
   +:+ "Pay within 30 days of invoice." +:+ q +:+ "}]")%string.

(** Scenario 1 of the specification. *)
Definition payment_response : string :=
  ("[{" +:+ q +:+ "clause_type" +:+ q +:+ ":" +:+ q +:+ "PAYMENT" +:+ q +:+ ","
   +:+ q +:+ "clause_text" +:+ q +:+ ":" +:+ q
   +:+ "Pay within 30 days of invoice." +:+ q +:+ ","
   +:+ q +:+ "context" +:+ q +:+ ":" +:+ q +:+ "payment term" +:+ q +:+ ","
   +:+ q +:+ "importance" +:+ q +:+ ":" +:+ q +:+ "HIGH" +:+ q +:+ ","
   +:+ q +:+ "section" +:+ q +:+ ":" +:+ q +:+ "3.1" +:+ q +:+ "}]")%string.

End ClauseSpec.

(** ** Trimmed strings *)

Module StrSpec.

(** A string that does not start with white space. *)
Definition no_lead (s : string) : Prop :=
  match s with
  | EmptyString => True
  | String c _ => Str.isspace c = false
  end.

End StrSpec.

(** ** The entity parser *)

Module EntitySpec.

Import GeminiEntityExtractor.

(** A trimmed entity of more than one character. *)
Definition clean_entity (s : string) : Prop :=
  Str.strip s = s /\ (1 < String.length s)%nat.

(** A per-category list as the strict path builds it. *)
Definition clean_list (l : list string) : Prop :=
  List.NoDup l /\ Forall clean_entity l /\ (List.length l <= 20)%nat.

(** A response in the bulleted form the fallback reads, naming one person
    twice. *)
Definition repeated_entity_response : string :=
  ("PERSONS:" +:+ String Str.newline "- Alice" +:+ String Str.newline "- Alice")%string.

(** A JSON response that names Alice twice, once with blanks around the
    name, and holds an entity of one character. *)
Definition repeated_json_response : string :=
  ("{" +:+ ClauseSpec.q +:+ "PERSONS" +:+ ClauseSpec.q +:+ ": ["
   +:+ ClauseSpec.q +:+ "Alice" +:+ ClauseSpec.q +:+ ", "
   +:+ ClauseSpec.q +:+ " Alice " +:+ ClauseSpec.q +:+ ", "
   +:+ ClauseSpec.q +:+ "Bob" +:+ ClauseSpec.q +:+ ", "
   +:+ ClauseSpec.q +:+ "x" +:+ ClauseSpec.q +:+ "]}")%string.

End EntitySpec.

(** ** The span highlighter *)

Module HighlightSpec.

Import GeminiClauseExtractor.

(** A formatter that agrees with [str()] on strings, the only values the
    examples below format. *)
Definition str_of_text (v : pyval) : string :=
  match v with
  | PStr s => s
  | _ => EmptyString
  end.

(** Two formatters that agree on the type and context of a clause. *)
Definition same_format (f g : pyval -> string) (c : clause) : Prop :=
  f (clause_type c) = g (clause_type c) /\
  f (clause_context c) = g (clause_context c).

(** A clause whose type and context are strings. *)
Definition text_clause (type text context : string) : clause :=
  {| clause_type := PStr type;
     clause_text := text;
     clause_context := PStr context;
     clause_importance := PStr "HIGH";
     clause_section := PStr "Unknown" |}.

(** The failing input: a one-sentence document, the clause that quotes it,
    and a second, shorter clause whose text is the explanation the model gave
    for the first one, and which the document does not contain. *)
Definition document : string := "Pay within 30 days of invoice.".
Definition explanation : string := "payment term of thirty days".

Definition payment_clause : clause :=
  text_clause "PAYMENT" document explanation.

Definition stray_clause : clause :=
  text_clause "PAYMENT" explanation "restates the payment term".

(** The wrapper put around the document's sentence. *)
Definition payment_span : string :=
  highlight_span str_of_text "#ccffcc" payment_clause document.

(** A document that states the payment term twice. *)
Definition repeated_document : string := (document +:+ " " +:+ document)%string.

(** The wrapper put around the explanation. *)
Definition stray_span : string :=
  highlight_span str_of_text "#ccffcc" stray_clause explanation.

End HighlightSpec.

(** ** The per-document pipeline *)

Module PipelineSpec.

Import Pipeline.
Import EnhancedLegalDocumentProcessor.

(** None of the stage fields of a result is populated. *)
Definition no_stage_output (r : results) : Prop :=
  summary r = None /\ entities r = None /\ clauses r = None /\
  clause_summary r = None /\ highlighted_text r = None /\
  suggested_questions r = None /\ bullet_points r = None /\
  risk_analysis r = None.

(** The analysis stages that follow text extraction. *)
Inductive stage : Type :=
| Summary | Entities | Clauses | Questions | BulletPoints | Risks.

(** Whether the options enable a stage. *)
Definition stage_enabled (opts : options) (s : stage) : bool :=
  match s with
  | Summary => enabled opts "generate_summary" true
  | Entities => enabled opts "extract_entities" true
  | Clauses => enabled opts "extract_clauses" true
  | Questions => enabled opts "generate_qa_suggestions" true
  | BulletPoints => enabled opts "generate_bullet_points" true
  | Risks => enabled opts "analyze_risks" true
  end.


(** What a stage stores in the result. *)
Inductive payload : Type :=
| SummaryPayload (d : GeminiSummarizer.summary_data)
| EntitiesPayload (d : GeminiEntityExtractor.entity_data)
| ClausesPayload (d : GeminiClauseExtractor.clause_data)
| QuestionsPayload (qs : list string)
| BulletsPayload (bs : list string)
| RisksPayload (d : GeminiSummarizer.risk_analysis).

(** The field of the result that belongs to a stage. *)
Definition stage_field (r : results) (s : stage) : option payload :=
  match s with
  | Summary => SummaryPayload <$> summary r
  | Entities => EntitiesPayload <$> entities r
  | Clauses => ClausesPayload <$> clauses r
  | Questions => QuestionsPayload <$> suggested_questions r
  | BulletPoints => BulletsPayload <$> bullet_points r
  | Risks => RisksPayload <$> risk_analysis r
  end.



Section Processor.

Variable json_loads : string -> exc pyval.
Variable list_of_set : list string -> list string.




End Processor.

(** A one-sentence document and worlds around it, for the examples. *)
Definition sample_text : text_data :=
  {| text := "Pay within 30 days of invoice."; other_keys := [("pages", PInt 1)] |}.

Definition empty_text : text_data :=
  {| text := ""; other_keys := [("pages", PInt 0)] |}.

Definition quota : exn := OtherError "quota exceeded".

(** The file is fine and has text; the model fails on the summary request
    and answers the others. *)
Definition sample_world : world :=
  {| path_exists := true;
     file_size := Val 2048;
     base_name := "lease.txt";
     extraction := Val sample_text;
     summary_response := Raise quota;
     entities_response := Val EntitySpec.repeated_entity_response;
     clauses_response := Val ClauseSpec.payment_response;
     questions_response := Val "1. When is payment due under the lease?";
     bullets_response := Val "- Pay within 30 days";
     risks_response := Val "HIGH RISK AREAS:";
     relationships_response := Raise quota |}.

(** The same file when the extractor finds no text in it. *)
Definition blank_world : world :=
  {| path_exists := true;
     file_size := Val 2048;
     base_name := "scan.pdf";
     extraction := Val empty_text;
     summary_response := Raise quota;
     entities_response := Raise quota;
     clauses_response := Raise quota;
     questions_response := Raise quota;
     bullets_response := Raise quota;
     risks_response := Raise quota;
     relationships_response := Raise quota |}.


End PipelineSpec.

(** ** The batch driver *)

Module BatchSpec.

Import Pipeline.
Import LegalDocumentProcessor.



Section Batch.

Variable json_loads : string -> exc pyval.
Variable list_of_set : list string -> list string.
Variable bw : batch_world.
Variable aopts : option options.

(** The result of the run on one path of the batch. *)
Definition result_of (path : string) : results :=
  process_document json_loads list_of_set (documents bw path) path aopts.

Definition completes (path : string) : bool :=
  String.eqb (status (result_of path)) "completed".

(** The dictionary [individual_results] after the loop has stored the paths. *)
Definition stored (paths : list string) (m : gmap string results)
  : gmap string results :=
  fold_left (fun m path => <[path := result_of path]> m) paths m.

End Batch.



End BatchSpec.

(** ** Strings *)

Module TextSpec.

(** A string of white space only. *)
Fixpoint blank (s : string) : bool :=
  match s with
  | EmptyString => true
  | String c s' => Str.isspace c && blank s'
  end.

End TextSpec.

(** ** Questions and answers *)

Module QASpec.

Import GeminiQASystem.

(** A question as the extraction loop admits it: it ends with a question
    mark and is longer than 10 characters. *)
Definition well_formed (q : string) : bool :=
  Str.endswith q "?" && (10 <? String.length q)%nat.

(** The questions the second loop draws from: two of each category. *)
Definition category_questions : list string :=
  flat_map (fun cq => firstn 2 (snd cq)) question_categories.

(** One turn of the second loop. *)
Definition fill_step (suggested : list string) (q : string) : list string :=
  if (List.length suggested <? 8)%nat && negb (string_in q suggested)
  then suggested ++ [q] else suggested.

(** A section is supported by the answer when it was built from a sentence
    of the document that shares at least three distinct words with it. *)
Definition supported_by (answer document_text section : string) : Prop :=
  exists sentence,
    In sentence (doc_sentences document_text) /\
    section = section_of sentence /\
    (3 <= overlap (Str.words (Str.lower answer))
                  (Str.words (Str.lower sentence)))%nat.

(** A search result as [_parse_search_results] keeps it. *)
Definition kept_hit (query : string) (h : search_hit) : Prop :=
  (10 < String.length (hit_text h))%nat /\ hit_query h = query.

(** A model that answers the first and the third question and fails on the
    second. *)
Definition flaky_responses (i : nat) : exc string :=
  match i with
  | 1%nat => Raise (OtherError "quota exceeded")
  | _ => Val "The agreement runs for two years."
  end.

Definition sample_questions : list string :=
  [ "How long does it run?"; "Who pays?"; "Which law applies?" ]%string.

End QASpec.

(** ** Clauses that bear on a question *)

Module RouterSpec.

Import EnhancedLegalDocumentProcessor.

(** A clause matches a question when some keyword of [keyword_mapping]
    occurs in the lower-cased question and maps to the clause's type. *)
Definition keyword_match (q : string) (c : clause) : bool :=
  existsb
    (fun entry => Str.contains (fst entry) (Str.lower q) && has_type (snd entry) c)
    keyword_mapping.

End RouterSpec.

(** ** The clause summary *)

Module SummarySpec.

Import GeminiClauseExtractor.

(** The sum of the counts of a dictionary. *)
Definition counter_total (d : Py.counter) : Z :=
  fold_right (fun kn n => snd kn + n) 0 d.

(** A clause whose type and importance can be dictionary keys. *)
Definition hashable_clause (c : clause) : bool :=
  Py.hashable (clause_type c) && Py.hashable (clause_importance c).

Definition has_clause_type (name : string) (c : clause) : bool :=
  Py.key_eq (clause_type c) (PStr name).

(** The fields of a report; the error payload has neither findings nor
    recommendations. *)
Definition key_findings_of (s : clause_summary) : list string :=
  match s with
  | ClauseSummary _ _ _ _ key_findings _ => key_findings
  | ClauseSummaryError _ _ => []
  end.

Definition recommendations_of (s : clause_summary) : list string :=
  match s with
  | ClauseSummary _ _ _ _ _ recommendations => recommendations
  | ClauseSummaryError _ _ => []
  end.

Definition typed_clause (type importance : pyval) (text : string) : clause :=
  {| clause_type := type;
     clause_text := text;
     clause_context := PStr EmptyString;
     clause_importance := importance;
     clause_section := PStr "Unknown" |}.

Definition sample_clauses : list clause :=
  [ typed_clause (PStr "PAYMENT") (PStr "HIGH")
      "Fees are due within 30 days of invoice.";
    typed_clause (PStr "GOVERNING_LAW") (PStr "LOW")
      "This agreement is governed by the laws of Ohio.";
    typed_clause (PStr "PAYMENT") (PStr "HIGH")
      "Late fees accrue at 2 percent per month." ].

(** The same clauses, the second with a list where its type should be. *)
Definition unhashable_clauses : list clause :=
  [ typed_clause (PStr "PAYMENT") (PStr "HIGH")
      "Fees are due within 30 days of invoice.";
    typed_clause (PList [PStr "GOVERNING_LAW"]) (PStr "LOW")
      "This agreement is governed by the laws of Ohio." ].

End SummarySpec.

(** ** The clause parser, further *)

Module ClauseParserSpec.

Import GeminiClauseExtractor.


(** A record as the fallback builds it: only the type and the text are
    read off the response. *)
Definition fallback_record (response_text : string) (c : clause) : Prop :=
  clause_context c = PStr EmptyString /\
  clause_importance c = PStr "MEDIUM" /\
  clause_section c = PStr "Unknown" /\
  (clause_text c = EmptyString \/
   (20 < String.length (clause_text c))%nat /\
   exists line, In line (Str.split Str.newline response_text) /\
                clause_text c = Str.strip line).

Definition fallback_state_ok (response_text : string) (st : fallback_state) : Prop :=
  Forall (fallback_record response_text) (fst st) /\
  match snd st with
  | Some c => fallback_record response_text c
  | None => True
  end.


(** An element of the array that has both keys and a [clause_text] that is
    not a string. *)
Definition text_not_a_string (item : pyval) : Prop :=
  exists d,
    item = PDict d /\
    Py.dict_has "clause_type" d = true /\
    Py.dict_has "clause_text" d = true /\
    forall s, Py.get_or "clause_text" (PStr EmptyString) d <> PStr s.

(** An array whose second element has a number for its text. *)
Definition number_text_response : string :=
  ("[{" +:+ ClauseSpec.q +:+ "clause_type" +:+ ClauseSpec.q +:+ ": "
   +:+ ClauseSpec.q +:+ "PAYMENT" +:+ ClauseSpec.q +:+ ", "
   +:+ ClauseSpec.q +:+ "clause_text" +:+ ClauseSpec.q +:+ ": "
   +:+ ClauseSpec.q +:+ "Pay within 30 days of invoice." +:+ ClauseSpec.q +:+ "}, {"
   +:+ ClauseSpec.q +:+ "clause_type" +:+ ClauseSpec.q +:+ ": "
   +:+ ClauseSpec.q +:+ "TERMINATION" +:+ ClauseSpec.q +:+ ", "
   +:+ ClauseSpec.q +:+ "clause_text" +:+ ClauseSpec.q +:+ ": 5}]")%string.

(** One clause, not wrapped in an array. *)
Definition bare_object_response : string :=
  ("{" +:+ ClauseSpec.q +:+ "clause_type" +:+ ClauseSpec.q +:+ ": "
   +:+ ClauseSpec.q +:+ "PAYMENT" +:+ ClauseSpec.q +:+ ", "
   +:+ ClauseSpec.q +:+ "clause_text" +:+ ClauseSpec.q +:+ ": "
   +:+ ClauseSpec.q +:+ "Pay within 30 days of invoice." +:+ ClauseSpec.q +:+ "}")%string.

End ClauseParserSpec.

(** ** The entity parser, further *)

Module EntityParserSpec.

Import GeminiEntityExtractor.

(** An entry of the map the fallback builds: one of the eight categories
    with trimmed entities of more than one character. *)
Definition fallback_entry (kv : string * list string) : Prop :=
  In (fst kv) entity_category_names /\ Forall EntitySpec.clean_entity (snd kv).

Definition fallback_map (m : entity_map) : Prop :=
  List.NoDup (map fst m) /\ Forall fallback_entry m.

(** A map as the strict path builds it: no category twice, none empty. *)
Definition strict_map (m : entity_map) : Prop :=
  List.NoDup (map fst m) /\ Forall (fun kv => snd kv <> []) m.

(** A JSON response in which one category holds nothing usable. *)
Definition sparse_json_response : string :=
  ("{" +:+ ClauseSpec.q +:+ "PERSONS" +:+ ClauseSpec.q +:+ ": ["
   +:+ ClauseSpec.q +:+ "Alice" +:+ ClauseSpec.q +:+ "], "
   +:+ ClauseSpec.q +:+ "DATES" +:+ ClauseSpec.q +:+ ": ["
   +:+ ClauseSpec.q +:+ "x" +:+ ClauseSpec.q +:+ ", "
   +:+ ClauseSpec.q +:+ " " +:+ ClauseSpec.q +:+ "]}")%string.

End EntityParserSpec.

(** ** One document run, further *)

Module RunSpec.

Import Pipeline.

(** The file is missing, or larger than the 20 MiB of the configuration. *)
Definition invalid_file (w : world) : Prop :=
  path_exists w = false \/
  (path_exists w = true /\
   exists n, file_size w = Val n /\ MAX_FILE_SIZE_MB * 1024 * 1024 < n).

(** How a run of the enhanced processor can end. *)
Inductive enhanced_outcome (json_loads : string -> exc pyval)
    (list_of_set : list string -> list string) (py_str : pyval -> string)
    (w : world) (path : string) (opts : options)
  : EnhancedLegalDocumentProcessor.results -> Prop :=
| EnhancedFailed (e : exn) :
    enhanced_outcome json_loads list_of_set py_str w path opts
      (EnhancedLegalDocumentProcessor.failed_results path opts e)
| EnhancedNoText (td : text_data) :
    extraction w = Val td ->
    text td = EmptyString ->
    enhanced_outcome json_loads list_of_set py_str w path opts
      (EnhancedLegalDocumentProcessor.no_text_results w path opts td)
| EnhancedCompleted (td : text_data) :
    extraction w = Val td ->
    text td <> EmptyString ->
    enhanced_outcome json_loads list_of_set py_str w path opts
      (EnhancedLegalDocumentProcessor.run_stages json_loads list_of_set py_str
         w path opts (Some td) (text td)).

(** How a run of the basic processor can end. *)
Inductive basic_outcome (json_loads : string -> exc pyval)
    (list_of_set : list string -> list string)
    (w : world) (path : string) (opts : options)
  : LegalDocumentProcessor.results -> Prop :=
| BasicFailed (e : exn) :
    basic_outcome json_loads list_of_set w path opts
      (LegalDocumentProcessor.failed_results path opts e)
| BasicNoText (td : text_data) :
    extraction w = Val td ->
    text td = EmptyString ->
    basic_outcome json_loads list_of_set w path opts
      (LegalDocumentProcessor.no_text_results w path opts td)
| BasicCompleted (td : text_data) :
    extraction w = Val td ->
    text td <> EmptyString ->
    basic_outcome json_loads list_of_set w path opts
      (LegalDocumentProcessor.run_stages json_loads list_of_set
         w path opts (Some td) (text td)).

(** A file of 25 MiB. *)
Definition oversized_world : world :=
  {| path_exists := true;
     file_size := Val (25 * 1024 * 1024);
     base_name := "bundle.pdf";
     extraction := Val PipelineSpec.sample_text;
     summary_response := Raise PipelineSpec.quota;
     entities_response := Raise PipelineSpec.quota;
     clauses_response := Raise PipelineSpec.quota;
     questions_response := Raise PipelineSpec.quota;
     bullets_response := Raise PipelineSpec.quota;
     risks_response := Raise PipelineSpec.quota;
     relationships_response := Raise PipelineSpec.quota |}.

(** The default options with the question suggestions switched off. *)
Definition no_questions_options : options :=
  <["generate_qa_suggestions" := PBool false]>
    EnhancedLegalDocumentProcessor.default_options.

End RunSpec.

(** ** Highlighting, further *)

Module HighlightRunSpec.

(** The trimmed text of the clause is empty or does not occur in the
    document. *)
Definition absent_from (text : string) (c : clause) : bool :=
  let t := Str.strip (clause_text c) in
  Str.is_empty t || negb (Str.contains t text).

End HighlightRunSpec.

(** ** The summarizer *)

Module SummarizerSpec.

Import GeminiSummarizer.

(** A key point: a trimmed line of the summary, longer than 10 characters. *)
Definition key_point_of (summary_text point : string) : Prop :=
  (10 < String.length point)%nat /\
  exists line,
    In line (Str.split Str.newline summary_text) /\ point = Str.strip line.

(** A trimmed line that names one of the four sections. *)
Definition is_header (line : string) : bool :=
  Str.contains "HIGH RISK" (Str.upper line)
  || Str.contains "MEDIUM RISK" (Str.upper line)
  || Str.contains "RECOMMENDATIONS" (Str.upper line)
  || Str.contains "COMPLIANCE" (Str.upper line).

(** An item of the analysis: what follows the dash of a line that starts
    with one and names no section. *)
Definition item_of (analysis_text item : string) : Prop :=
  exists raw_line,
    In raw_line (Str.split Str.newline analysis_text) /\
    is_header (Str.strip raw_line) = false /\
    Str.startswith (Str.strip raw_line) "-" = true /\
    item = Str.strip (Str.drop 1 (Str.strip raw_line)).

Definition items_of (analysis_text : string) (a : risk_analysis) : Prop :=
  Forall (item_of analysis_text) (high_risks a) /\
  Forall (item_of analysis_text) (medium_risks a) /\
  Forall (item_of analysis_text) (recommendations a) /\
  Forall (item_of analysis_text) (compliance_notes a).

(** A list of risks without any section header. *)
Definition headless_analysis : string :=
  ("- The indemnity is uncapped" +:+ String Str.newline
   "- The notice period is short")%string.

End SummarizerSpec.

(* ===================================================================== *)
(** * Part III: properties                                                *)
(* ===================================================================== *)

(** ** The confidence estimator *)

Module ConfidenceFacts.

Import ConfidenceSpec.

Import GeminiQASystem.

(** The loop over any list of phrases subtracts 0.2 once per phrase found,
    hence at most once per phrase of the list. *)
Lemma fold_lowers (answer_text : string) (phrases : list string) :
  forall confidence,
  exists k, (k <= List.length phrases)%nat /\
    fold_left
      (fun confidence phrase =>
         if Str.contains phrase (Str.lower answer_text)
         then F64.sub confidence lit_0_2 else confidence)
      phrases confidence
    = lowered k confidence.
Proof.
  induction phrases as [|phrase phrases IH]; intros confidence.
  - exists 0%nat. split; [reflexivity | reflexivity].
  - cbn [fold_left].
    destruct (Str.contains phrase (Str.lower answer_text)).
    + destruct (IH (F64.sub confidence lit_0_2)) as [k [Hk Hfold]].
      exists (S k). split; [cbn [List.length]; lia | exact Hfold].
    + destruct (IH confidence) as [k [Hk Hfold]].
      exists k. split; [cbn [List.length]; lia | exact Hfold].
Qed.

Lemma lower_confidence_lowered (answer_text : string) :
  exists k, (k <= 6)%nat /\
    lower_confidence answer_text lit_0_8 = lowered k lit_0_8.
Proof.
  unfold lower_confidence.
  destruct (fold_lowers answer_text uncertain_phrases lit_0_8) as [k [Hk Hfold]].
  exists k. split; [exact Hk | exact Hfold].
Qed.

(** A non-empty answer gets one of the fourteen clamped values. *)
Lemma estimate_confidence_clamped (c : ascii) (rest : string) :
  exists k bonus, (k <= 6)%nat /\
    _estimate_confidence (String c rest) = clamped k bonus.
Proof.
  destruct (lower_confidence_lowered (String c rest)) as [k [Hk Hlow]].
  exists k, (has_reference (String c rest)). split; [exact Hk |].
  unfold _estimate_confidence, clamped, unclamped.
  cbn [Str.is_empty]. rewrite Hlow. reflexivity.
Qed.

(** Each of the fourteen values lies between 0.1 and 1.0. *)
Lemma clamped_within (k : nat) (bonus : bool) :
  (k <= 6)%nat -> F64.within lit_0_1 lit_1_0 (clamped k bonus).
Proof.
  intros Hk.
  do 7 (destruct k as [|k]; [destruct bonus; split; vm_compute; reflexivity |]).
  lia.
Qed.

End ConfidenceFacts.

(** C3, as stated, fails on the empty answer: [_estimate_confidence] returns
    0.0 for it, which is below 0.1. *)
Lemma estimate_confidence_empty_below_range :
  GeminiQASystem._estimate_confidence "" = F64.zero /\
  ~ F64.within GeminiQASystem.lit_0_1 GeminiQASystem.lit_1_0
      (GeminiQASystem._estimate_confidence "").
Proof.
  split.
  - reflexivity.
  - intros [Hlow _]. vm_compute in Hlow. discriminate Hlow.
Qed.

(** C3, amended: for every non-empty answer text the estimate [v] satisfies
    0.1 <= v <= 1.0, whatever the number of uncertainty phrases; for the
    empty answer text the estimate is 0.0. *)
Theorem estimate_confidence_range (answer_text : string) :
  if Str.is_empty answer_text
  then GeminiQASystem._estimate_confidence answer_text = F64.zero
  else F64.within GeminiQASystem.lit_0_1 GeminiQASystem.lit_1_0
         (GeminiQASystem._estimate_confidence answer_text).
Proof.
  destruct answer_text as [|c rest]; cbn [Str.is_empty].
  - reflexivity.
  - destruct (ConfidenceFacts.estimate_confidence_clamped c rest)
      as [k [bonus [Hk ->]]].
    apply ConfidenceFacts.clamped_within. exact Hk.
Qed.

(** C9, as stated, fails: on "This might possibly be the case" the estimate
    does not compare equal to the float 0.4. *)
Lemma estimate_confidence_example_not_0_4 :
  F64.eqb (GeminiQASystem._estimate_confidence ConfidenceSpec.example_answer)
          (F64.decimal 4 (-1)) = false.
Proof.
  vm_compute. reflexivity.
Qed.

(** C9, amended: on "This might possibly be the case" the estimate is the
    binary64 result of 0.8 - 0.2 - 0.2, with 0.2 taken off for "might" and for
    "possibly" only, no quotation-mark or "section" bonus, and a clamp that
    changes nothing; that float is the one next above 0.4, namely
    7205759403792795 * 2^-54 (printed 0.4000000000000001). *)
Theorem estimate_confidence_example :
  let answer := ConfidenceSpec.example_answer in
  let v := F64.sub (F64.sub GeminiQASystem.lit_0_8 GeminiQASystem.lit_0_2)
             GeminiQASystem.lit_0_2 in
  List.filter (fun phrase => Str.contains phrase (Str.lower answer))
    GeminiQASystem.uncertain_phrases = ["might"; "possibly"]%string /\
  GeminiQASystem.has_reference answer = false /\
  GeminiQASystem.lower_confidence answer GeminiQASystem.lit_0_8 = v /\
  F64.py_max GeminiQASystem.lit_0_1 (F64.py_min GeminiQASystem.lit_1_0 v) = v /\
  GeminiQASystem._estimate_confidence answer = v /\
  v = ConfidenceSpec.above_0_4 /\
  v = S754_finite false 7205759403792795 (-54).
Proof.
  cbv zeta.
  assert (Hphrases :
            List.filter
              (fun phrase =>
                 Str.contains phrase (Str.lower ConfidenceSpec.example_answer))
              GeminiQASystem.uncertain_phrases = ["might"; "possibly"]%string)
    by (vm_compute; reflexivity).
  assert (Href : GeminiQASystem.has_reference ConfidenceSpec.example_answer = false)
    by (vm_compute; reflexivity).
  split; [exact Hphrases |].
  split; [exact Href |].
  split; [vm_compute; reflexivity |].
  split; [vm_compute; reflexivity |].
  split.
  - unfold GeminiQASystem._estimate_confidence. rewrite Href.
    vm_compute. reflexivity.
  - split; vm_compute; reflexivity.
Qed.

(** ** The clause parser *)

Module ClauseFacts.

Import ClauseSpec.

Import GeminiClauseExtractor.

(** An element that the validation loop keeps has a long text. *)
Lemma clean_clause_long (item : pyval) (c : clause) :
  clean_clause item = Val (Some c) -> long_text c.
Proof.
  unfold clean_clause, long_text.
  destruct item as [| | | | |items|d]; try discriminate.
  destruct (Py.dict_has "clause_type" d && Py.dict_has "clause_text" d);
    [|discriminate].
  destruct (Py.strip_method (Py.get_or "clause_text" (PStr "") d))
    as [stripped|e]; cbn [mbind exc_bind bind]; [|discriminate].
  destruct (20 <? String.length stripped)%nat eqn:Hlen; [|discriminate].
  intros [= <-]. cbn. apply Nat.ltb_lt. exact Hlen.
Qed.

(** The validation loop only ever appends elements it keeps. *)
Lemma clean_clauses_long (items : list pyval) :
  forall acc cs,
    Forall long_text acc ->
    clean_clauses items acc = Val cs ->
    Forall long_text cs.
Proof.
  induction items as [|item items IH]; intros acc cs Hacc Hrun.
  - cbn in Hrun. injection Hrun as <-. exact Hacc.
  - cbn [clean_clauses] in Hrun.
    destruct (clean_clause item) as [[c|]|e] eqn:Hitem; cbn in Hrun.
    + apply (IH (acc ++ [c]) cs); [|exact Hrun].
      apply Forall_app. split; [exact Hacc|].
      constructor; [|constructor].
      apply (clean_clause_long item). exact Hitem.
    + apply (IH acc cs); assumption.
    + discriminate Hrun.
Qed.

(** A keyword line names one of the twelve clause types. *)
Lemma clause_indicator_known (line name : string) :
  clause_indicator line = Some name -> In name clause_type_names.
Proof.
  unfold clause_indicator. intros Hfind.
  apply List.find_some in Hfind. tauto.
Qed.

Lemma new_clause_known (name : string) :
  In name clause_type_names -> known_clause (new_clause name).
Proof.
  intros Hin. exists name. split; [reflexivity | exact Hin].
Qed.

Lemma fallback_line_inv (st : fallback_state) (raw_line : string) :
  fallback_inv st -> fallback_inv (fallback_line st raw_line).
Proof.
  destruct st as [cs current]. intros [Hcs Hcur]. cbn in Hcs, Hcur.
  unfold fallback_line.
  destruct (clause_indicator (Str.strip raw_line)) as [name|] eqn:Hind.
  - assert (Hnew : known_clause (new_clause name))
      by (apply new_clause_known, (clause_indicator_known _ _ Hind)).
    assert (Hcs' : Forall known_clause
                     (match current with Some c => cs ++ [c] | None => cs end)).
    { destruct current as [c|]; [|exact Hcs].
      apply Forall_app. split; [exact Hcs | constructor; [exact Hcur | constructor]]. }
    repeat match goal with
           | |- context [if ?b then _ else _] => destruct b
           end; split; cbn; assumption.
  - destruct current as [c|]; [|split; cbn; assumption].
    repeat match goal with
           | |- context [if ?b then _ else _] => destruct b
           end; split; cbn; assumption.
Qed.

Lemma fallback_fold_inv (lines : list string) :
  forall st, fallback_inv st -> fallback_inv (fold_left fallback_line lines st).
Proof.
  induction lines as [|line lines IH]; intros st Hst; cbn [fold_left].
  - exact Hst.
  - apply IH, fallback_line_inv, Hst.
Qed.

(** Every record of the fallback carries one of the twelve clause types. *)
Lemma fallback_known (raw : string) :
  Forall known_clause (_fallback_clause_parsing raw).
Proof.
  unfold _fallback_clause_parsing.
  pose proof (fallback_fold_inv (Str.split Str.newline raw) ([], None)) as Hinv.
  destruct (fold_left fallback_line (Str.split Str.newline raw) ([], None))
    as [cs current].
  destruct Hinv as [Hcs Hcur]; [split; [constructor | exact I] |].
  cbn in Hcs, Hcur. destruct current as [c|]; [|exact Hcs].
  apply Forall_app. split; [exact Hcs | constructor; [exact Hcur | constructor]].
Qed.

End ClauseFacts.


(** C2, as stated, fails on the strict path: the well-formed response
    [[{"clause_type": "FOO", "clause_text": "Pay within 30 days of invoice."}]]
    is returned as one record whose type is not in the closed set. *)
Lemma parse_clause_response_unknown_type :
  exists c,
    GeminiClauseExtractor._parse_clause_response Json.loads
      ClauseSpec.unknown_type_response = Val [c] /\
    clause_type c = PStr "FOO" /\
    ~ GeminiClauseExtractor.known_type (clause_type c).
Proof.
  eexists. split; [vm_compute; reflexivity |].
  split; [reflexivity |].
  intros [name [Hname Hin]]. cbn in Hname. injection Hname as <-.
  vm_compute in Hin. intuition discriminate.
Qed.

(** C2, amended: for every response text, a record returned on the strict
    JSON path has a [clause_text] longer than 20 characters (its
    [clause_type] is the value the response gave, whatever it is), and a
    record returned on the fallback path has a [clause_type] drawn from the
    twelve names of the closed set. *)
Theorem parse_clause_response_records
    (json_loads : string -> exc pyval) (raw : string) :
  match GeminiClauseExtractor.parse_clauses_strict json_loads raw with
  | Val cs =>
      GeminiClauseExtractor._parse_clause_response json_loads raw = Val cs /\
      Forall ClauseSpec.long_text cs
  | Raise JSONDecodeError =>
      GeminiClauseExtractor._parse_clause_response json_loads raw
      = Val (GeminiClauseExtractor._fallback_clause_parsing raw) /\
      Forall ClauseSpec.known_clause
        (GeminiClauseExtractor._fallback_clause_parsing raw)
  | Raise _ =>
      GeminiClauseExtractor._parse_clause_response json_loads raw = Val []
  end.
Proof.
  unfold GeminiClauseExtractor._parse_clause_response.
  destruct (GeminiClauseExtractor.parse_clauses_strict json_loads raw)
    as [cs|e] eqn:Hstrict.
  - split; [reflexivity |].
    unfold GeminiClauseExtractor.parse_clauses_strict in Hstrict.
    destruct (json_loads (GeminiClauseExtractor.json_candidate raw))
      as [v|e]; cbn in Hstrict; [|discriminate].
    destruct (Py.iterate v) as [items|e]; cbn in Hstrict; [|discriminate].
    apply (ClauseFacts.clean_clauses_long items [] cs); [constructor | exact Hstrict].
  - destruct e; try reflexivity.
    split; [reflexivity | apply ClauseFacts.fallback_known].
Qed.

(** ** Trimmed strings *)

Module StrFacts.

Import StrSpec.

Lemma lstrip_no_lead (s : string) : no_lead (Str.lstrip s).
Proof.
  induction s as [|c s IH]; cbn [Str.lstrip].
  - exact I.
  - destruct (Str.isspace c) eqn:Hc; [exact IH | exact Hc].
Qed.

Lemma lstrip_id (s : string) : no_lead s -> Str.lstrip s = s.
Proof.
  destruct s as [|c s]; cbn [Str.lstrip no_lead]; [reflexivity |].
  intros ->. reflexivity.
Qed.

Lemma rstrip_no_lead (s : string) : no_lead s -> no_lead (Str.rstrip s).
Proof.
  destruct s as [|c s]; cbn [Str.rstrip no_lead]; [intros; exact I |].
  intros Hc. rewrite Hc. cbn [andb no_lead]. exact Hc.
Qed.

Lemma rstrip_idem (s : string) : Str.rstrip (Str.rstrip s) = Str.rstrip s.
Proof.
  induction s as [|c s IH]; cbn [Str.rstrip]; [reflexivity |].
  destruct (Str.isspace c && Str.is_empty (Str.rstrip s)) eqn:Hdrop.
  - reflexivity.
  - cbn [Str.rstrip]. rewrite IH, Hdrop. reflexivity.
Qed.

(** [strip] returns a trimmed string: stripping it again changes nothing. *)
Lemma strip_idem (s : string) : Str.strip (Str.strip s) = Str.strip s.
Proof.
  unfold Str.strip.
  rewrite (lstrip_id (Str.rstrip (Str.lstrip s))).
  - apply rstrip_idem.
  - apply rstrip_no_lead, lstrip_no_lead.
Qed.

End StrFacts.

(** ** The entity parser *)

Module EntityFacts.

Import EntitySpec.

Import GeminiEntityExtractor.

Lemma stripped_entities_clean (entity_list : list pyval) :
  forall xs, stripped_entities entity_list = Val xs -> Forall clean_entity xs.
Proof.
  induction entity_list as [|entity rest IH]; intros xs Hrun.
  - cbn in Hrun. injection Hrun as <-. constructor.
  - cbn [stripped_entities] in Hrun.
    destruct (Py.truthy entity); [|exact (IH xs Hrun)].
    destruct entity as [| | | |s| |]; cbn [Py.strip_method mbind exc_bind bind] in Hrun;
      try discriminate Hrun.
    destruct (stripped_entities rest) as [r|e]; cbn [mbind exc_bind bind] in Hrun;
      [|discriminate Hrun].
    injection Hrun as <-.
    specialize (IH r eq_refl).
    destruct (1 <? String.length (Str.strip s))%nat eqn:Hlen; [|exact IH].
    constructor; [|exact IH].
    split; [apply StrFacts.strip_idem | apply Nat.ltb_lt; exact Hlen].
Qed.

Section Strict.

Variable json_loads : string -> exc pyval.
Variable list_of_set : list string -> list string.

(** What [list(set(xs))] guarantees, whatever the iteration order. *)
Hypothesis list_of_set_NoDup : forall xs, List.NoDup (list_of_set xs).
Hypothesis list_of_set_In : forall xs x, In x (list_of_set xs) <-> In x xs.

Lemma capped_set_clean (xs : list string) :
  Forall clean_entity xs -> clean_list (firstn 20 (list_of_set xs)).
Proof.
  intros Hxs. split; [|split].
  - apply NoDup_ListNoDup.
    apply (sublist_NoDup _ (list_of_set xs)).
    + apply NoDup_ListNoDup, list_of_set_NoDup.
    + apply sublist_take.
  - apply Forall_take, Forall_forall. intros x Hx.
    rewrite Forall_forall in Hxs. apply Hxs.
    apply list_elem_of_In, list_of_set_In, list_elem_of_In, Hx.
  - apply firstn_le_length.
Qed.

(** Storing a clean list under a key keeps every stored list clean. *)
Lemma dict_set_clean (category : string) (l : list string) (m : entity_map) :
  clean_list l ->
  Forall (fun kv => clean_list (snd kv)) m ->
  Forall (fun kv => clean_list (snd kv)) (Py.dict_set category l m).
Proof.
  intros Hl Hm.
  induction Hm as [|[k v] m Hkv Hm IH]; cbn [Py.dict_set].
  - constructor; [exact Hl | constructor].
  - destruct (String.eqb category k).
    + constructor; [exact Hl | exact Hm].
    + constructor; [exact Hkv | exact IH].
Qed.

Lemma clean_entities_clean (items : list (string * pyval)) :
  forall acc m,
    Forall (fun kv => clean_list (snd kv)) acc ->
    clean_entities list_of_set items acc = Val m ->
    Forall (fun kv => clean_list (snd kv)) m.
Proof.
  induction items as [|[category entity_list] items IH]; intros acc m Hacc Hrun.
  - cbn in Hrun. injection Hrun as <-. exact Hacc.
  - cbn [clean_entities] in Hrun.
    destruct entity_list as [| | | | |l|d]; try exact (IH acc m Hacc Hrun).
    destruct (stripped_entities l) as [xs|e] eqn:Hxs;
      cbn [mbind exc_bind bind] in Hrun; [|discriminate Hrun].
    pose proof (capped_set_clean xs (stripped_entities_clean l xs Hxs)) as Hcap.
    destruct (firstn 20 (list_of_set xs)) as [|x kept] eqn:Hkept.
    + exact (IH acc m Hacc Hrun).
    + refine (IH (Py.dict_set category (x :: kept) acc) m _ Hrun).
      apply dict_set_clean; assumption.
Qed.

(** On the strict path every per-category list is duplicate-free, made of
    trimmed strings longer than one character, and at most 20 long. *)
Lemma strict_entities_clean (raw : string) (m : entity_map) :
  parse_entities_strict json_loads list_of_set raw = Val m ->
  Forall (fun kv => clean_list (snd kv)) m.
Proof.
  unfold parse_entities_strict. intros Hrun.
  destruct (json_loads (json_candidate raw)) as [v|e];
    cbn [mbind exc_bind bind] in Hrun; [|discriminate Hrun].
  destruct (Py.items_method v) as [items|e];
    cbn [mbind exc_bind bind] in Hrun; [|discriminate Hrun].
  apply (clean_entities_clean items [] m); [constructor | exact Hrun].
Qed.

End Strict.

End EntityFacts.

(** C8 at its failing input: the response "PERSONS:", "- Alice", "- Alice"
    (three lines) is no JSON text, so the fallback parses it, and the list it
    returns for PERSONS holds "Alice" twice. *)
Theorem fallback_entities_keep_duplicates (list_of_set : list string -> list string) :
  GeminiEntityExtractor._parse_entity_response Json.loads list_of_set
    EntitySpec.repeated_entity_response
  = Val [("PERSONS", ["Alice"; "Alice"])]%string /\
  ~ List.NoDup ["Alice"; "Alice"]%string.
Proof.
  split.
  - vm_compute. reflexivity.
  - intros Hnodup. inversion Hnodup as [|x l Hnotin _]. apply Hnotin. left. reflexivity.
Qed.

(** ** The span highlighter *)

Module HighlightFacts.

Import HighlightSpec.

Import GeminiClauseExtractor.

Lemma highlight_clause_ext (f g : pyval -> string) (text : string) (c : clause) :
  same_format f g c -> highlight_clause f text c = highlight_clause g text c.
Proof.
  intros [Htype Hcontext]. unfold highlight_clause, highlight_span.
  rewrite Htype, Hcontext. reflexivity.
Qed.

(** The loop only uses the formatter on the clauses it walks over. *)
Lemma highlight_loop_ext (f g : pyval -> string) (cs : list clause) :
  Forall (same_format f g) cs ->
  forall text, highlight_loop f text cs = highlight_loop g text cs.
Proof.
  induction 1 as [|c cs Hc Hcs IH]; intros text; cbn [highlight_loop].
  - reflexivity.
  - rewrite (highlight_clause_ext f g text c Hc).
    destruct (highlight_clause g text c) as [text'|e]; cbn [mbind exc_bind bind].
    + apply IH.
    + reflexivity.
Qed.

Lemma text_clause_same_format (f : pyval -> string) (type text context : string) :
  (forall s, f (PStr s) = s) ->
  same_format f str_of_text (text_clause type text context).
Proof.
  intros Hf. split; cbn; apply Hf.
Qed.

End HighlightFacts.

(** C6 at its failing input.  The document is "Pay within 30 days of invoice.";
    the first clause quotes it and has the context "payment term of thirty
    days"; the second clause has that context as its text.  The second text
    does not occur in the document, yet it is wrapped: the highlighter finds
    it in the [title] attribute written for the first clause and puts a
    second [<span>] there. *)
Theorem highlight_wraps_text_absent_from_document (py_str : pyval -> string) :
  (forall s, py_str (PStr s) = s) ->
  let clauses := [HighlightSpec.payment_clause; HighlightSpec.stray_clause] in
  let highlighted :=
    GeminiClauseExtractor.highlight_clauses_in_text py_str
      HighlightSpec.document clauses in
  Str.contains HighlightSpec.explanation HighlightSpec.document = false /\
  highlighted
  = Str.replace_first HighlightSpec.explanation HighlightSpec.stray_span
      HighlightSpec.payment_span /\
  Str.contains HighlightSpec.stray_span highlighted = true.
Proof.
  intros Hstr. cbv zeta.
  assert (Hsorted :
            GeminiClauseExtractor.sorted_clauses
              [HighlightSpec.payment_clause; HighlightSpec.stray_clause]
            = [HighlightSpec.payment_clause; HighlightSpec.stray_clause])
    by (vm_compute; reflexivity).
  assert (Hsame :
            GeminiClauseExtractor.highlight_clauses_in_text py_str
              HighlightSpec.document
              [HighlightSpec.payment_clause; HighlightSpec.stray_clause]
            = GeminiClauseExtractor.highlight_clauses_in_text
                HighlightSpec.str_of_text HighlightSpec.document
                [HighlightSpec.payment_clause; HighlightSpec.stray_clause]).
  { unfold GeminiClauseExtractor.highlight_clauses_in_text.
    rewrite Hsorted.
    rewrite (HighlightFacts.highlight_loop_ext py_str HighlightSpec.str_of_text).
    - reflexivity.
    - repeat constructor; apply Hstr. }
  rewrite Hsame.
  split; [vm_compute; reflexivity |].
  split; vm_compute; reflexivity.
Qed.

(** The hypothesis of [highlight_wraps_text_absent_from_document] holds of a
    formatter that returns a string unchanged. *)
Lemma highlight_wraps_text_absent_from_document_witness :
  let highlighted :=
    GeminiClauseExtractor.highlight_clauses_in_text HighlightSpec.str_of_text
      HighlightSpec.document
      [HighlightSpec.payment_clause; HighlightSpec.stray_clause] in
  Str.contains HighlightSpec.explanation HighlightSpec.document = false /\
  highlighted
  = Str.replace_first HighlightSpec.explanation HighlightSpec.stray_span
      HighlightSpec.payment_span /\
  Str.contains HighlightSpec.stray_span highlighted = true.
Proof.
  apply (highlight_wraps_text_absent_from_document HighlightSpec.str_of_text).
  intros s. reflexivity.
Defined.

(** ** The per-document pipeline *)

Module PipelineFacts.

Import PipelineSpec.

Import Pipeline.
Import EnhancedLegalDocumentProcessor.

Section Processor.

Variable json_loads : string -> exc pyval.
Variable list_of_set : list string -> list string.
Variable py_str : pyval -> string.

(** The clause parser returns a list on every response. *)
Lemma parse_clause_response_returns (response_text : string) :
  exists cs,
    GeminiClauseExtractor._parse_clause_response json_loads response_text = Val cs.
Proof.
  unfold GeminiClauseExtractor._parse_clause_response.
  destruct (GeminiClauseExtractor.parse_clauses_strict json_loads response_text)
    as [cs|[]]; eexists; reflexivity.
Qed.



(** With a validated file and the extraction enabled, the run is decided by
    what the extractor returns. *)
Lemma process_document_extracted (w : world) (path : string)
    (aopts : option options) (td : text_data) :
  _validate_file w = Val true ->
  enabled (default default_options aopts) "extract_text" true = true ->
  extraction w = Val td ->
  process_document json_loads list_of_set py_str w path aopts
  = if Str.is_empty (text td)
    then no_text_results w path (default default_options aopts) td
    else run_stages json_loads list_of_set py_str w path
           (default default_options aopts) (Some td) (text td).
Proof.
  intros Hvalid Henabled Hextract.
  unfold process_document, process_body.
  rewrite Hvalid. cbn [mbind exc_bind bind negb].
  rewrite Henabled, Hextract. cbn [mbind exc_bind bind Py.truthy].
  destruct (Str.is_empty (text td)); reflexivity.
Qed.


End Processor.


End PipelineFacts.

(** C4: when the file is valid, the extraction step runs and the extractor
    returns no text, [process_document] returns a result with status
    ['failed'] and the error message recorded, and none of the stage fields
    [summary], [entities], [clauses], [clause_summary], [highlighted_text],
    [suggested_questions], [bullet_points], [risk_analysis] is populated. *)
Theorem no_text_fails_the_run
    (json_loads : string -> exc pyval) (list_of_set : list string -> list string)
    (py_str : pyval -> string)
    (w : world) (path : string) (aopts : option options) (td : text_data) :
  Pipeline._validate_file w = Val true ->
  Pipeline.enabled (default EnhancedLegalDocumentProcessor.default_options aopts)
    "extract_text" true = true ->
  extraction w = Val td ->
  text td = EmptyString ->
  let r :=
    EnhancedLegalDocumentProcessor.process_document json_loads list_of_set py_str
      w path aopts in
  EnhancedLegalDocumentProcessor.status r = "failed"%string /\
  EnhancedLegalDocumentProcessor.error r
  = Some (Message "No text could be extracted from document") /\
  EnhancedLegalDocumentProcessor.text_extraction r = Some td /\
  PipelineSpec.no_stage_output r.
Proof.
  intros Hvalid Henabled Hextract Hempty. cbv zeta.
  rewrite (PipelineFacts.process_document_extracted json_loads list_of_set py_str
             w path aopts td Hvalid Henabled Hextract).
  rewrite Hempty. cbn [Str.is_empty].
  unfold PipelineSpec.no_stage_output. cbn.
  repeat split; reflexivity.
Qed.

(** The hypotheses of [no_text_fails_the_run] hold of a scanned file in which
    the extractor finds no text, processed with the default options. *)
Lemma no_text_fails_the_run_witness :
  let r :=
    EnhancedLegalDocumentProcessor.process_document Json.loads remove_dups
      HighlightSpec.str_of_text PipelineSpec.blank_world "scan.pdf" None in
  EnhancedLegalDocumentProcessor.status r = "failed"%string /\
  EnhancedLegalDocumentProcessor.error r
  = Some (Message "No text could be extracted from document") /\
  EnhancedLegalDocumentProcessor.text_extraction r = Some PipelineSpec.empty_text /\
  PipelineSpec.no_stage_output r.
Proof.
  apply (no_text_fails_the_run Json.loads remove_dups HighlightSpec.str_of_text
           PipelineSpec.blank_world "scan.pdf" None PipelineSpec.empty_text).
  - reflexivity.
  - vm_compute. reflexivity.
  - reflexivity.
  - reflexivity.
Defined.





(** ** The batch driver *)

Module BatchFacts.

Import BatchSpec.

Import Pipeline.
Import LegalDocumentProcessor.

Section Batch.

Variable json_loads : string -> exc pyval.
Variable list_of_set : list string -> list string.
Variable bw : batch_world.
Variable aopts : option options.

Abbreviation result_of := (BatchSpec.result_of json_loads list_of_set bw aopts).

Hypothesis extracting :
  enabled (default default_options aopts) "extract_text" true = true.



End Batch.

Section Loop.

Variable json_loads : string -> exc pyval.
Variable list_of_set : list string -> list string.
Variable bw : batch_world.
Variable aopts : option options.

Abbreviation result_of := (BatchSpec.result_of json_loads list_of_set bw aopts).
Abbreviation completes := (BatchSpec.completes json_loads list_of_set bw aopts).
Abbreviation stored := (BatchSpec.stored json_loads list_of_set bw aopts).

(** What the loop does to the counters and to the dictionary. *)
Lemma batch_loop (paths : list string) :
  forall st,
    let st' := fold_left (batch_step json_loads list_of_set bw aopts) paths st in
    total_documents (fst st') = total_documents (fst st) /\
    processed_successfully (fst st')
    = processed_successfully (fst st)
      + Z.of_nat (List.length (List.filter completes paths)) /\
    failed (fst st')
    = failed (fst st)
      + Z.of_nat (List.length (List.filter (fun p => negb (completes p)) paths)) /\
    individual_results (fst st') = stored paths (individual_results (fst st)) /\
    summary_comparison (fst st') = summary_comparison (fst st).
Proof.
  induction paths as [|path paths IH]; intros [b completed]; cbv zeta.
  - cbn. repeat split; lia.
  - cbn [fold_left].
    specialize (IH (batch_step json_loads list_of_set bw aopts (b, completed) path)).
    cbv zeta in IH. destruct IH as [Htotal [Hdone [Hfailed [Hstored Hcmp]]]].
    rewrite Htotal, Hdone, Hfailed, Hstored, Hcmp.
    unfold batch_step. cbn [List.filter].
    fold (result_of path). fold (completes path).
    destruct (completes path); cbn [fst negb List.length
      total_documents processed_successfully failed individual_results
      summary_comparison BatchSpec.stored fold_left];
      repeat split; try reflexivity; lia.
Qed.

Lemma stored_other (paths : list string) :
  forall m p, ~ In p paths -> stored paths m !! p = m !! p.
Proof.
  induction paths as [|path paths IH]; intros m p Hnotin; cbn [BatchSpec.stored fold_left].
  - reflexivity.
  - fold (stored paths (<[path := result_of path]> m)).
    rewrite IH by (intros Hin; apply Hnotin; right; exact Hin).
    apply lookup_insert_ne. intros ->. apply Hnotin. left. reflexivity.
Qed.

(** Every path of the batch is a key, and holds the result of its run. *)
Lemma stored_lookup (paths : list string) :
  forall m p, In p paths -> stored paths m !! p = Some (result_of p).
Proof.
  induction paths as [|path paths IH]; intros m p Hin; cbn [BatchSpec.stored fold_left].
  - destruct Hin.
  - fold (stored paths (<[path := result_of path]> m)).
    destruct (in_dec string_dec p paths) as [Hlater|Hnot].
    + apply IH. exact Hlater.
    + rewrite stored_other by exact Hnot.
      destruct Hin as [->|Hin]; [apply lookup_insert_eq | contradiction].
Qed.


(** The comparison step changes nothing but [summary_comparison]. *)
Lemma batch_fields (paths : list string) :
  let b := process_multiple_documents json_loads list_of_set bw paths aopts in
  let b' :=
    fst (fold_left (batch_step json_loads list_of_set bw aopts) paths
           (initial_batch paths, [])) in
  total_documents b = total_documents b' /\
  processed_successfully b = processed_successfully b' /\
  failed b = failed b' /\
  individual_results b = individual_results b'.
Proof.
  cbv zeta. unfold process_multiple_documents.
  destruct (fold_left (batch_step json_loads list_of_set bw aopts) paths
              (initial_batch paths, [])) as [b completed].
  destruct ((2 <=? List.length completed)%nat && wants_comparison aopts);
    cbn; repeat split; reflexivity.
Qed.



End Loop.

End BatchFacts.




(** ** Replacing the first occurrence *)

Module ReplaceFacts.

Lemma prefix_app (p s : string) :
  String.prefix p s = true -> s = (p +:+ Str.drop (String.length p) s)%string.
Proof.
  revert s. induction p as [|c p IH]; intros s Hprefix.
  - reflexivity.
  - destruct s as [|d s]; cbn in Hprefix; [discriminate |].
    destruct (ascii_dec c d) as [->|]; [|discriminate].
    change (String d s = String d (p +:+ Str.drop (String.length p) s)%string).
    f_equal. apply IH. exact Hprefix.
Qed.

(** When [old] occurs in [s], [replace_first] splits [s] around its leftmost
    occurrence and puts [new] there; nothing else changes. *)
Lemma replace_first_leftmost (old new s : string) :
  Str.contains old s = true ->
  exists before after,
    s = (before +:+ old +:+ after)%string /\
    Str.replace_first old new s = (before +:+ new +:+ after)%string /\
    forall k, (k < String.length before)%nat ->
              String.prefix old (Str.drop k s) = false.
Proof.
  induction s as [|c s IH]; intros Hin.
  - cbn [Str.contains] in Hin. rewrite orb_false_r in Hin.
    exists EmptyString, (Str.drop (String.length old) EmptyString).
    cbn [Str.replace_first]. rewrite Hin.
    split; [apply (prefix_app old EmptyString Hin) |].
    split; [reflexivity | intros k Hk; cbn in Hk; lia].
  - cbn [Str.contains Str.replace_first] in *.
    destruct (String.prefix old (String c s)) eqn:Hhere.
    + exists EmptyString, (Str.drop (String.length old) (String c s)).
      split; [apply (prefix_app old (String c s) Hhere) |].
      split; [reflexivity | intros k Hk; cbn in Hk; lia].
    + cbn [orb] in Hin. destruct (IH Hin) as [before [after [Hs [Hrep Hleft]]]].
      exists (String c before), after.
      split; [rewrite Hs at 1; reflexivity |].
      split; [rewrite Hrep; reflexivity |].
      intros [|k] Hk; cbn [Str.drop].
      * exact Hhere.
      * apply Hleft. cbn in Hk. lia.
Qed.

End ReplaceFacts.

(** ** Further properties *)

(** The scenarios of the specification for the clause parser: the
    well-formed PAYMENT response gives one clause with exactly its fields;
    text without structure and the empty response give the empty list. *)
Theorem parse_clause_response_scenarios :
  GeminiClauseExtractor._parse_clause_response Json.loads
    ClauseSpec.payment_response
  = Val [ {| clause_type := PStr "PAYMENT";
             clause_text := "Pay within 30 days of invoice.";
             clause_context := PStr "payment term";
             clause_importance := PStr "HIGH";
             clause_section := PStr "3.1" |} ] /\
  GeminiClauseExtractor._parse_clause_response Json.loads
    "no usable structure here" = Val [] /\
  GeminiClauseExtractor._parse_clause_response Json.loads "" = Val [].
Proof.
  split; [vm_compute; reflexivity |].
  split; vm_compute; reflexivity.
Qed.

(** X1: on the strict JSON path of the entity parser every per-category list
    is duplicate-free and made of trimmed strings longer than one character,
    with at most 20 entries, whatever order [list(set(...))] yields. *)
Theorem strict_entity_lists_are_clean
    (json_loads : string -> exc pyval) (list_of_set : list string -> list string)
    (raw : string) (m : entity_map) :
  (forall xs, List.NoDup (list_of_set xs)) ->
  (forall xs x, In x (list_of_set xs) <-> In x xs) ->
  GeminiEntityExtractor.parse_entities_strict json_loads list_of_set raw = Val m ->
  GeminiEntityExtractor._parse_entity_response json_loads list_of_set raw = Val m /\
  Forall (fun kv => EntitySpec.clean_list (snd kv)) m.
Proof.
  intros Hnodup Hin Hstrict. split.
  - unfold GeminiEntityExtractor._parse_entity_response. rewrite Hstrict. reflexivity.
  - exact (EntityFacts.strict_entities_clean json_loads list_of_set Hnodup Hin raw m
             Hstrict).
Qed.

(** The hypotheses of [strict_entity_lists_are_clean] hold of the decoder
    above, of a set that keeps first occurrences, and of a response that
    names Alice twice. *)
Lemma strict_entity_lists_are_clean_witness :
  GeminiEntityExtractor._parse_entity_response Json.loads remove_dups
    EntitySpec.repeated_json_response
  = Val [("PERSONS", ["Alice"; "Bob"])]%string /\
  Forall (fun kv => EntitySpec.clean_list (snd kv))
    [("PERSONS", ["Alice"; "Bob"])]%string.
Proof.
  apply (strict_entity_lists_are_clean Json.loads remove_dups
           EntitySpec.repeated_json_response).
  - intros xs. apply NoDup_ListNoDup, NoDup_remove_dups.
  - intros xs x. rewrite <- !list_elem_of_In. apply elem_of_remove_dups.
  - vm_compute. reflexivity.
Defined.

(** X2: one turn of the highlighting loop leaves the working copy as it is or
    replaces exactly one occurrence of the clause's trimmed text, the
    leftmost one, by the wrapper; the text around it is kept. *)
Theorem highlight_clause_replaces_leftmost
    (py_str : pyval -> string) (working text' : string) (c : clause) :
  GeminiClauseExtractor.highlight_clause py_str working c = Val text' ->
  let t := Str.strip (clause_text c) in
  text' = working \/
  exists color before after,
    working = (before +:+ t +:+ after)%string /\
    text' = (before +:+ GeminiClauseExtractor.highlight_span py_str color c t
             +:+ after)%string /\
    forall k, (k < String.length before)%nat ->
              String.prefix t (Str.drop k working) = false.
Proof.
  unfold GeminiClauseExtractor.highlight_clause. cbv zeta.
  destruct (negb (Str.is_empty (Str.strip (clause_text c)))
            && Str.contains (Str.strip (clause_text c)) working) eqn:Hfound.
  - apply andb_true_iff in Hfound as [_ Hin].
    destruct (GeminiClauseExtractor.color_of (clause_type c)) as [color|e];
      cbn [mbind exc_bind bind]; [|discriminate].
    intros [= <-]. right. exists color.
    apply ReplaceFacts.replace_first_leftmost. exact Hin.
  - intros [= <-]. left. reflexivity.
Qed.

(** The hypothesis of [highlight_clause_replaces_leftmost] holds of a
    document that states the payment term twice: only the first statement
    is wrapped. *)
Lemma highlight_clause_replaces_leftmost_witness :
  GeminiClauseExtractor.highlight_clause HighlightSpec.str_of_text
    HighlightSpec.repeated_document HighlightSpec.payment_clause
  = Val (HighlightSpec.payment_span +:+ " " +:+ HighlightSpec.document)%string.
Proof.
  destruct (highlight_clause_replaces_leftmost HighlightSpec.str_of_text
              HighlightSpec.repeated_document
              (HighlightSpec.payment_span +:+ " " +:+ HighlightSpec.document)%string
              HighlightSpec.payment_clause) as [Hsame | _].
  - vm_compute. reflexivity.
  - vm_compute in Hsame. discriminate Hsame.
  - vm_compute. reflexivity.
Defined.

(** ** Strings *)

Module TextFacts.

Import TextSpec.

Lemma rstrip_empty_blank (s : string) :
  Str.rstrip s = EmptyString -> blank s = true.
Proof.
  induction s as [|c s IH]; cbn [Str.rstrip blank]; [reflexivity|].
  destruct (Str.isspace c); cbn [andb]; [|discriminate].
  destruct (Str.rstrip s); cbn [Str.is_empty]; [|discriminate].
  intros _. apply IH. reflexivity.
Qed.

Lemma lstrip_blank (s : string) :
  blank (Str.lstrip s) = true -> blank s = true.
Proof.
  induction s as [|c s IH]; cbn [Str.lstrip blank]; [reflexivity|].
  destruct (Str.isspace c) eqn:Hc; cbn [andb]; [exact IH|].
  cbn [blank]. rewrite Hc. discriminate.
Qed.

Lemma strip_empty_blank (s : string) :
  Str.strip s = EmptyString -> blank s = true.
Proof.
  unfold Str.strip. intros H. apply lstrip_blank, rstrip_empty_blank, H.
Qed.

Lemma blank_strip (s : string) :
  blank s = true -> Str.strip s = EmptyString.
Proof.
  unfold Str.strip. intros H.
  assert (Hl : Str.lstrip s = EmptyString).
  { induction s as [|c s IH]; [reflexivity|].
    cbn [blank] in H. apply andb_true_iff in H as [Hc Hs].
    cbn [Str.lstrip]. rewrite Hc. apply IH, Hs. }
  rewrite Hl. reflexivity.
Qed.

Lemma lower_char_space (c : ascii) :
  Str.isspace c = true -> Str.lower_char c = c.
Proof.
  destruct c as [[] [] [] [] [] [] [] []]; vm_compute; intros H;
    first [reflexivity | discriminate H].
Qed.

Lemma blank_lower (s : string) : blank s = true -> Str.lower s = s.
Proof.
  induction s as [|c s IH]; [reflexivity|].
  cbn [blank Str.lower]. intros H. apply andb_true_iff in H as [Hc Hs].
  rewrite (lower_char_space c Hc), (IH Hs). reflexivity.
Qed.

(** White space holds no word that starts with another character. *)
Lemma blank_contains (c : ascii) (p s : string) :
  Str.isspace c = false -> blank s = true ->
  Str.contains (String c p) s = false.
Proof.
  intros Hc. induction s as [|d s IH]; intros Hs.
  - reflexivity.
  - cbn [blank] in Hs. apply andb_true_iff in Hs as [Hd Hs].
    cbn [Str.contains String.prefix].
    destruct (ascii_dec c d) as [->|Hne].
    + rewrite Hd in Hc. discriminate Hc.
    + rewrite (IH Hs). reflexivity.
Qed.

Lemma blank_words (s : string) : blank s = true -> Str.words s = [].
Proof.
  induction s as [|c s IH]; [reflexivity|].
  cbn [blank Str.words]. intros H. apply andb_true_iff in H as [Hc Hs].
  rewrite Hc. apply IH, Hs.
Qed.

Lemma lstrip_length (s : string) :
  (String.length (Str.lstrip s) <= String.length s)%nat.
Proof.
  induction s as [|c s IH]; cbn [Str.lstrip String.length]; [lia|].
  destruct (Str.isspace c); cbn [String.length]; lia.
Qed.

Lemma rstrip_length (s : string) :
  (String.length (Str.rstrip s) <= String.length s)%nat.
Proof.
  induction s as [|c s IH]; cbn [Str.rstrip String.length]; [lia|].
  destruct (Str.isspace c && Str.is_empty (Str.rstrip s)); cbn [String.length]; lia.
Qed.

Lemma strip_length (s : string) :
  (String.length (Str.strip s) <= String.length s)%nat.
Proof.
  unfold Str.strip.
  pose proof (rstrip_length (Str.lstrip s)). pose proof (lstrip_length s). lia.
Qed.

Lemma substring_length_le (s : string) :
  forall a n, (String.length (substring a n s) <= n)%nat.
Proof.
  induction s as [|c s IH]; intros a n.
  - destruct a, n; cbn; lia.
  - destruct a as [|a].
    + destruct n as [|n]; cbn [substring String.length]; [lia|].
      specialize (IH 0%nat n). lia.
    + cbn [substring]. apply IH.
Qed.

Lemma append_length (s t : string) :
  String.length (s +:+ t) = (String.length s + String.length t)%nat.
Proof.
  induction s as [|c s IH]; simpl; [reflexivity|].
  rewrite IH. reflexivity.
Qed.

(** A slice that starts at 0 is no longer than its bound. *)
Lemma slice_length_le (s : string) (b : Z) :
  0 <= b -> (String.length (Str.slice s 0 b) <= Z.to_nat b)%nat.
Proof.
  intros Hb. unfold Str.slice, Str.clamp_index.
  destruct (0 <? 0) eqn:H0; [discriminate H0|].
  destruct (b <? 0) eqn:Hneg; [apply Z.ltb_lt in Hneg; lia|].
  pose proof (substring_length_le s
                (Z.to_nat (Z.min 0 (Z.of_nat (String.length s))))
                (Z.to_nat (Z.min b (Z.of_nat (String.length s))
                           - Z.min 0 (Z.of_nat (String.length s))))) as H.
  lia.
Qed.

(** Without an occurrence of the separator the string is one piece. *)
Lemma split_on_absent (sep s : string) :
  Str.contains sep s = false -> Str.split_on sep s 0 = [s].
Proof.
  induction s as [|c s IH]; intros H; [reflexivity|].
  cbn [Str.contains] in H. apply orb_false_iff in H as [Hp Hs].
  cbn [Str.split_on]. rewrite Hp, (IH Hs). reflexivity.
Qed.

End TextFacts.

(** ** Questions and answers *)

Module QAFacts.

Import QASpec.
Import GeminiQASystem.

Lemma string_in_In (x : string) (l : list string) :
  string_in x l = true <-> In x l.
Proof.
  unfold string_in. rewrite existsb_exists. split.
  - intros [y [Hin Heq]]. apply String.eqb_eq in Heq. subst y. exact Hin.
  - intros Hin. exists x. split; [exact Hin | apply String.eqb_refl].
Qed.

Lemma question_of_line_well_formed (raw_line q : string) :
  question_of_line raw_line = Some q -> well_formed q = true.
Proof.
  unfold question_of_line, well_formed.
  destruct (Str.strip raw_line) as [|c rest]; [discriminate|].
  destruct (Str.isdigit c || Str.startswith (String c rest) "-"); [|discriminate].
  match goal with
  | |- (if ?b then _ else _) = _ -> _ => destruct b eqn:Hb; [|discriminate]
  end.
  intros [= <-].
  apply andb_true_iff in Hb as [Hb Hend].
  apply andb_true_iff in Hb as [_ Hlen].
  apply andb_true_iff. split; [exact Hend | exact Hlen].
Qed.

Lemma extracted_well_formed (lines : list string) :
  Forall (fun q => well_formed q = true) (omap question_of_line lines).
Proof.
  induction lines as [|line lines IH]; cbn [omap list_omap]; [constructor|].
  destruct (question_of_line line) as [q|] eqn:Hq; [|exact IH].
  constructor; [exact (question_of_line_well_formed _ _ Hq) | exact IH].
Qed.

Lemma category_questions_well_formed :
  Forall (fun q => well_formed q = true) category_questions.
Proof. repeat constructor. Qed.

Lemma category_questions_distinct : List.NoDup category_questions.
Proof.
  apply NoDup_ListNoDup.
  refine (bool_decide_unpack (NoDup category_questions) _).
  vm_compute. exact I.
Qed.

Lemma fill_fold_well_formed (l : list string) :
  forall acc,
    Forall (fun q => well_formed q = true) l ->
    Forall (fun q => well_formed q = true) acc ->
    Forall (fun q => well_formed q = true) (fold_left fill_step l acc).
Proof.
  induction l as [|q l IH]; intros acc Hl Hacc; cbn [fold_left]; [exact Hacc|].
  inversion Hl as [|? ? Hq Hl']; subst.
  apply IH; [exact Hl'|].
  unfold fill_step. destruct (_ && _); [|exact Hacc].
  apply Forall_app. split; [exact Hacc | constructor; [exact Hq | constructor]].
Qed.

(** The second loop fills the list up to eight as long as fresh questions
    are left. *)
Lemma fill_fold_length (l : list string) :
  forall acc,
    List.NoDup l ->
    (List.length acc <= 8)%nat ->
    List.length (fold_left fill_step l acc)
    = Nat.min 8 (List.length acc
                 + List.length (List.filter (fun q => negb (string_in q acc)) l)).
Proof.
  induction l as [|q l IH]; intros acc Hnd Hacc; cbn [fold_left List.filter].
  - cbn [List.length]. lia.
  - inversion Hnd as [|? ? Hq Hnd']; subst.
    unfold fill_step at 2.
    destruct (List.length acc <? 8)%nat eqn:Hlt; cbn [andb].
    + apply Nat.ltb_lt in Hlt.
      destruct (string_in q acc) eqn:Hin; cbn [negb].
      * rewrite (IH acc Hnd' Hacc). reflexivity.
      * rewrite (IH (acc ++ [q]) Hnd'); [|rewrite List.length_app; cbn; lia].
        rewrite List.length_app. cbn [List.length].
        assert (Hsame : List.filter (fun x => negb (string_in x (acc ++ [q]))) l
                        = List.filter (fun x => negb (string_in x acc)) l).
        { apply List.filter_ext_in. intros x Hx. f_equal.
          unfold string_in. rewrite existsb_app. cbn.
          rewrite orb_false_r.
          destruct (String.eqb x q) eqn:Hxq; [|apply orb_false_r].
          apply String.eqb_eq in Hxq. subst x. contradiction. }
        rewrite Hsame. lia.
    + apply Nat.ltb_ge in Hlt.
      rewrite (IH acc Hnd' Hacc).
      destruct (negb (string_in q acc)); cbn [List.length]; lia.
Qed.

(** Of a duplicate-free list, at most [length acc] elements lie in [acc]. *)
Lemma fresh_count (l acc : list string) :
  List.NoDup l ->
  (List.length l
   <= List.length acc
      + List.length (List.filter (fun q => negb (string_in q acc)) l))%nat.
Proof.
  intros Hnd.
  pose proof (List.filter_length (fun q => string_in q acc) l) as Hsplit.
  assert (Hle : (List.length (List.filter (fun q => string_in q acc) l)
                 <= List.length acc)%nat).
  { apply List.NoDup_incl_length.
    - apply List.NoDup_filter. exact Hnd.
    - intros x Hx. apply List.filter_In in Hx as [_ Hx].
      apply string_in_In. exact Hx. }
  cbn in Hsplit.
  lia.
Qed.

Lemma fill_questions_length (s : list string) :
  (List.length s < 6)%nat -> List.length (fill_questions s) = 8%nat.
Proof.
  intros Hlt. unfold fill_questions.
  apply Nat.ltb_lt in Hlt as Hb. rewrite Hb.
  change (List.length (fold_left fill_step category_questions s) = 8%nat).
  rewrite fill_fold_length; [|exact category_questions_distinct | lia].
  pose proof (fresh_count category_questions s category_questions_distinct) as H.
  change (List.length category_questions) with 12%nat in H. lia.
Qed.

Lemma fill_questions_well_formed (s : list string) :
  Forall (fun q => well_formed q = true) s ->
  Forall (fun q => well_formed q = true) (fill_questions s).
Proof.
  intros Hs. unfold fill_questions.
  destruct (List.length s <? 6)%nat; [|exact Hs].
  apply (fill_fold_well_formed category_questions s);
    [exact category_questions_well_formed | exact Hs].
Qed.

(** *** The supporting sections *)

Lemma overlap_le (answer_words sentence_words : list string) :
  (overlap answer_words sentence_words
   <= List.length (distinct answer_words))%nat.
Proof.
  unfold overlap, distinct.
  apply List.NoDup_incl_length; [apply List.NoDup_nodup|].
  intros x Hx. apply List.nodup_In in Hx. apply List.filter_In in Hx as [_ Hx].
  apply List.nodup_In. apply string_in_In. exact Hx.
Qed.

Lemma section_of_length (sentence : string) :
  (String.length (section_of sentence) <= 203)%nat.
Proof.
  unfold section_of.
  destruct (200 <? String.length sentence)%nat eqn:Hlong.
  - rewrite TextFacts.append_length.
    pose proof (TextFacts.slice_length_le (Str.strip sentence) 200) as H.
    cbn [String.length]. lia.
  - apply Nat.ltb_ge in Hlong.
    pose proof (TextFacts.strip_length sentence). lia.
Qed.

Lemma collect_sections_bounded (answer_words all : list string) (P : string -> Prop) :
  (forall sentence,
     In sentence all ->
     (3 <= overlap answer_words (Str.words (Str.lower sentence)))%nat ->
     P (section_of sentence)) ->
  forall sentences sections,
    incl sentences all ->
    (List.length sections < 3)%nat ->
    Forall P sections ->
    (List.length (collect_sections answer_words sentences sections) <= 3)%nat /\
    Forall P (collect_sections answer_words sentences sections).
Proof.
  intros HP. induction sentences as [|sentence rest IH];
    intros sections Hincl Hlen Hall; cbn [collect_sections].
  - split; [lia | exact Hall].
  - assert (Hin : In sentence all) by (apply Hincl; left; reflexivity).
    assert (Hrest : incl rest all) by (intros x Hx; apply Hincl; right; exact Hx).
    destruct (3 <=? overlap answer_words (Str.words (Str.lower sentence)))%nat
      eqn:Hover.
    + apply Nat.leb_le in Hover.
      assert (Hall' : Forall P (sections ++ [section_of sentence])).
      { apply Forall_app. split; [exact Hall|].
        constructor; [exact (HP sentence Hin Hover) | constructor]. }
      destruct (3 <=? List.length (sections ++ [section_of sentence]))%nat eqn:Hfull.
      * split; [|exact Hall'].
        rewrite List.length_app. cbn [List.length]. lia.
      * apply Nat.leb_gt in Hfull. apply IH; assumption.
    + destruct (3 <=? List.length sections)%nat eqn:Hfull.
      * apply Nat.leb_le in Hfull. lia.
      * apply IH; assumption.
Qed.

Lemma collect_sections_none (answer_words sentences : list string) :
  (List.length (distinct answer_words) < 3)%nat ->
  collect_sections answer_words sentences [] = [].
Proof.
  intros Hfew. induction sentences as [|sentence rest IH]; cbn [collect_sections];
    [reflexivity|].
  pose proof (overlap_le answer_words (Str.words (Str.lower sentence))) as Hle.
  destruct (3 <=? overlap answer_words (Str.words (Str.lower sentence)))%nat
    eqn:Hover; [apply Nat.leb_le in Hover; lia|].
  cbn. exact IH.
Qed.

(** *** The confidence of a blank answer *)

Lemma lower_confidence_absent (answer_text : string) (phrases : list string)
    (confidence : float64) :
  Forall (fun phrase => Str.contains phrase (Str.lower answer_text) = false) phrases ->
  fold_left
    (fun confidence phrase =>
       if Str.contains phrase (Str.lower answer_text)
       then F64.sub confidence lit_0_2 else confidence)
    phrases confidence = confidence.
Proof.
  induction 1 as [|phrase phrases Hp _ IH]; cbn [fold_left]; [reflexivity|].
  rewrite Hp. exact IH.
Qed.

Lemma estimate_confidence_blank (c : ascii) (rest : string) :
  TextSpec.blank (String c rest) = true ->
  _estimate_confidence (String c rest) = lit_0_8.
Proof.
  intros Hblank. unfold _estimate_confidence. cbn [Str.is_empty]. cbv zeta.
  unfold lower_confidence.
  rewrite lower_confidence_absent.
  - unfold has_reference.
    rewrite (TextFacts.blank_lower _ Hblank).
    unfold Str.dquote.
    rewrite !TextFacts.blank_contains by (reflexivity || exact Hblank).
    cbn [orb]. vm_compute. reflexivity.
  - rewrite (TextFacts.blank_lower _ Hblank).
    repeat constructor; apply TextFacts.blank_contains;
      (reflexivity || exact Hblank).
Qed.

(** *** Search results *)

Lemma set_field_query (f : hit_field) (value : string) (h : search_hit) :
  hit_query (set_field f value h) = hit_query h.
Proof. destruct f; reflexivity. Qed.

Lemma search_line_query (st : search_hit * option hit_field) (raw_line : string) :
  hit_query (fst (search_line st raw_line)) = hit_query (fst st).
Proof.
  destruct st as [h current]. unfold search_line.
  repeat match goal with
         | |- context [if ?b then _ else _] => destruct b
         | |- context [match ?o with Some _ => _ | None => _ end] => destruct o
         end; cbn [fst]; rewrite ?set_field_query; reflexivity.
Qed.

Lemma search_fold_query (lines : list string) :
  forall st,
    hit_query (fst (fold_left search_line lines st)) = hit_query (fst st).
Proof.
  induction lines as [|line lines IH]; intros st; cbn [fold_left]; [reflexivity|].
  rewrite IH. apply search_line_query.
Qed.

Lemma parse_section_query (query section : string) :
  hit_query (parse_section query section) = query.
Proof. unfold parse_section. rewrite search_fold_query. reflexivity. Qed.

Lemma parse_search_results_kept (response_text query : string) :
  (List.length (_parse_search_results response_text query) <= 5)%nat /\
  Forall (kept_hit query) (_parse_search_results response_text query).
Proof.
  unfold _parse_search_results. split.
  - rewrite List.length_firstn. lia.
  - apply Forall_take. apply List.Forall_forall. intros h Hh.
    apply List.filter_In in Hh as [Hin Hkeep].
    apply List.in_map_iff in Hin as [section [<- _]].
    unfold meaningful in Hkeep. apply andb_true_iff in Hkeep as [_ Hlen].
    split; [apply Nat.ltb_lt, Hlen | apply parse_section_query].
Qed.

(** *** Batches of questions *)

Lemma batch_answers_nth (responses : nat -> exc string) (document_text : string)
    (questions : list string) :
  forall i k q,
    nth_error questions k = Some q ->
    nth_error (batch_answers responses document_text i questions) k
    = Some (answer_question (responses (i + k)%nat) document_text q None).
Proof.
  induction questions as [|q0 rest IH]; intros i k q Hq.
  - destruct k; discriminate Hq.
  - destruct k as [|k]; cbn [batch_answers nth_error] in *.
    + injection Hq as <-. rewrite Nat.add_0_r. reflexivity.
    + rewrite (IH (S i) k q Hq).
      replace (S i + k)%nat with (i + S k)%nat by lia. reflexivity.
Qed.

Lemma batch_answers_length (responses : nat -> exc string) (document_text : string)
    (questions : list string) :
  forall i,
    List.length (batch_answers responses document_text i questions)
    = List.length questions.
Proof.
  induction questions as [|q rest IH]; intros i; cbn [batch_answers List.length];
    [reflexivity|].
  rewrite IH. reflexivity.
Qed.

End QAFacts.

(** X3: whatever the model answers, and also when the call fails,
    [get_suggested_questions] returns at least 6 and at most 10 questions,
    and each of them ends with a question mark and is longer than 10
    characters. *)
Theorem suggested_questions_are_six_to_ten (response : exc string) :
  let qs := GeminiQASystem.get_suggested_questions response in
  (6 <= List.length qs <= 10)%nat /\
  Forall (fun q => QASpec.well_formed q = true) qs.
Proof.
  cbv zeta. unfold GeminiQASystem.get_suggested_questions.
  destruct response as [text|e].
  - set (s := omap GeminiQASystem.question_of_line (Str.split Str.newline text)).
    split.
    + rewrite List.length_firstn.
      destruct (Nat.lt_ge_cases (List.length s) 6) as [Hlt|Hge].
      * rewrite (QAFacts.fill_questions_length s Hlt). cbn. lia.
      * unfold GeminiQASystem.fill_questions.
        apply Nat.ltb_ge in Hge as Hb. rewrite Hb. lia.
    + apply Forall_take. apply QAFacts.fill_questions_well_formed.
      apply QAFacts.extracted_well_formed.
  - split; [cbn; lia | repeat constructor].
Qed.

(** X4: an answer of the model that is not empty but holds white space only
    is recorded with the empty answer text, the base confidence 0.8 and no
    supporting section: the confidence is estimated on the text before it is
    trimmed. *)
Theorem blank_answer_keeps_base_confidence
    (response_text document_text q : string) (context_clauses : option (list clause)) :
  response_text <> EmptyString ->
  Str.strip response_text = EmptyString ->
  let a :=
    GeminiQASystem.answer_question (Val response_text) document_text q
      context_clauses in
  GeminiQASystem.answer a = GeminiQASystem.Answered EmptyString /\
  GeminiQASystem.confidence a = GeminiQASystem.lit_0_8 /\
  GeminiQASystem.relevant_sections a = [].
Proof.
  intros Hne Hstrip. cbv zeta. cbn [GeminiQASystem.answer_question
    GeminiQASystem.answer GeminiQASystem.confidence GeminiQASystem.relevant_sections].
  apply TextFacts.strip_empty_blank in Hstrip as Hblank.
  split; [rewrite Hstrip; reflexivity|].
  split.
  - destruct response_text as [|c rest]; [contradiction Hne; reflexivity|].
    apply QAFacts.estimate_confidence_blank. exact Hblank.
  - unfold GeminiQASystem._extract_relevant_sections.
    rewrite (TextFacts.blank_lower _ Hblank), (TextFacts.blank_words _ Hblank).
    apply QAFacts.collect_sections_none. cbn. lia.
Qed.

(** A response of two blanks and a line feed. *)
Lemma blank_answer_keeps_base_confidence_witness :
  let a :=
    GeminiQASystem.answer_question (Val (String " " (String " " (String Str.newline "")))) "Any document." "Who pays?"
      None in
  GeminiQASystem.answer a = GeminiQASystem.Answered EmptyString /\
  GeminiQASystem.confidence a = GeminiQASystem.lit_0_8 /\
  GeminiQASystem.relevant_sections a = [].
Proof.
  apply blank_answer_keeps_base_confidence.
  - discriminate.
  - vm_compute. reflexivity.
Defined.

(** X5: [_extract_relevant_sections] returns at most three sections; each is
    at most 203 characters long and was built from a sentence of the
    document (a piece between full stops, longer than 20 characters once
    trimmed) that shares at least three distinct words with the answer. *)
Theorem relevant_sections_are_bounded (document_text q answer : string) :
  let sections := GeminiQASystem._extract_relevant_sections document_text q answer in
  (List.length sections <= 3)%nat /\
  Forall (fun s => (String.length s <= 203)%nat /\
                   QASpec.supported_by answer document_text s) sections.
Proof.
  cbv zeta. unfold GeminiQASystem._extract_relevant_sections.
  apply (QAFacts.collect_sections_bounded
           (Str.words (Str.lower answer))
           (GeminiQASystem.doc_sentences document_text)).
  - intros sentence Hin Hover. split; [apply QAFacts.section_of_length|].
    exists sentence. split; [exact Hin | split; [reflexivity | exact Hover]].
  - intros x Hx. exact Hx.
  - cbn. lia.
  - constructor.
Qed.

(** X6: an answer with fewer than three distinct words (white space apart,
    case folded) gets no supporting section, whatever the document says. *)
Theorem short_answer_has_no_sections (document_text q answer : string) :
  (List.length (GeminiQASystem.distinct (Str.words (Str.lower answer))) < 3)%nat ->
  GeminiQASystem._extract_relevant_sections document_text q answer = [].
Proof.
  intros Hfew. unfold GeminiQASystem._extract_relevant_sections.
  apply QAFacts.collect_sections_none. exact Hfew.
Qed.

Lemma short_answer_has_no_sections_witness :
  GeminiQASystem._extract_relevant_sections
    "The supplier shall pay, yes it shall pay. Yes, yes."
    "Does the supplier pay?" "Yes yes YES" = [].
Proof.
  apply short_answer_has_no_sections. vm_compute. lia.
Defined.

(** X7: [search_document] reports as many results as it returns, at most
    five; every result has a text longer than 10 characters and carries the
    query; when the model call fails there is no result and the error is
    recorded. *)
Theorem search_results_are_kept_hits
    (response : exc string) (document_text query : string) :
  let d := GeminiQASystem.search_document response document_text query in
  GeminiQASystem.total_results d
  = Z.of_nat (List.length (GeminiQASystem.search_results d)) /\
  (List.length (GeminiQASystem.search_results d) <= 5)%nat /\
  Forall (QASpec.kept_hit query) (GeminiQASystem.search_results d) /\
  GeminiQASystem.search_query d = query /\
  (forall e, response = Raise e ->
             GeminiQASystem.search_results d = [] /\
             GeminiQASystem.search_error d = Some e).
Proof.
  cbv zeta. destruct response as [response_text|e];
    cbn [GeminiQASystem.search_document GeminiQASystem.total_results
         GeminiQASystem.search_results GeminiQASystem.search_query
         GeminiQASystem.search_error].
  - destruct (QAFacts.parse_search_results_kept response_text query) as [Hlen Hall].
    split; [reflexivity|]. split; [exact Hlen|]. split; [exact Hall|].
    split; [reflexivity|]. intros e He. discriminate He.
  - split; [reflexivity|]. split; [cbn; lia|]. split; [constructor|].
    split; [reflexivity|]. intros e' [= <-]. split; reflexivity.
Qed.

(** X8: a response in which the marker [**Result] does not occur gives no
    search result. *)
Theorem search_without_marker_finds_nothing (response_text query : string) :
  Str.contains "**Result" response_text = false ->
  GeminiQASystem._parse_search_results response_text query = [].
Proof.
  intros Habsent. unfold GeminiQASystem._parse_search_results.
  rewrite (TextFacts.split_on_absent _ _ Habsent). reflexivity.
Qed.

Lemma search_without_marker_finds_nothing_witness :
  GeminiQASystem._parse_search_results
    "No relevant information found for this search query." "penalty" = [].
Proof.
  apply search_without_marker_finds_nothing. vm_compute. reflexivity.
Defined.

(** X9: [batch_answer_questions] returns one record per question, in the
    order of the questions; the record at index [k] is the one
    [answer_question] builds from the model call made for that question
    alone, so a call that fails leaves the other records as they are. *)
Theorem batch_answers_follow_the_questions
    (responses : nat -> exc string) (document_text : string)
    (questions : list string) (k : nat) (q : string) :
  nth_error questions k = Some q ->
  List.length (GeminiQASystem.batch_answer_questions responses document_text questions)
  = List.length questions /\
  nth_error (GeminiQASystem.batch_answer_questions responses document_text questions) k
  = Some (GeminiQASystem.answer_question (responses k) document_text q None).
Proof.
  intros Hq. unfold GeminiQASystem.batch_answer_questions. split.
  - apply QAFacts.batch_answers_length.
  - exact (QAFacts.batch_answers_nth responses document_text questions 0 k q Hq).
Qed.

(** The third question is answered although the call for the second one
    failed. *)
Lemma batch_answers_follow_the_questions_witness :
  List.length (GeminiQASystem.batch_answer_questions QASpec.flaky_responses
                 "The agreement runs for two years." QASpec.sample_questions)
  = 3%nat /\
  nth_error (GeminiQASystem.batch_answer_questions QASpec.flaky_responses
               "The agreement runs for two years." QASpec.sample_questions) 2
  = Some (GeminiQASystem.answer_question
            (Val "The agreement runs for two years.")
            "The agreement runs for two years." "Which law applies?" None).
Proof.
  apply (batch_answers_follow_the_questions QASpec.flaky_responses
           "The agreement runs for two years." QASpec.sample_questions 2
           "Which law applies?").
  reflexivity.
Defined.

(** ** Clauses that bear on a question *)

Module RouterFacts.

Import RouterSpec.
Import EnhancedLegalDocumentProcessor.

Lemma fold_matches (question_lower : string) (clauses : list clause)
    (entries : list (string * list string)) :
  forall acc,
    fold_left (fun acc entry => acc ++ matches_of question_lower clauses entry)
      entries acc
    = acc ++ flat_map (matches_of question_lower clauses) entries.
Proof.
  induction entries as [|entry entries IH]; intros acc; cbn [fold_left flat_map].
  - rewrite app_nil_r. reflexivity.
  - rewrite IH, <- app_assoc. reflexivity.
Qed.

(** What the keyword loop collects: the clauses that match the question. *)
Lemma collected_iff (q : string) (clauses : list clause) (c : clause) :
  In c (flat_map (matches_of (Str.lower q) clauses) keyword_mapping)
  <-> In c clauses /\ keyword_match q c = true.
Proof.
  unfold keyword_match. rewrite in_flat_map, existsb_exists. split.
  - intros [[keyword types] [Hentry Hc]]. unfold matches_of in Hc.
    destruct (Str.contains keyword (Str.lower q)) eqn:Hk; [|destruct Hc].
    apply List.filter_In in Hc as [Hin Htype].
    split; [exact Hin|]. exists (keyword, types).
    split; [exact Hentry|]. cbn [fst snd]. rewrite Hk, Htype. reflexivity.
  - intros [Hin [[keyword types] [Hentry Hm]]]. cbn [fst snd] in Hm.
    apply andb_true_iff in Hm as [Hk Htype].
    exists (keyword, types). split; [exact Hentry|].
    unfold matches_of. rewrite Hk. apply List.filter_In. split; assumption.
Qed.

End RouterFacts.

(** X10: [get_clause_context_for_question] returns at most three clauses, all
    taken from the clauses given.  When some clause matches the question (a
    keyword of the mapping occurs in the lower-cased question and maps to the
    clause's type) every clause returned is such a match and there is at
    least one; when none matches, the result is the first three clauses of
    importance HIGH. *)
Theorem clause_context_is_matched_or_high (clauses : list clause) (q : string) :
  let r := EnhancedLegalDocumentProcessor.get_clause_context_for_question clauses q in
  (List.length r <= 3)%nat /\
  Forall (fun c => In c clauses) r /\
  (existsb (RouterSpec.keyword_match q) clauses = true ->
   r <> [] /\ Forall (fun c => RouterSpec.keyword_match q c = true) r) /\
  (existsb (RouterSpec.keyword_match q) clauses = false ->
   r = firstn 3 (List.filter GeminiClauseExtractor.is_high clauses)).
Proof.
  cbv zeta. unfold EnhancedLegalDocumentProcessor.get_clause_context_for_question.
  rewrite RouterFacts.fold_matches. cbn [app].
  set (relevant :=
         flat_map (EnhancedLegalDocumentProcessor.matches_of (Str.lower q) clauses)
           EnhancedLegalDocumentProcessor.keyword_mapping).
  assert (Hrel : forall c, In c relevant
                           <-> In c clauses /\ RouterSpec.keyword_match q c = true)
    by (intros c; apply RouterFacts.collected_iff).
  destruct (existsb (RouterSpec.keyword_match q) clauses) eqn:Hany.
  - apply existsb_exists in Hany as [c0 [Hin0 Hm0]].
    assert (Hc0 : In c0 relevant) by (apply Hrel; split; assumption).
    destruct relevant as [|c1 rest] eqn:Hrelevant; [destruct Hc0|].
    rewrite <- Hrelevant in *. clear c0 Hin0 Hm0 Hc0.
    assert (Hall : Forall (fun c => In c clauses /\ RouterSpec.keyword_match q c = true)
                     (firstn 3 relevant)).
    { apply Forall_take. apply List.Forall_forall. intros c Hc. apply Hrel, Hc. }
    split; [rewrite List.length_firstn; lia|].
    split; [eapply List.Forall_impl; [|exact Hall]; cbn; intros c Hc; apply Hc|].
    split; [|discriminate].
    intros _. split.
    + rewrite Hrelevant. discriminate.
    + eapply List.Forall_impl; [|exact Hall]. cbn. intros c Hc. apply Hc.
  - assert (Hnone : relevant = []).
    { destruct relevant as [|c rest]; [reflexivity|].
      assert (Hc : In c clauses /\ RouterSpec.keyword_match q c = true)
        by (apply Hrel; left; reflexivity).
      destruct Hc as [Hin Hm].
      assert (Hex : existsb (RouterSpec.keyword_match q) clauses = true)
        by (apply existsb_exists; exists c; split; assumption).
      rewrite Hex in Hany. discriminate Hany. }
    rewrite Hnone.
    assert (Hidem : firstn 3 (firstn 3 (List.filter GeminiClauseExtractor.is_high clauses))
                    = firstn 3 (List.filter GeminiClauseExtractor.is_high clauses)).
    { rewrite List.firstn_firstn. reflexivity. }
    rewrite Hidem.
    split; [rewrite List.length_firstn; lia|].
    split.
    + apply Forall_take. apply List.Forall_forall. intros c Hc.
      apply List.filter_In in Hc. apply Hc.
    + split; [discriminate | reflexivity].
Qed.

(** ** The clause summary *)

Module SummaryFacts.

Import SummarySpec.
Import GeminiClauseExtractor.

(** Only the string itself equals a string key. *)
Lemma key_eq_str_r (k : pyval) (s : string) :
  Py.key_eq k (PStr s) = true <-> k = PStr s.
Proof.
  destruct k as [| b | n | f | t | l | d]; cbn; try (split; [discriminate | discriminate]).
  rewrite String.eqb_eq. split; [intros ->; reflexivity | intros [= ->]; reflexivity].
Qed.

Lemma key_eq_str_l (k : pyval) (s : string) :
  Py.key_eq (PStr s) k = true <-> k = PStr s.
Proof.
  destruct k as [| b | n | f | t | l | d]; cbn; try (split; [discriminate | discriminate]).
  rewrite String.eqb_eq. split; [intros ->; reflexivity | intros [= ->]; reflexivity].
Qed.

Lemma key_eq_str_sym (k : pyval) (s : string) :
  Py.key_eq (PStr s) k = Py.key_eq k (PStr s).
Proof.
  destruct (Py.key_eq k (PStr s)) eqn:H.
  - apply key_eq_str_l, key_eq_str_r, H.
  - destruct (Py.key_eq (PStr s) k) eqn:H'; [|reflexivity].
    apply key_eq_str_l, key_eq_str_r in H'. rewrite H' in H. discriminate H.
Qed.

(** Against a key that equals [k], a string compares as it does against
    [k]. *)
Lemma key_eq_str_trans (k k' : pyval) (s : string) :
  Py.key_eq k k' = true -> Py.key_eq (PStr s) k' = Py.key_eq k (PStr s).
Proof.
  intros Hkk'.
  destruct (Py.key_eq k (PStr s)) eqn:Hk.
  - apply key_eq_str_r in Hk. subst k. exact Hkk'.
  - destruct (Py.key_eq (PStr s) k') eqn:Hk'; [|reflexivity].
    apply key_eq_str_l in Hk'. subst k'. rewrite Hkk' in Hk. discriminate Hk.
Qed.

(** Against a key that differs from [k], a string that equals the key is
    not [k]. *)
Lemma key_eq_str_other (k k' : pyval) (s : string) :
  Py.key_eq k k' = false -> Py.key_eq (PStr s) k' = true ->
  Py.key_eq k (PStr s) = false.
Proof.
  intros Hkk' Hk'. apply key_eq_str_l in Hk'. subst k'. exact Hkk'.
Qed.

(** Each increment adds one to the sum of the counts. *)
Lemma counter_incr_total (k : pyval) (d : Py.counter) :
  counter_total (Py.counter_set k (Py.counter_get k d + 1) d) = counter_total d + 1.
Proof.
  induction d as [|[k' n'] d IH]; cbn [Py.counter_set Py.counter_get counter_total
                                       fold_right snd].
  - lia.
  - destruct (Py.key_eq k k'); cbn [counter_total fold_right snd].
    + fold (counter_total d). lia.
    + fold (counter_total d) in *.
      change (fold_right (fun kn n => snd kn + n) 0
                (Py.counter_set k (Py.counter_get k d + 1) d))
        with (counter_total (Py.counter_set k (Py.counter_get k d + 1) d)).
      rewrite IH. lia.
Qed.

(** An increment moves the count of a string key by one when that key is
    the one incremented, and leaves it otherwise. *)
Lemma counter_incr_get (k : pyval) (s : string) (d : Py.counter) :
  Py.counter_get (PStr s) (Py.counter_set k (Py.counter_get k d + 1) d)
  = Py.counter_get (PStr s) d + (if Py.key_eq k (PStr s) then 1 else 0).
Proof.
  induction d as [|[k' n'] d IH]; cbn [Py.counter_set Py.counter_get].
  - rewrite key_eq_str_sym. destruct (Py.key_eq k (PStr s)); lia.
  - destruct (Py.key_eq k k') eqn:Hkk'; cbn [Py.counter_get].
    + rewrite (key_eq_str_trans k k' s Hkk').
      destruct (Py.key_eq k (PStr s)) eqn:Hk; [lia|].
      lia.
    + destruct (Py.key_eq (PStr s) k') eqn:Hk'.
      * rewrite (key_eq_str_other k k' s Hkk' Hk'). lia.
      * exact IH.
Qed.

Lemma counter_incr_has (k : pyval) (s : string) (n : Z) (d : Py.counter) :
  Py.counter_has (PStr s) (Py.counter_set k n d)
  = Py.counter_has (PStr s) d || Py.key_eq k (PStr s).
Proof.
  unfold Py.counter_has.
  induction d as [|[k' n'] d IH]; cbn [Py.counter_set existsb fst].
  - rewrite key_eq_str_sym, orb_false_r. reflexivity.
  - destruct (Py.key_eq k k') eqn:Hkk'; cbn [existsb fst].
    + destruct (Py.key_eq (PStr s) k') eqn:Hk'; [reflexivity|]. cbn [orb].
      rewrite <- (key_eq_str_trans k k' s Hkk'), Hk', orb_false_r. reflexivity.
    + rewrite IH. rewrite orb_assoc. reflexivity.
Qed.

(** What the counting loop leaves when it runs through. *)
Lemma count_clauses_counts (clauses : list clause) :
  forall d ic d' ic',
    count_clauses clauses d ic = Val (d', ic') ->
    counter_total d' = counter_total d + Z.of_nat (List.length clauses) /\
    counter_total ic' = counter_total ic + Z.of_nat (List.length clauses) /\
    (forall s, Py.counter_get (PStr s) ic'
               = Py.counter_get (PStr s) ic
                 + Z.of_nat (List.length
                               (List.filter
                                  (fun c => Py.key_eq (clause_importance c) (PStr s))
                                  clauses))) /\
    (forall s, Py.counter_has (PStr s) d'
               = Py.counter_has (PStr s) d || existsb (has_clause_type s) clauses).
Proof.
  induction clauses as [|c rest IH]; intros d ic d' ic' Hrun.
  - cbn in Hrun. injection Hrun as <- <-. cbn [List.length List.filter existsb].
    repeat split; intros; rewrite ?orb_false_r; lia || reflexivity.
  - cbn [count_clauses] in Hrun. unfold Py.counter_incr in Hrun.
    destruct (Py.hashable (clause_type c)); cbn [mbind exc_bind bind] in Hrun;
      [|discriminate Hrun].
    destruct (Py.hashable (clause_importance c)); cbn [mbind exc_bind bind] in Hrun;
      [|discriminate Hrun].
    destruct (IH _ _ _ _ Hrun) as (Hd & Hic & Hget & Hhas).
    rewrite counter_incr_total in Hd, Hic.
    cbn [List.length]. rewrite Nat2Z.inj_succ.
    split; [lia|]. split; [lia|]. split.
    + intros s. rewrite (Hget s), counter_incr_get. cbn [List.filter].
      destruct (Py.key_eq (clause_importance c) (PStr s)); cbn [List.length]; lia.
    + intros s. rewrite (Hhas s), counter_incr_has. cbn [existsb].
      unfold has_clause_type at 2. rewrite orb_assoc. reflexivity.
Qed.

(** The counting loop runs through on hashable clauses, and only there. *)
Lemma count_clauses_runs (clauses : list clause) :
  forall d ic,
    forallb hashable_clause clauses = true ->
    exists d' ic', count_clauses clauses d ic = Val (d', ic').
Proof.
  induction clauses as [|c rest IH]; intros d ic Hall.
  - exists d, ic. reflexivity.
  - cbn [forallb] in Hall. apply andb_true_iff in Hall as [Hc Hrest].
    unfold hashable_clause in Hc. apply andb_true_iff in Hc as [Ht Hi].
    cbn [count_clauses]. unfold Py.counter_incr. rewrite Ht, Hi.
    cbn [mbind exc_bind bind]. apply IH, Hrest.
Qed.

Lemma count_clauses_raises (clauses : list clause) :
  forall d ic,
    forallb hashable_clause clauses = false ->
    count_clauses clauses d ic = Raise TypeError.
Proof.
  induction clauses as [|c rest IH]; intros d ic Hall; [discriminate Hall|].
  cbn [forallb] in Hall. cbn [count_clauses]. unfold Py.counter_incr.
  unfold hashable_clause in Hall.
  destruct (Py.hashable (clause_type c)); cbn [mbind exc_bind bind]; [|reflexivity].
  destruct (Py.hashable (clause_importance c)); cbn [mbind exc_bind bind];
    [|reflexivity].
  cbn [andb] in Hall. apply IH, Hall.
Qed.

End SummaryFacts.

(** X11: for clauses whose type and importance are hashable,
    [generate_clause_summary] returns a report in which [total_clauses] is
    the number of clauses, [high_importance] is the number of clauses of
    importance HIGH, and the counts of [clause_distribution] add up to the
    number of clauses, as do those of [importance_distribution] when it is
    present. *)
Theorem clause_summary_counts_add_up (clauses : list clause) :
  forallb SummarySpec.hashable_clause clauses = true ->
  exists dist imp findings recs,
    GeminiClauseExtractor.generate_clause_summary clauses
    = GeminiClauseExtractor.ClauseSummary
        (Z.of_nat (List.length clauses))
        (Z.of_nat (List.length (List.filter GeminiClauseExtractor.is_high clauses)))
        dist imp findings recs /\
    SummarySpec.counter_total dist = Z.of_nat (List.length clauses) /\
    (forall ic, imp = Some ic ->
                SummarySpec.counter_total ic = Z.of_nat (List.length clauses)) /\
    (imp = None <-> clauses = []).
Proof.
  intros Hall. unfold GeminiClauseExtractor.generate_clause_summary.
  destruct clauses as [|c0 rest] eqn:Hclauses.
  - exists [], None, [], []. cbn. repeat split; try reflexivity; discriminate.
  - rewrite <- Hclauses in *.
    destruct (SummaryFacts.count_clauses_runs clauses []
                GeminiClauseExtractor.initial_importance_counts Hall)
      as (d' & ic' & Hrun).
    rewrite Hrun.
    destruct (SummaryFacts.count_clauses_counts clauses _ _ _ _ Hrun)
      as (Hd & Hic & Hget & _).
    eexists d', (Some ic'), _, _. split.
    + rewrite (Hget "HIGH"%string).
      change (Py.counter_get (PStr "HIGH")
                GeminiClauseExtractor.initial_importance_counts) with 0.
      reflexivity.
    + split; [exact Hd|]. split.
      * intros ic [= <-]. exact Hic.
      * split; [discriminate | rewrite Hclauses; discriminate].
Qed.

Lemma clause_summary_counts_add_up_witness :
  exists dist imp findings recs,
    GeminiClauseExtractor.generate_clause_summary SummarySpec.sample_clauses
    = GeminiClauseExtractor.ClauseSummary 3 2 dist imp findings recs /\
    SummarySpec.counter_total dist = 3 /\
    (forall ic, imp = Some ic -> SummarySpec.counter_total ic = 3) /\
    (imp = None <-> SummarySpec.sample_clauses = []).
Proof.
  apply (clause_summary_counts_add_up SummarySpec.sample_clauses).
  vm_compute. reflexivity.
Defined.

(** X12: as soon as one clause carries a type or an importance that cannot be
    a dictionary key (a JSON array or object), [generate_clause_summary]
    returns the error payload, with the number of clauses and no
    distribution, finding or recommendation. *)
Theorem clause_summary_fails_on_unhashable (clauses : list clause) :
  forallb SummarySpec.hashable_clause clauses = false ->
  GeminiClauseExtractor.generate_clause_summary clauses
  = GeminiClauseExtractor.ClauseSummaryError (Z.of_nat (List.length clauses)) TypeError.
Proof.
  intros Hbad. unfold GeminiClauseExtractor.generate_clause_summary.
  destruct clauses as [|c0 rest] eqn:Hclauses; [discriminate Hbad|].
  rewrite <- Hclauses in *.
  rewrite (SummaryFacts.count_clauses_raises clauses _ _ Hbad). reflexivity.
Qed.

Lemma clause_summary_fails_on_unhashable_witness :
  GeminiClauseExtractor.generate_clause_summary SummarySpec.unhashable_clauses
  = GeminiClauseExtractor.ClauseSummaryError 2 TypeError.
Proof.
  apply (clause_summary_fails_on_unhashable SummarySpec.unhashable_clauses).
  vm_compute. reflexivity.
Defined.

(** X13: for a non-empty list of hashable clauses the report recommends adding
    a liability limitation exactly when no clause has the type
    LIMITATION_LIABILITY, recommends specifying the governing law exactly
    when none has the type GOVERNING_LAW, and recommends a review exactly
    when some clause has importance HIGH; it notes termination provisions and
    payment terms exactly when a clause of the type is there. *)
Theorem clause_summary_recommendations (clauses : list clause) :
  clauses <> [] ->
  forallb SummarySpec.hashable_clause clauses = true ->
  let s := GeminiClauseExtractor.generate_clause_summary clauses in
  let recs := SummarySpec.recommendations_of s in
  let findings := SummarySpec.key_findings_of s in
  (In "Consider adding liability limitation clauses"%string recs
   <-> existsb (SummarySpec.has_clause_type "LIMITATION_LIABILITY") clauses = false) /\
  (In "Ensure governing law and jurisdiction are specified"%string recs
   <-> existsb (SummarySpec.has_clause_type "GOVERNING_LAW") clauses = false) /\
  (In "Review all high-importance clauses carefully"%string recs
   <-> existsb GeminiClauseExtractor.is_high clauses = true) /\
  (In "Document contains termination provisions"%string findings
   <-> existsb (SummarySpec.has_clause_type "TERMINATION") clauses = true) /\
  (In "Payment terms are specified in the document"%string findings
   <-> existsb (SummarySpec.has_clause_type "PAYMENT") clauses = true).
Proof.
  intros Hne Hall. cbv zeta.
  unfold GeminiClauseExtractor.generate_clause_summary.
  destruct clauses as [|c0 rest] eqn:Hclauses; [contradiction Hne; reflexivity|].
  rewrite <- Hclauses in *. clear Hne.
  destruct (SummaryFacts.count_clauses_runs clauses []
              GeminiClauseExtractor.initial_importance_counts Hall)
    as (d' & ic' & Hrun).
  rewrite Hrun.
  destruct (SummaryFacts.count_clauses_counts clauses _ _ _ _ Hrun)
    as (_ & _ & Hget & Hhas).
  cbn [SummarySpec.recommendations_of SummarySpec.key_findings_of].
  pose proof (Hget "HIGH"%string) as Hh.
  change (Py.counter_get (PStr "HIGH") GeminiClauseExtractor.initial_importance_counts)
    with 0 in Hh.
  rewrite !Hhas, Hh.
  cbn [Py.counter_has existsb orb].
  change (List.filter (fun c => Py.key_eq (clause_importance c) (PStr "HIGH")) clauses)
    with (List.filter GeminiClauseExtractor.is_high clauses).
  assert (Hhigh : (0 + Z.of_nat (List.length
                                   (List.filter GeminiClauseExtractor.is_high clauses))
                   >? 0)
                  = existsb GeminiClauseExtractor.is_high clauses).
  { clear. induction clauses as [|c rest IH]; [reflexivity|].
    cbn [List.filter existsb].
    destruct (GeminiClauseExtractor.is_high c); cbn [orb List.length]; [|exact IH].
    apply Z.gtb_lt. lia. }
  rewrite Hhigh.
  destruct (existsb (SummarySpec.has_clause_type "LIMITATION_LIABILITY") clauses),
    (existsb (SummarySpec.has_clause_type "GOVERNING_LAW") clauses),
    (existsb GeminiClauseExtractor.is_high clauses),
    (existsb (SummarySpec.has_clause_type "TERMINATION") clauses),
    (existsb (SummarySpec.has_clause_type "PAYMENT") clauses),
    (List.filter GeminiClauseExtractor.is_high clauses);
    cbn [app In]; repeat split; intros; try reflexivity;
    repeat match goal with
           | H : _ \/ _ |- _ => destruct H
           | H : False |- _ => destruct H
           | H : _ = _ |- _ => discriminate H
           end; auto.
Qed.

Lemma clause_summary_recommendations_witness :
  let s := GeminiClauseExtractor.generate_clause_summary SummarySpec.sample_clauses in
  let recs := SummarySpec.recommendations_of s in
  let findings := SummarySpec.key_findings_of s in
  (In "Consider adding liability limitation clauses"%string recs
   <-> existsb (SummarySpec.has_clause_type "LIMITATION_LIABILITY")
         SummarySpec.sample_clauses = false) /\
  (In "Ensure governing law and jurisdiction are specified"%string recs
   <-> existsb (SummarySpec.has_clause_type "GOVERNING_LAW")
         SummarySpec.sample_clauses = false) /\
  (In "Review all high-importance clauses carefully"%string recs
   <-> existsb GeminiClauseExtractor.is_high SummarySpec.sample_clauses = true) /\
  (In "Document contains termination provisions"%string findings
   <-> existsb (SummarySpec.has_clause_type "TERMINATION")
         SummarySpec.sample_clauses = true) /\
  (In "Payment terms are specified in the document"%string findings
   <-> existsb (SummarySpec.has_clause_type "PAYMENT")
         SummarySpec.sample_clauses = true).
Proof.
  apply (clause_summary_recommendations SummarySpec.sample_clauses).
  - discriminate.
  - vm_compute. reflexivity.
Defined.

(** ** The clause parser, further *)

Module ClauseParserFacts.

Import ClauseParserSpec.
Import GeminiClauseExtractor.

(** *** The fallback *)



Lemma new_clause_record (response_text name : string) :
  fallback_record response_text (new_clause name).
Proof. repeat split. left. reflexivity. Qed.

Lemma fallback_line_ok (response_text : string) (st : fallback_state)
    (raw_line : string) :
  In raw_line (Str.split Str.newline response_text) ->
  fallback_state_ok response_text st ->
  fallback_state_ok response_text (fallback_line st raw_line).
Proof.
  intros Hline. destruct st as [cs current]. intros [Hcs Hcur].
  cbn [fst snd] in Hcs, Hcur. unfold fallback_line.
  assert (Hset : forall c,
             fallback_record response_text c ->
             (20 <? String.length (Str.strip raw_line))%nat = true ->
             fallback_record response_text (set_clause_text c (Str.strip raw_line))).
  { intros c (Hctx & Himp & Hsec & _) Hlong. repeat split; try assumption.
    right. split; [apply Nat.ltb_lt, Hlong|]. exists raw_line.
    split; [exact Hline | reflexivity]. }
  destruct (clause_indicator (Str.strip raw_line)) as [name|].
  - assert (Hcs' : Forall (fallback_record response_text)
                     (match current with Some c => cs ++ [c] | None => cs end)).
    { destruct current as [c|]; [|exact Hcs].
      apply Forall_app. split; [exact Hcs | constructor; [exact Hcur | constructor]]. }
    pose proof (new_clause_record response_text name) as Hnew.
    destruct (negb (Str.is_empty (Str.strip raw_line))
              && negb (existsb (fun keyword =>
                                  Str.contains keyword (Str.lower (Str.strip raw_line)))
                         field_keywords));
      [destruct (20 <? String.length (Str.strip raw_line))%nat eqn:Hlong|];
      split; cbn [fst snd]; auto.
  - destruct current as [c|]; [|split; cbn [fst snd]; auto].
    destruct (negb (Str.is_empty (Str.strip raw_line))
              && negb (existsb (fun keyword =>
                                  Str.contains keyword (Str.lower (Str.strip raw_line)))
                         field_keywords));
      [destruct (20 <? String.length (Str.strip raw_line))%nat eqn:Hlong|];
      split; cbn [fst snd]; auto.
Qed.

Lemma fallback_fold_ok (response_text : string) (lines : list string) :
  forall st,
    incl lines (Str.split Str.newline response_text) ->
    fallback_state_ok response_text st ->
    fallback_state_ok response_text (fold_left fallback_line lines st).
Proof.
  induction lines as [|line lines IH]; intros st Hincl Hst; cbn [fold_left].
  - exact Hst.
  - apply IH.
    + intros x Hx. apply Hincl. right. exact Hx.
    + apply fallback_line_ok; [apply Hincl; left; reflexivity | exact Hst].
Qed.

(** *** The strict path *)

Lemma clean_clause_raises (item : pyval) :
  text_not_a_string item -> clean_clause item = Raise AttributeError.
Proof.
  intros (d & -> & Htype & Htext & Hnot). unfold clean_clause.
  rewrite Htype, Htext. cbn [andb].
  destruct (Py.get_or "clause_text" (PStr "") d) as [| b | n | f | s | l | d'] eqn:Hget;
    try reflexivity.
  destruct (Hnot s eq_refl).
Qed.

Lemma clean_clause_error (item : pyval) (e : exn) :
  clean_clause item = Raise e -> e = AttributeError.
Proof.
  unfold clean_clause. destruct item as [| | | | | |d]; try discriminate.
  destruct (Py.dict_has "clause_type" d && Py.dict_has "clause_text" d);
    [|discriminate].
  destruct (Py.get_or "clause_text" (PStr "") d); cbn; intros H;
    first [discriminate H | injection H as <-; reflexivity].
Qed.

(** The validation loop stops at the first element it cannot trim. *)
Lemma clean_clauses_raises (items : list pyval) :
  Exists text_not_a_string items ->
  forall acc, clean_clauses items acc = Raise AttributeError.
Proof.
  induction items as [|item items IH]; intros Hex acc.
  - inversion Hex.
  - cbn [clean_clauses].
    destruct (clean_clause item) as [r|e] eqn:Hitem; cbn [mbind exc_bind bind].
    + apply IH. inversion Hex as [? ? Hbad|? ? Hrest]; subst; [|exact Hrest].
      rewrite (clean_clause_raises item Hbad) in Hitem. discriminate Hitem.
    + rewrite (clean_clause_error item e Hitem). reflexivity.
Qed.

(** Elements that are not objects are skipped. *)
Lemma clean_clauses_strings {A : Type} (f : A -> string) (l : list A) :
  forall acc, clean_clauses (map (fun x => PStr (f x)) l) acc = Val acc.
Proof.
  induction l as [|x l IH]; intros acc; cbn [map clean_clauses]; [reflexivity|].
  cbn. apply IH.
Qed.

End ClauseParserFacts.


(** X15: every record of the fallback has the empty context, importance
    MEDIUM and section Unknown, and its text is either empty or a trimmed
    line of the response longer than 20 characters. *)
Theorem fallback_clauses_have_default_fields (response_text : string) :
  Forall (ClauseParserSpec.fallback_record response_text)
    (GeminiClauseExtractor._fallback_clause_parsing response_text).
Proof.
  unfold GeminiClauseExtractor._fallback_clause_parsing.
  pose proof (ClauseParserFacts.fallback_fold_ok response_text
                (Str.split Str.newline response_text) ([], None)) as Hok.
  destruct (fold_left GeminiClauseExtractor.fallback_line
              (Str.split Str.newline response_text) ([], None)) as [cs current].
  destruct Hok as [Hcs Hcur].
  - intros x Hx. exact Hx.
  - split; [constructor | exact I].
  - cbn [fst snd] in Hcs, Hcur. destruct current as [c|]; [|exact Hcs].
    apply Forall_app. split; [exact Hcs | constructor; [exact Hcur | constructor]].
Qed.

(** X16: when the response decodes to an array in which some element has both
    keys and a [clause_text] that is not a string, [_parse_clause_response]
    returns the empty list: the clauses validated before that element are
    lost with it. *)
Theorem one_bad_clause_text_discards_all
    (json_loads : string -> exc pyval) (response_text : string) (items : list pyval) :
  json_loads (GeminiClauseExtractor.json_candidate response_text) = Val (PList items) ->
  Exists ClauseParserSpec.text_not_a_string items ->
  GeminiClauseExtractor._parse_clause_response json_loads response_text = Val [].
Proof.
  intros Hloads Hbad.
  unfold GeminiClauseExtractor._parse_clause_response,
    GeminiClauseExtractor.parse_clauses_strict.
  rewrite Hloads. cbn [mbind exc_bind bind Py.iterate].
  rewrite (ClauseParserFacts.clean_clauses_raises items Hbad). reflexivity.
Qed.

(** The first element of [number_text_response] is a valid clause, the
    second has the number 5 for its text. *)
Lemma one_bad_clause_text_discards_all_witness :
  GeminiClauseExtractor._parse_clause_response Json.loads
    ClauseParserSpec.number_text_response = Val [].
Proof.
  eapply (one_bad_clause_text_discards_all Json.loads
            ClauseParserSpec.number_text_response).
  - vm_compute. reflexivity.
  - apply Exists_cons_tl. apply Exists_cons_hd.
    eexists. split; [reflexivity|].
    split; [reflexivity|]. split; [reflexivity|].
    intros s. vm_compute. discriminate.
Defined.

(** X17: a response that decodes to a JSON value other than an array gives
    the empty list: a single clause object that is not wrapped in an array is
    not read. *)
Theorem non_array_response_gives_no_clause
    (json_loads : string -> exc pyval) (response_text : string) (v : pyval) :
  json_loads (GeminiClauseExtractor.json_candidate response_text) = Val v ->
  (forall items, v <> PList items) ->
  GeminiClauseExtractor._parse_clause_response json_loads response_text = Val [].
Proof.
  intros Hloads Hnot.
  unfold GeminiClauseExtractor._parse_clause_response,
    GeminiClauseExtractor.parse_clauses_strict.
  rewrite Hloads. cbn [mbind exc_bind bind].
  destruct v as [| b | n | f | s | l | d]; cbn [Py.iterate mbind exc_bind bind];
    try reflexivity.
  - rewrite (ClauseParserFacts.clean_clauses_strings (fun c => String c EmptyString)).
    reflexivity.
  - destruct (Hnot l eq_refl).
  - rewrite (ClauseParserFacts.clean_clauses_strings fst). reflexivity.
Qed.

Lemma non_array_response_gives_no_clause_witness :
  GeminiClauseExtractor._parse_clause_response Json.loads
    ClauseParserSpec.bare_object_response = Val [].
Proof.
  eapply (non_array_response_gives_no_clause Json.loads
            ClauseParserSpec.bare_object_response).
  - vm_compute. reflexivity.
  - intros items. discriminate.
Defined.

(** ** The entity parser, further *)

Module EntityParserFacts.

Import EntityParserSpec.
Import GeminiEntityExtractor.

Lemma dict_set_keys {V : Type} (k : string) (v : V) (d : list (string * V)) :
  map fst (Py.dict_set k v d)
  = if Py.dict_has k d then map fst d else map fst d ++ [k].
Proof.
  unfold Py.dict_has.
  induction d as [|[k' v'] d IH]; cbn [Py.dict_set Py.dict_get map fst app];
    [reflexivity|].
  destruct (String.eqb k k') eqn:Hk; cbn [map fst].
  - apply String.eqb_eq in Hk. subst k'. reflexivity.
  - rewrite IH. destruct (Py.dict_get k d); reflexivity.
Qed.

Lemma dict_has_keys {V : Type} (k : string) (d : list (string * V)) :
  Py.dict_has k d = false -> ~ In k (map fst d).
Proof.
  unfold Py.dict_has.
  induction d as [|[k' v'] d IH]; cbn [Py.dict_get map fst In]; [tauto|].
  destruct (String.eqb k k') eqn:Hk; [discriminate|].
  apply String.eqb_neq in Hk. intros Hget [Heq|Hin]; [congruence|].
  exact (IH Hget Hin).
Qed.

Lemma dict_set_nodup {V : Type} (k : string) (v : V) (d : list (string * V)) :
  List.NoDup (map fst d) -> List.NoDup (map fst (Py.dict_set k v d)).
Proof.
  intros Hnd. rewrite dict_set_keys.
  destruct (Py.dict_has k d) eqn:Hhas; [exact Hnd|].
  apply List.NoDup_app; [exact Hnd | repeat constructor; intros [] |].
  intros x Hx [<-|[]]. exact (dict_has_keys k d Hhas Hx).
Qed.

Lemma dict_set_forall {V : Type} (P : string * V -> Prop) (k : string) (v : V)
    (d : list (string * V)) :
  P (k, v) -> Forall P d -> Forall P (Py.dict_set k v d).
Proof.
  intros Hkv. induction 1 as [|[k' v'] d Hx Hd IH]; cbn [Py.dict_set].
  - constructor; [exact Hkv | constructor].
  - destruct (String.eqb k k'); constructor; assumption.
Qed.

Lemma dict_append_keys {V : Type} (k : string) (x : V) (d : list (string * list V)) :
  map fst (Py.dict_append k x d) = map fst d.
Proof.
  induction d as [|[k' l] d IH]; cbn [Py.dict_append map fst]; [reflexivity|].
  destruct (String.eqb k k'); cbn [map fst]; [reflexivity|].
  rewrite IH. reflexivity.
Qed.

Lemma dict_append_forall {V : Type} (P : string * list V -> Prop) (k : string)
    (x : V) (d : list (string * list V)) :
  (forall k' l, P (k', l) -> P (k', l ++ [x])) ->
  Forall P d -> Forall P (Py.dict_append k x d).
Proof.
  intros Hext. induction 1 as [|[k' l] d Hx Hd IH]; cbn [Py.dict_append].
  - constructor.
  - destruct (String.eqb k k'); constructor; auto.
Qed.

Lemma category_indicator_known (line category : string) :
  category_indicator line = Some category -> In category entity_category_names.
Proof.
  unfold category_indicator. intros Hfind.
  apply List.find_some in Hfind. tauto.
Qed.

Lemma fallback_line_map (st : fallback_state) (raw_line : string) :
  fallback_map (fst st) -> fallback_map (fst (fallback_line st raw_line)).
Proof.
  destruct st as [entities current]. cbn [fst]. intros [Hnd Hall].
  unfold fallback_line.
  set (line := Str.strip raw_line).
  assert (Hopen : forall category,
             category_indicator line = Some category ->
             fallback_map (Py.dict_set category [] entities)).
  { intros category Hcat. split; [apply dict_set_nodup, Hnd|].
    apply dict_set_forall; [|exact Hall].
    split; [exact (category_indicator_known _ _ Hcat) | constructor]. }
  assert (Happend : forall m category entity,
             fallback_map m ->
             (1 <? String.length entity)%nat = true ->
             Str.strip entity = entity ->
             fallback_map (Py.dict_append category entity m)).
  { intros m category entity [Hnd' Hall'] Hlen Htrim. split.
    - rewrite dict_append_keys. exact Hnd'.
    - apply dict_append_forall; [|exact Hall'].
      intros k' l [Hk' Hl]. split; [exact Hk'|]. cbn [snd] in *.
      apply Forall_app. split; [exact Hl|].
      constructor; [|constructor].
      split; [exact Htrim | apply Nat.ltb_lt, Hlen]. }
  destruct (category_indicator line) as [category|] eqn:Hcat.
  - specialize (Hopen category eq_refl).
    destruct (is_entity_line line); [|exact Hopen].
    match goal with
    | |- context [if ?b then _ else _] => destruct b eqn:Hkeep
    end; [|exact Hopen].
    cbn [fst]. apply andb_true_iff in Hkeep as [_ Hlen].
    apply Happend; [exact Hopen | exact Hlen | apply StrFacts.strip_idem].
  - destruct current as [category|]; [|split; assumption].
    destruct (is_entity_line line); [|split; assumption].
    match goal with
    | |- context [if ?b then _ else _] => destruct b eqn:Hkeep
    end; [|split; assumption].
    cbn [fst]. apply andb_true_iff in Hkeep as [_ Hlen].
    apply Happend; [split; assumption | exact Hlen | apply StrFacts.strip_idem].
Qed.

Lemma fallback_fold_map (lines : list string) :
  forall st,
    fallback_map (fst st) -> fallback_map (fst (fold_left fallback_line lines st)).
Proof.
  induction lines as [|line lines IH]; intros st Hst; cbn [fold_left].
  - exact Hst.
  - apply IH, fallback_line_map, Hst.
Qed.

Section Strict.

Variable json_loads : string -> exc pyval.
Variable list_of_set : list string -> list string.

Lemma clean_entities_strict (items : list (string * pyval)) :
  forall acc m,
    strict_map acc ->
    clean_entities list_of_set items acc = Val m ->
    strict_map m.
Proof.
  induction items as [|[category entity_list] items IH]; intros acc m Hacc Hrun.
  - cbn in Hrun. injection Hrun as <-. exact Hacc.
  - cbn [clean_entities] in Hrun.
    destruct entity_list as [| | | | |l|]; try (apply (IH acc m Hacc Hrun)).
    destruct (stripped_entities l) as [xs|e]; cbn [mbind exc_bind bind] in Hrun;
      [|discriminate Hrun].
    refine (IH _ m _ Hrun).
    destruct (firstn 20 (list_of_set xs)) as [|x rest] eqn:Hlist; [exact Hacc|].
    destruct Hacc as [Hnd Hall]. split.
    + apply dict_set_nodup, Hnd.
    + apply dict_set_forall; [cbn; discriminate | exact Hall].
Qed.

End Strict.

End EntityParserFacts.

(** X18: the fallback of the entity parser returns a map whose keys are among
    the eight category names, each at most once, and whose entities are
    trimmed strings longer than one character. *)
Theorem fallback_entities_are_trimmed (response_text : string) :
  EntityParserSpec.fallback_map
    (GeminiEntityExtractor._fallback_entity_parsing response_text).
Proof.
  unfold GeminiEntityExtractor._fallback_entity_parsing.
  apply (EntityParserFacts.fallback_fold_map
           (Str.split Str.newline response_text) ([], None)).
  split; constructor.
Qed.

(** X19: on the strict JSON path of the entity parser no category occurs
    twice in the result and none has an empty list: a category whose array
    holds no usable entity is left out. *)
Theorem strict_entities_omit_empty_categories
    (json_loads : string -> exc pyval) (list_of_set : list string -> list string)
    (response_text : string) (m : entity_map) :
  GeminiEntityExtractor.parse_entities_strict json_loads list_of_set response_text
  = Val m ->
  GeminiEntityExtractor._parse_entity_response json_loads list_of_set response_text
  = Val m /\
  EntityParserSpec.strict_map m.
Proof.
  intros Hstrict. split.
  - unfold GeminiEntityExtractor._parse_entity_response. rewrite Hstrict. reflexivity.
  - unfold GeminiEntityExtractor.parse_entities_strict in Hstrict.
    destruct (json_loads (GeminiEntityExtractor.json_candidate response_text))
      as [v|e]; cbn [mbind exc_bind bind] in Hstrict; [|discriminate Hstrict].
    destruct (Py.items_method v) as [items|e]; cbn [mbind exc_bind bind] in Hstrict;
      [|discriminate Hstrict].
    apply (EntityParserFacts.clean_entities_strict list_of_set items [] m);
      [split; constructor | exact Hstrict].
Qed.

(** The category DATES of [sparse_json_response] holds a one-character
    string and a blank: it is left out. *)
Lemma strict_entities_omit_empty_categories_witness :
  GeminiEntityExtractor._parse_entity_response Json.loads remove_dups
    EntityParserSpec.sparse_json_response
  = Val [("PERSONS", ["Alice"])]%string /\
  EntityParserSpec.strict_map [("PERSONS", ["Alice"])]%string.
Proof.
  apply (strict_entities_omit_empty_categories Json.loads remove_dups
           EntityParserSpec.sparse_json_response).
  vm_compute. reflexivity.
Defined.

(** ** One document run, further *)

Module RunFacts.

Import RunSpec.
Import Pipeline.

Lemma is_empty_eq (s : string) : Str.is_empty s = true <-> s = EmptyString.
Proof. destruct s; cbn; split; intros H; (reflexivity || discriminate H). Qed.

(** Every run of the enhanced processor ends in one of three ways. *)
Lemma enhanced_process_document_outcome
    (json_loads : string -> exc pyval) (list_of_set : list string -> list string)
    (py_str : pyval -> string) (w : world) (path : string) (aopts : option options) :
  enhanced_outcome json_loads list_of_set py_str w path
    (default EnhancedLegalDocumentProcessor.default_options aopts)
    (EnhancedLegalDocumentProcessor.process_document json_loads list_of_set py_str
       w path aopts).
Proof.
  unfold EnhancedLegalDocumentProcessor.process_document,
    EnhancedLegalDocumentProcessor.process_body.
  cbv zeta.
  set (opts := default EnhancedLegalDocumentProcessor.default_options aopts).
  destruct (_validate_file w) as [[|]|e]; cbn [mbind exc_bind bind negb];
    try constructor.
  destruct (enabled opts "extract_text" true).
  - destruct (extraction w) as [td|e] eqn:Hextract; cbn [mbind exc_bind bind];
      [|constructor].
    cbn [Py.truthy]. rewrite negb_involutive.
    destruct (Str.is_empty (text td)) eqn:Hempty.
    + apply EnhancedNoText; [exact Hextract | apply is_empty_eq, Hempty].
    + unfold EnhancedLegalDocumentProcessor.after_extraction, read_text_data.
      cbn [mbind exc_bind bind].
      apply EnhancedCompleted; [exact Hextract|].
      intros Heq. apply is_empty_eq in Heq. rewrite Heq in Hempty. discriminate Hempty.
  - unfold EnhancedLegalDocumentProcessor.after_extraction, read_text_data.
    cbn [mbind exc_bind bind]. constructor.
Qed.

Lemma basic_process_document_outcome
    (json_loads : string -> exc pyval) (list_of_set : list string -> list string)
    (w : world) (path : string) (aopts : option options) :
  basic_outcome json_loads list_of_set w path
    (default LegalDocumentProcessor.default_options aopts)
    (LegalDocumentProcessor.process_document json_loads list_of_set w path aopts).
Proof.
  unfold LegalDocumentProcessor.process_document,
    LegalDocumentProcessor.process_body.
  cbv zeta.
  set (opts := default LegalDocumentProcessor.default_options aopts).
  destruct (_validate_file w) as [[|]|e]; cbn [mbind exc_bind bind negb];
    try constructor.
  destruct (enabled opts "extract_text" true).
  - destruct (extraction w) as [td|e] eqn:Hextract; cbn [mbind exc_bind bind];
      [|constructor].
    cbn [Py.truthy]. rewrite negb_involutive.
    destruct (Str.is_empty (text td)) eqn:Hempty.
    + apply BasicNoText; [exact Hextract | apply is_empty_eq, Hempty].
    + unfold LegalDocumentProcessor.after_extraction, read_text_data.
      cbn [mbind exc_bind bind].
      apply BasicCompleted; [exact Hextract|].
      intros Heq. apply is_empty_eq in Heq. rewrite Heq in Hempty. discriminate Hempty.
  - unfold LegalDocumentProcessor.after_extraction, read_text_data.
    cbn [mbind exc_bind bind]. constructor.
Qed.

Lemma invalid_file_not_valid (w : world) :
  invalid_file w -> _validate_file w = Val false.
Proof.
  unfold _validate_file. intros [Hmissing | [Hexists [n [Hsize Hlarge]]]].
  - rewrite Hmissing. reflexivity.
  - rewrite Hexists, Hsize. cbn [negb mbind exc_bind bind].
    destruct (n >? MAX_FILE_SIZE_MB * 1024 * 1024) eqn:Hgt; [reflexivity|].
    rewrite Z.gtb_ltb in Hgt. apply Z.ltb_ge in Hgt. lia.
Qed.

(** The first characters of a string are a prefix of it. *)
Lemma substring_prefix (s : string) :
  forall n, String.prefix (substring 0 n s) s = true.
Proof.
  induction s as [|c s IH]; intros [|n]; cbn [substring String.prefix];
    try reflexivity.
  destruct (ascii_dec c c) as [_|Hne]; [apply IH | contradiction Hne; reflexivity].
Qed.

Lemma slice_prefix (s : string) (b : Z) :
  0 <= b -> String.prefix (Str.slice s 0 b) s = true.
Proof.
  intros Hb. unfold Str.slice, Str.clamp_index.
  destruct (0 <? 0) eqn:H0; [discriminate H0|].
  replace (Z.to_nat (Z.min 0 (Z.of_nat (String.length s)))) with 0%nat by lia.
  apply substring_prefix.
Qed.

End RunFacts.

(** X20: [process_document], of the enhanced and of the basic processor,
    never returns a result left in the status ['processing']: the status is
    ['completed'] and no error is recorded, or it is ['failed'] and an error
    is recorded. *)
Theorem process_document_ends_completed_or_failed
    (json_loads : string -> exc pyval) (list_of_set : list string -> list string)
    (py_str : pyval -> string) (w : world) (path : string) (aopts : option options) :
  let r :=
    EnhancedLegalDocumentProcessor.process_document json_loads list_of_set py_str
      w path aopts in
  let r' :=
    LegalDocumentProcessor.process_document json_loads list_of_set w path aopts in
  (EnhancedLegalDocumentProcessor.status r = "completed"%string /\
   EnhancedLegalDocumentProcessor.error r = None \/
   EnhancedLegalDocumentProcessor.status r = "failed"%string /\
   EnhancedLegalDocumentProcessor.error r <> None) /\
  (LegalDocumentProcessor.status r' = "completed"%string /\
   LegalDocumentProcessor.error r' = None \/
   LegalDocumentProcessor.status r' = "failed"%string /\
   LegalDocumentProcessor.error r' <> None).
Proof.
  cbv zeta. split.
  - destruct (RunFacts.enhanced_process_document_outcome json_loads list_of_set
                py_str w path aopts);
      [right | right | left]; split; (reflexivity || discriminate).
  - destruct (RunFacts.basic_process_document_outcome json_loads list_of_set
                w path aopts);
      [right | right | left]; split; (reflexivity || discriminate).
Qed.

(** X21: a file that does not exist, or that is larger than 20 MiB, is
    rejected before anything is extracted: both processors return the failed
    result with the error [ValueError('Invalid file: <path>')], without file
    name, extraction or stage output. *)
Theorem invalid_file_is_rejected
    (json_loads : string -> exc pyval) (list_of_set : list string -> list string)
    (py_str : pyval -> string) (w : world) (path : string) (aopts : option options) :
  RunSpec.invalid_file w ->
  EnhancedLegalDocumentProcessor.process_document json_loads list_of_set py_str
    w path aopts
  = EnhancedLegalDocumentProcessor.failed_results path
      (default EnhancedLegalDocumentProcessor.default_options aopts)
      (ValueError ("Invalid file: " +:+ path)) /\
  LegalDocumentProcessor.process_document json_loads list_of_set w path aopts
  = LegalDocumentProcessor.failed_results path
      (default LegalDocumentProcessor.default_options aopts)
      (ValueError ("Invalid file: " +:+ path)).
Proof.
  intros Hinvalid. apply RunFacts.invalid_file_not_valid in Hinvalid.
  unfold EnhancedLegalDocumentProcessor.process_document,
    EnhancedLegalDocumentProcessor.process_body,
    LegalDocumentProcessor.process_document,
    LegalDocumentProcessor.process_body.
  rewrite Hinvalid. split; reflexivity.
Qed.

Lemma invalid_file_is_rejected_witness :
  EnhancedLegalDocumentProcessor.process_document Json.loads remove_dups
    HighlightSpec.str_of_text RunSpec.oversized_world "bundle.pdf" None
  = EnhancedLegalDocumentProcessor.failed_results "bundle.pdf"
      EnhancedLegalDocumentProcessor.default_options
      (ValueError "Invalid file: bundle.pdf") /\
  LegalDocumentProcessor.process_document Json.loads remove_dups
    RunSpec.oversized_world "bundle.pdf" None
  = LegalDocumentProcessor.failed_results "bundle.pdf"
      LegalDocumentProcessor.default_options
      (ValueError "Invalid file: bundle.pdf").
Proof.
  apply (invalid_file_is_rejected Json.loads remove_dups HighlightSpec.str_of_text
           RunSpec.oversized_world "bundle.pdf" None).
  right. split; [reflexivity|]. eexists. split; [reflexivity|]. vm_compute. reflexivity.
Defined.

(** X22: in a completed run of the enhanced processor the extraction is
    recorded with a non-empty text, and the field of each analysis stage is
    populated exactly when the options enable the stage. *)
Theorem completed_run_fields_follow_options
    (json_loads : string -> exc pyval) (list_of_set : list string -> list string)
    (py_str : pyval -> string) (w : world) (path : string) (aopts : option options) :
  let opts := default EnhancedLegalDocumentProcessor.default_options aopts in
  let r :=
    EnhancedLegalDocumentProcessor.process_document json_loads list_of_set py_str
      w path aopts in
  EnhancedLegalDocumentProcessor.status r = "completed"%string ->
  (exists td,
     EnhancedLegalDocumentProcessor.text_extraction r = Some td /\
     extraction w = Val td /\ text td <> EmptyString) /\
  forall s,
    is_Some (PipelineSpec.stage_field r s) <-> PipelineSpec.stage_enabled opts s = true.
Proof.
  cbv zeta.
  destruct (RunFacts.enhanced_process_document_outcome json_loads list_of_set
              py_str w path aopts) as [e | td Hextract Hempty | td Hextract Htext];
    [discriminate | discriminate |].
  intros _. split.
  - exists td. split; [reflexivity | split; assumption].
  - intros s. destruct s;
      cbn [PipelineSpec.stage_field PipelineSpec.stage_enabled
           EnhancedLegalDocumentProcessor.run_stages
           EnhancedLegalDocumentProcessor.summary
           EnhancedLegalDocumentProcessor.entities
           EnhancedLegalDocumentProcessor.clauses
           EnhancedLegalDocumentProcessor.suggested_questions
           EnhancedLegalDocumentProcessor.bullet_points
           EnhancedLegalDocumentProcessor.risk_analysis];
      match goal with
      | |- context [if ?b then _ else _] => destruct b
      end; cbn [fmap option_fmap option_map]; split; intros H;
      first [reflexivity | eexists; reflexivity | discriminate H
            | destruct H as [x Hx]; discriminate Hx].
Qed.

(** The question stage is switched off: the run completes, and
    [suggested_questions] stays unset while the other stages report. *)
Lemma completed_run_fields_follow_options_witness :
  let r :=
    EnhancedLegalDocumentProcessor.process_document Json.loads remove_dups
      HighlightSpec.str_of_text PipelineSpec.sample_world "lease.txt"
      (Some RunSpec.no_questions_options) in
  (exists td,
     EnhancedLegalDocumentProcessor.text_extraction r = Some td /\
     extraction PipelineSpec.sample_world = Val td /\ text td <> EmptyString) /\
  forall s,
    is_Some (PipelineSpec.stage_field r s)
    <-> PipelineSpec.stage_enabled RunSpec.no_questions_options s = true.
Proof.
  apply (completed_run_fields_follow_options Json.loads remove_dups
           HighlightSpec.str_of_text PipelineSpec.sample_world "lease.txt"
           (Some RunSpec.no_questions_options)).
  vm_compute. reflexivity.
Defined.

(** X23: in a completed run of the enhanced processor [highlighted_text] and
    [clause_summary] are populated exactly when the clause stage ran and
    found at least one clause, and [qa_ready_text], when it is there, is a
    prefix of the extracted text of at most 10000 characters. *)
Theorem completed_run_derived_fields
    (json_loads : string -> exc pyval) (list_of_set : list string -> list string)
    (py_str : pyval -> string) (w : world) (path : string) (aopts : option options) :
  let r :=
    EnhancedLegalDocumentProcessor.process_document json_loads list_of_set py_str
      w path aopts in
  EnhancedLegalDocumentProcessor.status r = "completed"%string ->
  let found :=
    exists d,
      EnhancedLegalDocumentProcessor.clauses r = Some d /\
      GeminiClauseExtractor.clauses d <> [] in
  (is_Some (EnhancedLegalDocumentProcessor.highlighted_text r) <-> found) /\
  (is_Some (EnhancedLegalDocumentProcessor.clause_summary r) <-> found) /\
  (forall t,
     EnhancedLegalDocumentProcessor.qa_ready_text r = Some t ->
     Z.of_nat (String.length t) <= 10000 /\
     exists td,
       EnhancedLegalDocumentProcessor.text_extraction r = Some td /\
       String.prefix t (text td) = true).
Proof.
  cbv zeta.
  destruct (RunFacts.enhanced_process_document_outcome json_loads list_of_set
              py_str w path aopts) as [e | td Hextract Hempty | td Hextract Htext];
    [discriminate | discriminate |].
  intros _.
  cbn [EnhancedLegalDocumentProcessor.run_stages
       EnhancedLegalDocumentProcessor.highlighted_text
       EnhancedLegalDocumentProcessor.clause_summary
       EnhancedLegalDocumentProcessor.clauses
       EnhancedLegalDocumentProcessor.qa_ready_text
       EnhancedLegalDocumentProcessor.text_extraction].
  set (opts := default EnhancedLegalDocumentProcessor.default_options aopts).
  assert (Hfound :
    forall (A : Type) (f : list clause -> A) (o : option GeminiClauseExtractor.clause_data),
      is_Some (f <$> match o with
                     | Some d => match GeminiClauseExtractor.clauses d with
                                 | [] => None
                                 | cs => Some cs
                                 end
                     | None => None
                     end)
      <-> exists d, o = Some d /\ GeminiClauseExtractor.clauses d <> []).
  { intros A f [d|]; [|split; [intros [x Hx]; discriminate Hx
                             | intros [d [Hd _]]; discriminate Hd]].
    destruct (GeminiClauseExtractor.clauses d) as [|c cs] eqn:Hcs; split.
    - intros [x Hx]. discriminate Hx.
    - intros [d' [[= <-] Hne]]. rewrite Hcs in Hne. contradiction Hne. reflexivity.
    - intros _. exists d. split; [reflexivity | rewrite Hcs; discriminate].
    - intros _. eexists. reflexivity. }
  split; [apply Hfound|]. split; [apply Hfound|].
  intros t Ht.
  destruct (Pipeline.enabled opts "generate_qa_suggestions" true); [|discriminate Ht].
  injection Ht as <-. split.
  - pose proof (TextFacts.slice_length_le (text td) 10000). lia.
  - exists td. split; [reflexivity | apply RunFacts.slice_prefix; lia].
Qed.

Lemma completed_run_derived_fields_witness :
  let r :=
    EnhancedLegalDocumentProcessor.process_document Json.loads remove_dups
      HighlightSpec.str_of_text PipelineSpec.sample_world "lease.txt" None in
  let found :=
    exists d,
      EnhancedLegalDocumentProcessor.clauses r = Some d /\
      GeminiClauseExtractor.clauses d <> [] in
  (is_Some (EnhancedLegalDocumentProcessor.highlighted_text r) <-> found) /\
  (is_Some (EnhancedLegalDocumentProcessor.clause_summary r) <-> found) /\
  (forall t,
     EnhancedLegalDocumentProcessor.qa_ready_text r = Some t ->
     Z.of_nat (String.length t) <= 10000 /\
     exists td,
       EnhancedLegalDocumentProcessor.text_extraction r = Some td /\
       String.prefix t (text td) = true).
Proof.
  apply (completed_run_derived_fields Json.loads remove_dups
           HighlightSpec.str_of_text PipelineSpec.sample_world "lease.txt" None).
  vm_compute. reflexivity.
Defined.

(** ** The batch driver, further *)

Module BatchRunFacts.

Import BatchSpec.
Import Pipeline.
Import LegalDocumentProcessor.

Section Loop.

Variable json_loads : string -> exc pyval.
Variable list_of_set : list string -> list string.
Variable bw : batch_world.
Variable aopts : option options.

Abbreviation result_of := (BatchSpec.result_of json_loads list_of_set bw aopts).
Abbreviation completes := (BatchSpec.completes json_loads list_of_set bw aopts).



End Loop.

End BatchRunFacts.

(** X24: for every list of paths, [process_multiple_documents] reports
    [total_documents] as the length of the list and counts every path once
    as processed or as failed, so that the two counts add up to it, also when
    a path occurs twice; [individual_results] has an entry for exactly the
    paths of the list, and the entry is the result of the run on that path. *)
Theorem batch_counts_add_up
    (json_loads : string -> exc pyval) (list_of_set : list string -> list string)
    (bw : LegalDocumentProcessor.batch_world) (paths : list string)
    (aopts : option options) :
  let b :=
    LegalDocumentProcessor.process_multiple_documents json_loads list_of_set
      bw paths aopts in
  LegalDocumentProcessor.total_documents b = Z.of_nat (List.length paths) /\
  LegalDocumentProcessor.processed_successfully b + LegalDocumentProcessor.failed b
  = LegalDocumentProcessor.total_documents b /\
  forall p,
    LegalDocumentProcessor.individual_results b !! p
    = if in_dec string_dec p paths
      then Some (BatchSpec.result_of json_loads list_of_set bw aopts p)
      else None.
Proof.
  cbv zeta.
  destruct (BatchFacts.batch_fields json_loads list_of_set bw aopts paths)
    as (Htotal & Hdone & Hfailed & Hresults).
  destruct (BatchFacts.batch_loop json_loads list_of_set bw aopts paths
              (LegalDocumentProcessor.initial_batch paths, []))
    as (Htotal' & Hdone' & Hfailed' & Hresults' & _).
  cbn [fst] in Htotal', Hdone', Hfailed', Hresults'.
  rewrite Htotal, Hdone, Hfailed, Hresults, Htotal', Hdone', Hfailed', Hresults'.
  cbn [LegalDocumentProcessor.initial_batch LegalDocumentProcessor.total_documents
       LegalDocumentProcessor.processed_successfully LegalDocumentProcessor.failed
       LegalDocumentProcessor.individual_results].
  split; [reflexivity|]. split.
  - pose proof (List.filter_length
                  (BatchSpec.completes json_loads list_of_set bw aopts) paths) as Hsplit.
    cbn in Hsplit. lia.
  - intros p. destruct (in_dec string_dec p paths) as [Hin|Hin].
    + apply BatchFacts.stored_lookup. exact Hin.
    + rewrite BatchFacts.stored_other by exact Hin. apply lookup_empty.
Qed.


(** ** Highlighting, further *)

Module HighlightRunFacts.

Import HighlightRunSpec.
Import GeminiClauseExtractor.

Lemma insert_by_length_in (c x : clause) (sorted : list clause) :
  In x (insert_by_length c sorted) -> x = c \/ In x sorted.
Proof.
  induction sorted as [|d rest IH]; cbn [insert_by_length].
  - intros [<-|[]]. left. reflexivity.
  - destruct (String.length (clause_text c) <? String.length (clause_text d))%nat.
    + intros [<-|Hin]; [right; left; reflexivity|].
      destruct (IH Hin) as [->|Hrest]; [left; reflexivity | right; right; exact Hrest].
    + intros [<-|Hin]; [left; reflexivity | right; exact Hin].
Qed.

Lemma sorted_clauses_in (clauses : list clause) (x : clause) :
  In x (sorted_clauses clauses) -> In x clauses.
Proof.
  unfold sorted_clauses. induction clauses as [|c rest IH]; cbn [fold_right].
  - intros [].
  - intros Hin. destruct (insert_by_length_in c x _ Hin) as [->|Hrest].
    + left. reflexivity.
    + right. apply IH, Hrest.
Qed.

Lemma highlight_loop_absent (py_str : pyval -> string) (text : string)
    (clauses : list clause) :
  Forall (fun c => absent_from text c = true) clauses ->
  highlight_loop py_str text clauses = Val text.
Proof.
  induction 1 as [|c rest Hc _ IH]; cbn [highlight_loop]; [reflexivity|].
  unfold highlight_clause. unfold absent_from in Hc. cbv zeta in Hc.
  destruct (Str.is_empty (Str.strip (clause_text c))); cbn [negb andb orb] in *.
  - cbn [mbind exc_bind bind]. exact IH.
  - apply negb_true_iff in Hc. rewrite Hc. cbn [mbind exc_bind bind]. exact IH.
Qed.

End HighlightRunFacts.

(** X26: when no clause has a trimmed text that occurs in the document,
    [highlight_clauses_in_text] returns the document unchanged. *)
Theorem highlight_without_match_changes_nothing
    (py_str : pyval -> string) (text : string) (clauses : list clause) :
  forallb (HighlightRunSpec.absent_from text) clauses = true ->
  GeminiClauseExtractor.highlight_clauses_in_text py_str text clauses = text.
Proof.
  intros Habsent. unfold GeminiClauseExtractor.highlight_clauses_in_text.
  rewrite HighlightRunFacts.highlight_loop_absent; [reflexivity|].
  apply List.Forall_forall. intros c Hc.
  apply HighlightRunFacts.sorted_clauses_in in Hc.
  rewrite forallb_forall in Habsent. apply Habsent, Hc.
Qed.

(** The stray clause quotes a sentence the document does not hold. *)
Lemma highlight_without_match_changes_nothing_witness :
  GeminiClauseExtractor.highlight_clauses_in_text HighlightSpec.str_of_text
    "The parties agree to meet once a year." [HighlightSpec.payment_clause]
  = "The parties agree to meet once a year."%string.
Proof.
  apply highlight_without_match_changes_nothing. vm_compute. reflexivity.
Defined.

(** ** The summarizer *)

Module SummarizerFacts.

Import SummarizerSpec.
Import GeminiSummarizer.

Lemma add_risk_items (analysis_text item : string) (sec : risk_section)
    (a : risk_analysis) :
  item_of analysis_text item ->
  items_of analysis_text a ->
  items_of analysis_text (add_risk sec item a).
Proof.
  intros Hitem (Hh & Hm & Hr & Hc).
  assert (Happ : forall l, Forall (item_of analysis_text) l ->
                           Forall (item_of analysis_text) (l ++ [item])).
  { intros l Hl. apply Forall_app. split; [exact Hl | constructor; [exact Hitem | constructor]]. }
  destruct sec; unfold items_of; cbn; auto.
Qed.

Lemma risk_line_items (analysis_text : string)
    (st : risk_analysis * option risk_section) (raw_line : string) :
  In raw_line (Str.split Str.newline analysis_text) ->
  items_of analysis_text (fst st) ->
  items_of analysis_text (fst (risk_line st raw_line)).
Proof.
  intros Hline. destruct st as [a sec]. cbn [fst]. intros Ha. unfold risk_line.
  destruct (Str.contains "HIGH RISK" (Str.upper (Str.strip raw_line))) eqn:H1;
    [exact Ha|].
  destruct (Str.contains "MEDIUM RISK" (Str.upper (Str.strip raw_line))) eqn:H2;
    [exact Ha|].
  destruct (Str.contains "RECOMMENDATIONS" (Str.upper (Str.strip raw_line))) eqn:H3;
    [exact Ha|].
  destruct (Str.contains "COMPLIANCE" (Str.upper (Str.strip raw_line))) eqn:H4;
    [exact Ha|].
  destruct sec as [sec|]; [|exact Ha].
  destruct (Str.startswith (Str.strip raw_line) "-") eqn:Hdash; [|exact Ha].
  cbn [fst]. apply add_risk_items; [|exact Ha].
  exists raw_line. split; [exact Hline|]. split.
  - unfold is_header. rewrite H1, H2, H3, H4. reflexivity.
  - split; [exact Hdash | reflexivity].
Qed.

Lemma risk_fold_items (analysis_text : string) (lines : list string) :
  forall st,
    incl lines (Str.split Str.newline analysis_text) ->
    items_of analysis_text (fst st) ->
    items_of analysis_text (fst (fold_left risk_line lines st)).
Proof.
  induction lines as [|line lines IH]; intros st Hincl Hst; cbn [fold_left].
  - exact Hst.
  - apply IH.
    + intros x Hx. apply Hincl. right. exact Hx.
    + apply risk_line_items; [apply Hincl; left; reflexivity | exact Hst].
Qed.

(** Without a header the loop never leaves its first state. *)
Lemma risk_fold_headless (lines : list string) :
  forallb (fun line => negb (is_header (Str.strip line))) lines = true ->
  fold_left risk_line lines (no_risks, None) = (no_risks, None).
Proof.
  induction lines as [|line lines IH]; intros Hall; cbn [fold_left]; [reflexivity|].
  cbn [forallb] in Hall. apply andb_true_iff in Hall as [Hline Hrest].
  apply negb_true_iff in Hline. unfold is_header in Hline.
  apply orb_false_iff in Hline as [Hline H4].
  apply orb_false_iff in Hline as [Hline H3].
  apply orb_false_iff in Hline as [H1 H2].
  unfold risk_line at 2. rewrite H1, H2, H3, H4. apply IH, Hrest.
Qed.

End SummarizerFacts.

(** X27: the key points of a summary are at most ten, and each is a trimmed
    line of the summary that is longer than 10 characters. *)
Theorem key_points_are_long_lines (summary_text : string) :
  let points := GeminiSummarizer._extract_key_points summary_text in
  (List.length points <= 10)%nat /\
  Forall (SummarizerSpec.key_point_of summary_text) points.
Proof.
  cbv zeta. unfold GeminiSummarizer._extract_key_points. split.
  - rewrite List.length_firstn. lia.
  - apply Forall_take. apply List.Forall_forall. intros point Hpoint.
    apply List.filter_In in Hpoint as [Hin Hkeep].
    apply andb_true_iff in Hkeep as [_ Hlen].
    apply List.in_map_iff in Hin as [line [<- Hline]].
    split; [apply Nat.ltb_lt, Hlen|].
    exists line. split; [exact Hline | reflexivity].
Qed.

(** X28: every item that [_parse_risk_analysis] files under one of its four
    lists is what follows the dash of a line that starts with a dash and
    names no section: a dash line in which a section keyword occurs is read
    as a header and its content is not recorded. *)
Theorem risk_items_come_from_dash_lines (analysis_text : string) :
  SummarizerSpec.items_of analysis_text
    (GeminiSummarizer._parse_risk_analysis analysis_text).
Proof.
  unfold GeminiSummarizer._parse_risk_analysis.
  apply (SummarizerFacts.risk_fold_items analysis_text
           (Str.split Str.newline analysis_text) (GeminiSummarizer.no_risks, None)).
  - intros x Hx. exact Hx.
  - repeat split; constructor.
Qed.

(** X29: when no line of the response names a section, the four lists of the
    risk analysis are empty, dash lines or not. *)
Theorem risk_analysis_needs_a_header (analysis_text : string) :
  forallb (fun line => negb (SummarizerSpec.is_header (Str.strip line)))
    (Str.split Str.newline analysis_text) = true ->
  GeminiSummarizer._parse_risk_analysis analysis_text = GeminiSummarizer.no_risks.
Proof.
  intros Hheadless. unfold GeminiSummarizer._parse_risk_analysis.
  rewrite (SummarizerFacts.risk_fold_headless _ Hheadless). reflexivity.
Qed.

Lemma risk_analysis_needs_a_header_witness :
  GeminiSummarizer._parse_risk_analysis SummarizerSpec.headless_analysis
  = GeminiSummarizer.no_risks.
Proof.
  apply risk_analysis_needs_a_header. vm_compute. reflexivity.
Defined.

(** ** The Gemini text extractor *)

(** X30: [extract_text_from_file] never waits for an upload: when the
    uploaded file is reported in the state PROCESSING it returns the empty
    record (no text, 0 pages, confidence 0.0), because the waiting loop calls
    [time.sleep] in a module that does not import [time].  It returns
    anything else only when the upload succeeded in a state other than
    PROCESSING and FAILED and the model call succeeded, and then the record
    holds the text of the model with 1 page and confidence 0.9. *)
Theorem extract_text_never_waits_for_processing (upload generate : exc string) :
  let d := GeminiTextExtractor.extract_text_from_file upload generate in
  (upload = Val "PROCESSING"%string -> d = GeminiTextExtractor.nothing_extracted) /\
  (d <> GeminiTextExtractor.nothing_extracted ->
   exists state response_text,
     upload = Val state /\
     state <> "PROCESSING"%string /\ state <> "FAILED"%string /\
     generate = Val response_text /\
     d = GeminiTextExtractor.extracted response_text).
Proof.
  cbv zeta. unfold GeminiTextExtractor.extract_text_from_file,
    GeminiTextExtractor.extract_body.
  split.
  - intros ->. reflexivity.
  - destruct upload as [state|e]; cbn [mbind exc_bind bind];
      [|intros Hne; contradiction Hne; reflexivity].
    destruct (String.eqb state "PROCESSING") eqn:Hprocessing;
      [intros Hne; contradiction Hne; reflexivity|].
    destruct (String.eqb state "FAILED") eqn:Hfailed;
      [intros Hne; contradiction Hne; reflexivity|].
    destruct generate as [response_text|e]; cbn [mbind exc_bind bind];
      [|intros Hne; contradiction Hne; reflexivity].
    intros _. exists state, response_text.
    apply String.eqb_neq in Hprocessing, Hfailed.
    repeat split; assumption || reflexivity.
Qed.
